(** * simple_offboard: simplified copter control in OFFBOARD mode

    A shallow embedding of [clever/src/simple_offboard.cpp] and the
    properties of its command arbiter, publisher loop, navigation
    interpolator, geodesic projection and telemetry service.

    Layout of the development:
    - numbers: the node computes on C++ [float] and [double]; every
      function is written once over an interface [Arith] of IEEE-754
      operations, with two instances: [IEEE] (bit-exact binary64 and
      binary32 on [spec_float], executable) and [Ideal] (rounding-free
      arithmetic on the reals extended with NaN and the two infinities);
    - messages: one record per ROS message type that the node touches;
    - effects: the global variables of the node, the messages it has
      published and what the ROS runtime shows it form a [World]; code is
      written in a small state-and-exception monad over it;
    - the functions of the source, in the order of the source;
    - theorems: the command arbiter, the publisher, the telemetry
      service, the return of the handlers on a runtime that stays up,
      the interpolator in both arithmetics, and each theorem at work on
      a concrete node. *)

From Stdlib Require Import ZArith List String Bool Lia DecimalString.
From Stdlib Require Import Reals Lra.
From Stdlib Require Import Floats.SpecFloat.
Import ListNotations.

Local Open Scope Z_scope.
Local Open Scope string_scope.

(** ** Time

    [ros::Time] and [ros::Duration] hold seconds and nanoseconds; both are
    kept as a count of nanoseconds.  (The 32-bit range of their fields is
    not modelled: arithmetic on stamps never leaves it in the node.) *)

Definition Time := Z.
Definition Duration := Z.

Definition seconds (s : Z) : Duration := s * 1000000000.
Definition millis (ms : Z) : Duration := ms * 1000000.

(** ** Arithmetic

    [num] carries both [double] and [float] values: every binary32 value
    is a binary64 value, [to_float] is the conversion [double -> float] and
    [divf] the division of two [float]s in single precision. *)

Class Arith (num : Type) := {
  zero : num;
  one : num;
  NAN : num;
  add : num -> num -> num;
  sub : num -> num -> num;
  mul : num -> num -> num;
  div : num -> num -> num;
  divf : num -> num -> num;
  std_sqrt : num -> num;
  ltb : num -> num -> bool;
  eqb : num -> num -> bool;
  std_isnan : num -> bool;
  std_isinf : num -> bool;
  to_float : num -> num;
  (* ros::Duration::toSec *)
  toSec : Duration -> num;
  (* a literal of the source that is an integer *)
  of_int : Z -> num
}.

Declare Scope num_scope.
Delimit Scope num_scope with num.
Infix "+" := add : num_scope.
Infix "-" := sub : num_scope.
Infix "*" := mul : num_scope.
Infix "/" := div : num_scope.
Infix "<?" := ltb : num_scope.
Infix "=?" := eqb : num_scope.

(** [std::min(a, b)] is [(b < a) ? b : a]; [a > b] is [b < a];
    [a != b] is [!(a == b)]. *)
Definition std_min {num} `{Arith num} (a b : num) : num :=
  if (b <? a)%num then b else a.

Definition gtb {num} `{Arith num} (a b : num) : bool := (b <? a)%num.
Definition neqb {num} `{Arith num} (a b : num) : bool := negb (a =? b)%num.

(** ** Messages *)

Module Header.
Record t := { stamp : Time; frame_id : string }.
Definition with_stamp (s : Time) (h : t) : t :=
    {| stamp := s; frame_id := frame_id h |}.
Definition with_frame_id (f : string) (h : t) : t :=
    {| stamp := stamp h; frame_id := f |}.
Definition empty : t := {| stamp := 0; frame_id := "" |}.
End Header.

Module Point.
Section Def.
Context {num : Type}.
Record t := { x : num; y : num; z : num }.
End Def.
Arguments t : clear implicits.
End Point.

Module Vector3.
Section Def.
Context {num : Type}.
Record t := { x : num; y : num; z : num }.
End Def.
Arguments t : clear implicits.
End Vector3.

Module Quaternion.
Section Def.
Context {num : Type}.
Record t := { x : num; y : num; z : num; w : num }.
End Def.
Arguments t : clear implicits.
End Quaternion.

Module Pose.
Section Def.
Context {num : Type}.
Record t := { position : Point.t num; orientation : Quaternion.t num }.
Definition with_position (p : Point.t num) (m : t) : t :=
      {| position := p; orientation := orientation m |}.
Definition with_orientation (q : Quaternion.t num) (m : t) : t :=
      {| position := position m; orientation := q |}.
End Def.
Arguments t : clear implicits.
End Pose.

Module PoseStamped.
Section Def.
Context {num : Type}.
Record t := { header : Header.t; pose : Pose.t num }.
Definition with_header (h : Header.t) (m : t) : t :=
      {| header := h; pose := pose m |}.
Definition with_pose (p : Pose.t num) (m : t) : t :=
      {| header := header m; pose := p |}.
Definition with_stamp (s : Time) (m : t) : t :=
      with_header (Header.with_stamp s (header m)) m.
Definition with_frame_id (f : string) (m : t) : t :=
      with_header (Header.with_frame_id f (header m)) m.
Definition with_position (p : Point.t num) (m : t) : t :=
      with_pose (Pose.with_position p (pose m)) m.
Definition with_orientation (q : Quaternion.t num) (m : t) : t :=
      with_pose (Pose.with_orientation q (pose m)) m.
End Def.
Arguments t : clear implicits.
End PoseStamped.

Module Vector3Stamped.
Section Def.
Context {num : Type}.
Record t := { header : Header.t; vector : Vector3.t num }.
Definition with_header (h : Header.t) (m : t) : t :=
      {| header := h; vector := vector m |}.
Definition with_vector (v : Vector3.t num) (m : t) : t :=
      {| header := header m; vector := v |}.
Definition with_stamp (s : Time) (m : t) : t :=
      with_header (Header.with_stamp s (header m)) m.
End Def.
Arguments t : clear implicits.
End Vector3Stamped.

Module Twist.
Section Def.
Context {num : Type}.
Record t := { linear : Vector3.t num; angular : Vector3.t num }.
End Def.
Arguments t : clear implicits.
End Twist.

Module TwistStamped.
Section Def.
Context {num : Type}.
Record t := { header : Header.t; twist : Twist.t num }.
Definition with_header (h : Header.t) (m : t) : t :=
      {| header := h; twist := twist m |}.
Definition with_stamp (s : Time) (m : t) : t :=
      with_header (Header.with_stamp s (header m)) m.
Definition with_angular (a : Vector3.t num) (m : t) : t :=
      {| header := header m;
         twist := {| Twist.linear := Twist.linear (twist m); Twist.angular := a |} |}.
End Def.
Arguments t : clear implicits.
End TwistStamped.

Module Transform.
Section Def.
Context {num : Type}.
Record t := { translation : Vector3.t num; rotation : Quaternion.t num }.
End Def.
Arguments t : clear implicits.
End Transform.

Module TransformStamped.
Section Def.
Context {num : Type}.
Record t := { header : Header.t; child_frame_id : string;
                  transform : Transform.t num }.
Definition with_header (h : Header.t) (m : t) : t :=
      {| header := h; child_frame_id := child_frame_id m;
         transform := transform m |}.
Definition with_transform (x : Transform.t num) (m : t) : t :=
      {| header := header m; child_frame_id := child_frame_id m;
         transform := x |}.
End Def.
Arguments t : clear implicits.
End TransformStamped.

Module NavSatFix.
Section Def.
Context {num : Type}.
Record t := { header : Header.t; latitude : num; longitude : num;
                  altitude : num }.
End Def.
Arguments t : clear implicits.
End NavSatFix.

Module BatteryState.
Section Def.
Context {num : Type}.
Record t := { header : Header.t; voltage : num; cell_voltage : list num }.
End Def.
Arguments t : clear implicits.
End BatteryState.

(* mavros_msgs/State *)
Module State.
Record t := { header : Header.t; connected : bool; armed : bool;
                mode : string }.
End State.

Module StatusText.
Record t := { header : Header.t; text : string }.
End StatusText.

Module Thrust.
Section Def.
Context {num : Type}.
Record t := { header : Header.t; thrust : num }.
Definition with_stamp (s : Time) (m : t) : t :=
      {| header := Header.with_stamp s (header m); thrust := thrust m |}.
Definition with_thrust (v : num) (m : t) : t :=
      {| header := header m; thrust := v |}.
End Def.
Arguments t : clear implicits.
End Thrust.

(** mavros_msgs/PositionTarget and mavros_msgs/AttitudeTarget.  The
    message declarations are not part of the repository's sources; their
    constants are the ones of the MAVLink messages SET_POSITION_TARGET_LOCAL_NED
    and SET_ATTITUDE_TARGET, one bit of [type_mask] each. *)
Module PositionTarget.
Section Def.
Context {num : Type}.
Record t := { header : Header.t; coordinate_frame : Z; type_mask : Z;
              position : Point.t num; velocity : Vector3.t num;
              yaw : num; yaw_rate : num }.
Definition with_stamp (s : Time) (m : t) : t :=
  {| header := Header.with_stamp s (header m);
     coordinate_frame := coordinate_frame m; type_mask := type_mask m;
     position := position m; velocity := velocity m;
     yaw := yaw m; yaw_rate := yaw_rate m |}.
Definition with_type_mask (k : Z) (m : t) : t :=
  {| header := header m; coordinate_frame := coordinate_frame m;
     type_mask := k; position := position m; velocity := velocity m;
     yaw := yaw m; yaw_rate := yaw_rate m |}.
Definition with_position (p : Point.t num) (m : t) : t :=
  {| header := header m; coordinate_frame := coordinate_frame m;
     type_mask := type_mask m; position := p; velocity := velocity m;
     yaw := yaw m; yaw_rate := yaw_rate m |}.
Definition with_velocity (v : Vector3.t num) (m : t) : t :=
  {| header := header m; coordinate_frame := coordinate_frame m;
     type_mask := type_mask m; position := position m; velocity := v;
     yaw := yaw m; yaw_rate := yaw_rate m |}.
Definition with_yaw (a : num) (m : t) : t :=
  {| header := header m; coordinate_frame := coordinate_frame m;
     type_mask := type_mask m; position := position m;
     velocity := velocity m; yaw := a; yaw_rate := yaw_rate m |}.
Definition with_yaw_rate (r : num) (m : t) : t :=
  {| header := header m; coordinate_frame := coordinate_frame m;
     type_mask := type_mask m; position := position m;
     velocity := velocity m; yaw := yaw m; yaw_rate := r |}.
End Def.
Arguments t : clear implicits.
Definition FRAME_LOCAL_NED : Z := 1.
Definition IGNORE_PX : Z := 1.
Definition IGNORE_PY : Z := 2.
Definition IGNORE_PZ : Z := 4.
Definition IGNORE_VX : Z := 8.
Definition IGNORE_VY : Z := 16.
Definition IGNORE_VZ : Z := 32.
Definition IGNORE_AFX : Z := 64.
Definition IGNORE_AFY : Z := 128.
Definition IGNORE_AFZ : Z := 256.
Definition FORCE : Z := 512.
Definition IGNORE_YAW : Z := 1024.
Definition IGNORE_YAW_RATE : Z := 2048.
End PositionTarget.

Module AttitudeTarget.
Section Def.
Context {num : Type}.
Record t := { header : Header.t; type_mask : Z;
              orientation : Quaternion.t num; body_rate : Vector3.t num;
              thrust : num }.
End Def.
Arguments t : clear implicits.
Definition IGNORE_ROLL_RATE : Z := 1.
Definition IGNORE_PITCH_RATE : Z := 2.
Definition IGNORE_YAW_RATE : Z := 4.
Definition IGNORE_THRUST : Z := 64.
Definition IGNORE_ATTITUDE : Z := 128.
End AttitudeTarget.

(** Bit [k] of a [type_mask] is asserted. *)
Definition asserted (bit mask : Z) : bool := negb (Z.eqb (Z.land mask bit) 0).

(** The response of every command service of the node
    (clever/Navigate, ..., std_srvs/Trigger): [success] and [message].
    ROS hands the handler a default-constructed response. *)
Module Response.
Record t := { success : bool; message : string }.
Definition with_success (b : bool) (r : t) : t :=
  {| success := b; message := message r |}.
Definition with_message (m : string) (r : t) : t :=
  {| success := success r; message := m |}.
Definition default : t := {| success := false; message := "" |}.
End Response.

(** ** Requests *)

Module GetTelemetry.
Module Request.
Record t := { frame_id : string }.
End Request.
Module Response.
Section Def.
Context {num : Type}.
Record t := {
  frame_id : string;
  connected : bool; armed : bool; mode : string;
  x : num; y : num; z : num;
  lat : num; lon : num; alt : num;
  vx : num; vy : num; vz : num;
  pitch : num; roll : num; yaw : num;
  pitch_rate : num; roll_rate : num; yaw_rate : num;
  voltage : num; cell_voltage : num
}.
End Def.
Arguments t : clear implicits.
End Response.
End GetTelemetry.

Module Navigate.
Section Def.
Context {num : Type}.
Record Request := { x : num; y : num; z : num; yaw : num; yaw_rate : num;
                    speed : num; frame_id : string; auto_arm : bool }.
End Def.
Arguments Request : clear implicits.
End Navigate.

Module NavigateGlobal.
Section Def.
Context {num : Type}.
Record Request := { lat : num; lon : num; z : num; yaw : num;
                    yaw_rate : num; speed : num; frame_id : string;
                    auto_arm : bool }.
End Def.
Arguments Request : clear implicits.
End NavigateGlobal.

Module SetPosition.
Section Def.
Context {num : Type}.
Record Request := { x : num; y : num; z : num; yaw : num; yaw_rate : num;
                    frame_id : string; auto_arm : bool }.
End Def.
Arguments Request : clear implicits.
End SetPosition.

Module SetVelocity.
Section Def.
Context {num : Type}.
Record Request := { vx : num; vy : num; vz : num; yaw : num;
                    yaw_rate : num; frame_id : string; auto_arm : bool }.
End Def.
Arguments Request : clear implicits.
End SetVelocity.

Module SetAttitude.
Section Def.
Context {num : Type}.
Record Request := { pitch : num; roll : num; yaw : num; thrust : num;
                    frame_id : string; auto_arm : bool }.
End Def.
Arguments Request : clear implicits.
End SetAttitude.

Module SetRates.
Section Def.
Context {num : Type}.
Record Request := { pitch_rate : num; roll_rate : num; yaw_rate : num;
                    thrust : num; auto_arm : bool }.
End Def.
Arguments Request : clear implicits.
End SetRates.

(** ** Library functions

    Functions of libm, libstdc++ and tf/tf2 that the node calls. *)

Class Libs (num : Type) := {
  std_sin : num -> num;
  std_cos : num -> num;
  std_atan2 : num -> num -> num;
  M_PI : num;
  std_to_string : num -> string;
  createQuaternionMsgFromRollPitchYaw : num -> num -> num -> Quaternion.t num;
  getYaw : Quaternion.t num -> num;
  (* tf2::getEulerYPR: yaw, pitch, roll *)
  getEulerYPR : Quaternion.t num -> num * num * num
}.

(** [Geodesic_Inverse lat1 lon1 lat2 lon2] is
    [GeographicLib::Geodesic::WGS84().Inverse] with its three outputs
    [(s12, azi1, azi2)]: the distance in metres, the azimuth at point 1
    and the (forward) azimuth at point 2, both in degrees clockwise from
    north. *)
Class Geodesic (num : Type) := {
  Geodesic_Inverse : num -> num -> num -> num -> num * num * num
}.

(** ** The node's variables and the ROS runtime *)

Inductive setpoint_type_t :=
  NONE | NAVIGATE | NAVIGATE_GLOBAL | POSITION | VELOCITY | ATTITUDE | RATES.

Inductive setpoint_yaw_type_t := YAW | YAW_RATE | TOWARDS.

Definition setpoint_type_eqb (a b : setpoint_type_t) : bool :=
  match a, b with
  | NONE, NONE | NAVIGATE, NAVIGATE | NAVIGATE_GLOBAL, NAVIGATE_GLOBAL
  | POSITION, POSITION | VELOCITY, VELOCITY | ATTITUDE, ATTITUDE
  | RATES, RATES => true
  | _, _ => false
  end.

Definition setpoint_yaw_type_eqb (a b : setpoint_yaw_type_t) : bool :=
  match a, b with
  | YAW, YAW | YAW_RATE, YAW_RATE | TOWARDS, TOWARDS => true
  | _, _ => false
  end.

(** What a tf2 call or a service call gives back: a value, or the
    exception it throws (a [tf2::TransformException] is a
    [std::runtime_error]). *)
Inductive result (A : Type) := Ok (a : A) | Err (what : string).
Arguments Ok {A} a.
Arguments Err {A} what.

(** How a piece of the node's code ends (see the monad below). *)
Inductive outcome (A : Type) :=
| Val (a : A)
| Throw (what : string)
| Undefined
| Diverge.
Arguments Val {A} a.
Arguments Throw {A} what.
Arguments Undefined {A}.
Arguments Diverge {A}.

Section Node.
Context {num : Type}.

(** Parameters, read once in [main]. *)
Record Params := {
  local_frame : string;
  fcu_frame : string;
  transform_timeout : Duration;
  telemetry_transform_timeout : Duration;
  offboard_timeout : Duration;
  land_timeout : Duration;
  arming_timeout : Duration;
  local_position_timeout : Duration;
  state_timeout : Duration;
  velocity_timeout : Duration;
  global_position_timeout : Duration;
  battery_timeout : Duration;
  default_speed : num;
  auto_release : bool;
  land_only_in_offboard : bool;
  reference_frames : list (string * string)
}.

(** "Containers": the messages the publisher fills and sends. *)
Record Containers := {
  position_msg : PoseStamped.t num;
  position_raw_msg : PositionTarget.t num;
  att_raw_msg : AttitudeTarget.t num;
  thrust_msg : Thrust.t num;
  rates_msg : TwistStamped.t num;
  target : TransformStamped.t num;
  body : TransformStamped.t num
}.

(** "State": the current setpoint and the two flags. *)
Record Setpoint := {
  nav_start : PoseStamped.t num;
  setpoint_position : PoseStamped.t num;
  setpoint_position_transformed : PoseStamped.t num;
  setpoint_velocity : Vector3Stamped.t num;
  setpoint_velocity_transformed : Vector3Stamped.t num;
  setpoint_yaw_rate : num;
  nav_speed : num;
  busy : bool;
  wait_armed : bool;
  setpoint_type : setpoint_type_t;
  setpoint_yaw_type : setpoint_yaw_type_t
}.

(** "Last received telemetry messages". *)
Record Telemetry := {
  state : State.t;
  statustext : StatusText.t;
  local_position : PoseStamped.t num;
  velocity : TwistStamped.t num;
  global_position : NavSatFix.t num;
  battery : BatteryState.t num
}.

(** All variables of the node: the four groups above, whether
    [setpoint_timer] is started, and the two [static] locals of [serve],
    which keep their value from one call to the next. *)
Record Globals := {
  params : Params;
  containers : Containers;
  sp : Setpoint;
  telemetry : Telemetry;
  setpoint_timer : bool;
  serve_ps : PoseStamped.t num;
  serve_vel : Vector3Stamped.t num
}.

(** The transform buffer: whether a transform is known, and the result
    of re-expressing a pose or a vector in a frame within a timeout. *)
Record Tf := {
  canTransform : string -> string -> Time -> bool;
  transform_pose :
    PoseStamped.t num -> string -> Duration -> result (PoseStamped.t num);
  transform_vector :
    Vector3Stamped.t num -> string -> Duration ->
    result (Vector3Stamped.t num);
  lookupTransform :
    string -> string -> Time -> result (TransformStamped.t num)
}.

(** A callback that waits in the node's callback queue: a message for
    one of the subscribers of [main], a tick of [setpoint_timer], or a
    request for one of the services. *)
Inductive Callback :=
| state_sub (m : State.t)
| velocity_sub (m : TwistStamped.t num)
| global_position_sub (m : NavSatFix.t num)
| battery_sub (m : BatteryState.t num)
| statustext_sub (m : StatusText.t)
| local_position_sub (m : PoseStamped.t num)
| timer_event (current_real : Time)
| gt_serv (req : GetTelemetry.Request.t)
| na_serv (req : Navigate.Request num)
| ng_serv (req : NavigateGlobal.Request num)
| sp_serv (req : SetPosition.Request num)
| sv_serv (req : SetVelocity.Request num)
| sa_serv (req : SetAttitude.Request num)
| sr_serv (req : SetRates.Request num)
| ld_serv.

(** What the ROS runtime shows the node at one instant: the clock,
    [ros::ok()], the transform buffer, the two autopilot services and the
    callbacks that are due.
    [set_mode_call m] is [None] when [set_mode.call] returns false and
    [Some sent] with [sent] the response's [mode_sent] otherwise;
    [arming_call v] is what [arming.call] returns. *)
Record Ros := {
  now : Time;
  ok : bool;
  tf_buffer : Tf;
  set_mode_call : string -> option bool;
  arming_call : bool -> bool;
  queue : list Callback
}.

(** A message handed to a publisher or to the transform broadcaster, or
    the response that a service callback run by [ros::spinOnce] hands
    back to its client. *)
Inductive Msg :=
| position_pub (m : PoseStamped.t num)
| position_raw_pub (m : PositionTarget.t num)
| attitude_pub (m : PoseStamped.t num)
| attitude_raw_pub (m : AttitudeTarget.t num)
| thrust_pub (m : Thrust.t num)
| sendTransform (m : TransformStamped.t num)
| response (r : Response.t)
| telemetry_response (r : GetTelemetry.Response.t num).

(** [sent] lists the published messages, oldest first. *)
Record World := {
  globals : Globals;
  sent : list Msg;
  ros : Ros
}.

(** *** Assignments *)

Definition set_position_msg v (c : Containers) : Containers :=
  {| position_msg := v; position_raw_msg := position_raw_msg c;
     att_raw_msg := att_raw_msg c; thrust_msg := thrust_msg c;
     rates_msg := rates_msg c; target := target c; body := body c |}.
Definition set_position_raw_msg v (c : Containers) : Containers :=
  {| position_msg := position_msg c; position_raw_msg := v;
     att_raw_msg := att_raw_msg c; thrust_msg := thrust_msg c;
     rates_msg := rates_msg c; target := target c; body := body c |}.
Definition set_att_raw_msg v (c : Containers) : Containers :=
  {| position_msg := position_msg c; position_raw_msg := position_raw_msg c;
     att_raw_msg := v; thrust_msg := thrust_msg c;
     rates_msg := rates_msg c; target := target c; body := body c |}.
Definition set_thrust_msg v (c : Containers) : Containers :=
  {| position_msg := position_msg c; position_raw_msg := position_raw_msg c;
     att_raw_msg := att_raw_msg c; thrust_msg := v;
     rates_msg := rates_msg c; target := target c; body := body c |}.
Definition set_rates_msg v (c : Containers) : Containers :=
  {| position_msg := position_msg c; position_raw_msg := position_raw_msg c;
     att_raw_msg := att_raw_msg c; thrust_msg := thrust_msg c;
     rates_msg := v; target := target c; body := body c |}.
Definition set_target v (c : Containers) : Containers :=
  {| position_msg := position_msg c; position_raw_msg := position_raw_msg c;
     att_raw_msg := att_raw_msg c; thrust_msg := thrust_msg c;
     rates_msg := rates_msg c; target := v; body := body c |}.
Definition set_body v (c : Containers) : Containers :=
  {| position_msg := position_msg c; position_raw_msg := position_raw_msg c;
     att_raw_msg := att_raw_msg c; thrust_msg := thrust_msg c;
     rates_msg := rates_msg c; target := target c; body := v |}.

Definition set_nav_start v (s : Setpoint) : Setpoint :=
  {| nav_start := v; setpoint_position := setpoint_position s;
     setpoint_position_transformed := setpoint_position_transformed s;
     setpoint_velocity := setpoint_velocity s;
     setpoint_velocity_transformed := setpoint_velocity_transformed s;
     setpoint_yaw_rate := setpoint_yaw_rate s; nav_speed := nav_speed s;
     busy := busy s; wait_armed := wait_armed s;
     setpoint_type := setpoint_type s;
     setpoint_yaw_type := setpoint_yaw_type s |}.
Definition set_setpoint_position v (s : Setpoint) : Setpoint :=
  {| nav_start := nav_start s; setpoint_position := v;
     setpoint_position_transformed := setpoint_position_transformed s;
     setpoint_velocity := setpoint_velocity s;
     setpoint_velocity_transformed := setpoint_velocity_transformed s;
     setpoint_yaw_rate := setpoint_yaw_rate s; nav_speed := nav_speed s;
     busy := busy s; wait_armed := wait_armed s;
     setpoint_type := setpoint_type s;
     setpoint_yaw_type := setpoint_yaw_type s |}.
Definition set_setpoint_position_transformed v (s : Setpoint) : Setpoint :=
  {| nav_start := nav_start s; setpoint_position := setpoint_position s;
     setpoint_position_transformed := v;
     setpoint_velocity := setpoint_velocity s;
     setpoint_velocity_transformed := setpoint_velocity_transformed s;
     setpoint_yaw_rate := setpoint_yaw_rate s; nav_speed := nav_speed s;
     busy := busy s; wait_armed := wait_armed s;
     setpoint_type := setpoint_type s;
     setpoint_yaw_type := setpoint_yaw_type s |}.
Definition set_setpoint_velocity v (s : Setpoint) : Setpoint :=
  {| nav_start := nav_start s; setpoint_position := setpoint_position s;
     setpoint_position_transformed := setpoint_position_transformed s;
     setpoint_velocity := v;
     setpoint_velocity_transformed := setpoint_velocity_transformed s;
     setpoint_yaw_rate := setpoint_yaw_rate s; nav_speed := nav_speed s;
     busy := busy s; wait_armed := wait_armed s;
     setpoint_type := setpoint_type s;
     setpoint_yaw_type := setpoint_yaw_type s |}.
Definition set_setpoint_velocity_transformed v (s : Setpoint) : Setpoint :=
  {| nav_start := nav_start s; setpoint_position := setpoint_position s;
     setpoint_position_transformed := setpoint_position_transformed s;
     setpoint_velocity := setpoint_velocity s;
     setpoint_velocity_transformed := v;
     setpoint_yaw_rate := setpoint_yaw_rate s; nav_speed := nav_speed s;
     busy := busy s; wait_armed := wait_armed s;
     setpoint_type := setpoint_type s;
     setpoint_yaw_type := setpoint_yaw_type s |}.
Definition set_setpoint_yaw_rate v (s : Setpoint) : Setpoint :=
  {| nav_start := nav_start s; setpoint_position := setpoint_position s;
     setpoint_position_transformed := setpoint_position_transformed s;
     setpoint_velocity := setpoint_velocity s;
     setpoint_velocity_transformed := setpoint_velocity_transformed s;
     setpoint_yaw_rate := v; nav_speed := nav_speed s;
     busy := busy s; wait_armed := wait_armed s;
     setpoint_type := setpoint_type s;
     setpoint_yaw_type := setpoint_yaw_type s |}.
Definition set_nav_speed v (s : Setpoint) : Setpoint :=
  {| nav_start := nav_start s; setpoint_position := setpoint_position s;
     setpoint_position_transformed := setpoint_position_transformed s;
     setpoint_velocity := setpoint_velocity s;
     setpoint_velocity_transformed := setpoint_velocity_transformed s;
     setpoint_yaw_rate := setpoint_yaw_rate s; nav_speed := v;
     busy := busy s; wait_armed := wait_armed s;
     setpoint_type := setpoint_type s;
     setpoint_yaw_type := setpoint_yaw_type s |}.
Definition set_busy v (s : Setpoint) : Setpoint :=
  {| nav_start := nav_start s; setpoint_position := setpoint_position s;
     setpoint_position_transformed := setpoint_position_transformed s;
     setpoint_velocity := setpoint_velocity s;
     setpoint_velocity_transformed := setpoint_velocity_transformed s;
     setpoint_yaw_rate := setpoint_yaw_rate s; nav_speed := nav_speed s;
     busy := v; wait_armed := wait_armed s;
     setpoint_type := setpoint_type s;
     setpoint_yaw_type := setpoint_yaw_type s |}.
Definition set_wait_armed v (s : Setpoint) : Setpoint :=
  {| nav_start := nav_start s; setpoint_position := setpoint_position s;
     setpoint_position_transformed := setpoint_position_transformed s;
     setpoint_velocity := setpoint_velocity s;
     setpoint_velocity_transformed := setpoint_velocity_transformed s;
     setpoint_yaw_rate := setpoint_yaw_rate s; nav_speed := nav_speed s;
     busy := busy s; wait_armed := v;
     setpoint_type := setpoint_type s;
     setpoint_yaw_type := setpoint_yaw_type s |}.
Definition set_setpoint_type v (s : Setpoint) : Setpoint :=
  {| nav_start := nav_start s; setpoint_position := setpoint_position s;
     setpoint_position_transformed := setpoint_position_transformed s;
     setpoint_velocity := setpoint_velocity s;
     setpoint_velocity_transformed := setpoint_velocity_transformed s;
     setpoint_yaw_rate := setpoint_yaw_rate s; nav_speed := nav_speed s;
     busy := busy s; wait_armed := wait_armed s;
     setpoint_type := v;
     setpoint_yaw_type := setpoint_yaw_type s |}.
Definition set_setpoint_yaw_type v (s : Setpoint) : Setpoint :=
  {| nav_start := nav_start s; setpoint_position := setpoint_position s;
     setpoint_position_transformed := setpoint_position_transformed s;
     setpoint_velocity := setpoint_velocity s;
     setpoint_velocity_transformed := setpoint_velocity_transformed s;
     setpoint_yaw_rate := setpoint_yaw_rate s; nav_speed := nav_speed s;
     busy := busy s; wait_armed := wait_armed s;
     setpoint_type := setpoint_type s;
     setpoint_yaw_type := v |}.

Definition set_state v (t : Telemetry) : Telemetry :=
  {| state := v; statustext := statustext t;
     local_position := local_position t; velocity := velocity t;
     global_position := global_position t; battery := battery t |}.
Definition set_statustext v (t : Telemetry) : Telemetry :=
  {| state := state t; statustext := v;
     local_position := local_position t; velocity := velocity t;
     global_position := global_position t; battery := battery t |}.
Definition set_local_position v (t : Telemetry) : Telemetry :=
  {| state := state t; statustext := statustext t;
     local_position := v; velocity := velocity t;
     global_position := global_position t; battery := battery t |}.
Definition set_velocity v (t : Telemetry) : Telemetry :=
  {| state := state t; statustext := statustext t;
     local_position := local_position t; velocity := v;
     global_position := global_position t; battery := battery t |}.
Definition set_global_position v (t : Telemetry) : Telemetry :=
  {| state := state t; statustext := statustext t;
     local_position := local_position t; velocity := velocity t;
     global_position := v; battery := battery t |}.
Definition set_battery v (t : Telemetry) : Telemetry :=
  {| state := state t; statustext := statustext t;
     local_position := local_position t; velocity := velocity t;
     global_position := global_position t; battery := v |}.

Definition upd_containers (f : Containers -> Containers) (g : Globals) :=
  {| params := params g; containers := f (containers g); sp := sp g;
     telemetry := telemetry g; setpoint_timer := setpoint_timer g;
     serve_ps := serve_ps g; serve_vel := serve_vel g |}.
Definition upd_sp (f : Setpoint -> Setpoint) (g : Globals) :=
  {| params := params g; containers := containers g; sp := f (sp g);
     telemetry := telemetry g; setpoint_timer := setpoint_timer g;
     serve_ps := serve_ps g; serve_vel := serve_vel g |}.
Definition upd_telemetry (f : Telemetry -> Telemetry) (g : Globals) :=
  {| params := params g; containers := containers g; sp := sp g;
     telemetry := f (telemetry g); setpoint_timer := setpoint_timer g;
     serve_ps := serve_ps g; serve_vel := serve_vel g |}.
Definition set_setpoint_timer (b : bool) (g : Globals) :=
  {| params := params g; containers := containers g; sp := sp g;
     telemetry := telemetry g; setpoint_timer := b;
     serve_ps := serve_ps g; serve_vel := serve_vel g |}.
Definition set_serve_ps v (g : Globals) :=
  {| params := params g; containers := containers g; sp := sp g;
     telemetry := telemetry g; setpoint_timer := setpoint_timer g;
     serve_ps := v; serve_vel := serve_vel g |}.
Definition set_serve_vel v (g : Globals) :=
  {| params := params g; containers := containers g; sp := sp g;
     telemetry := telemetry g; setpoint_timer := setpoint_timer g;
     serve_ps := serve_ps g; serve_vel := v |}.

Definition upd_globals (f : Globals -> Globals) (w : World) : World :=
  {| globals := f (globals w); sent := sent w; ros := ros w |}.
Definition send (m : Msg) (w : World) : World :=
  {| globals := globals w; sent := sent w ++ [m]; ros := ros w |}.

(** ** The monad of the node's code

    A piece of code runs in a world and ends in one of four ways: with a
    value, with a C++ exception ([what] is [e.what()]), by flowing off the
    end of a function that must return a value (undefined behaviour), or
    not within the number of loop iterations that the model follows. In
    each case the world it leaves is kept: assignments made before a
    [throw] stay. *)


Definition M (A : Type) : Type := World -> outcome A * World.

Definition ret {A} (a : A) : M A := fun w => (Val a, w).

Definition bind {A B} (m : M A) (k : A -> M B) : M B :=
  fun w =>
    match m w with
    | (Val a, w') => k a w'
    | (Throw e, w') => (Throw e, w')
    | (Undefined, w') => (Undefined, w')
    | (Diverge, w') => (Diverge, w')
    end.

Definition throw {A} (what : string) : M A := fun w => (Throw what, w).
Definition undefined {A} : M A := fun w => (Undefined, w).
Definition diverge {A} : M A := fun w => (Diverge, w).

(** [try { m } catch (const std::exception& e) { h e.what() }] *)
Definition try_catch {A} (m : M A) (h : string -> M A) : M A :=
  fun w =>
    match m w with
    | (Throw e, w') => h e w'
    | r => r
    end.

Definition get {A} (f : Globals -> A) : M A := fun w => (Val (f (globals w)), w).
Definition modify (f : Globals -> Globals) : M unit :=
  fun w => (Val tt, upd_globals f w).
Definition ask {A} (f : Ros -> A) : M A := fun w => (Val (f (ros w)), w).
Definition publish_msg (m : Msg) : M unit := fun w => (Val tt, send m w).
Definition run (f : World -> World) : M unit := fun w => (Val tt, f w).
Definition when (b : bool) (m : M unit) : M unit := if b then m else ret tt.

(** The value of a tf2 call, or its exception. *)
Definition lift_result {A} (r : result A) : M A :=
  match r with Ok a => ret a | Err e => throw e end.

End Node.

Arguments Params : clear implicits.
Arguments Containers : clear implicits.
Arguments Setpoint : clear implicits.
Arguments Telemetry : clear implicits.
Arguments Globals : clear implicits.
Arguments Tf : clear implicits.
Arguments Callback : clear implicits.
Arguments Ros : clear implicits.
Arguments Msg : clear implicits.
Arguments World : clear implicits.
Arguments M : clear implicits.

Declare Scope monad_scope.
Delimit Scope monad_scope with monad.
Notation "x <- m ;; k" := (bind m (fun x => k))
  (at level 61, m at next level, right associativity) : monad_scope.
Notation "m ;; k" := (bind m (fun _ => k))
  (at level 61, right associativity) : monad_scope.

(** ** The functions of simple_offboard.cpp *)

Section Handlers.
Context {num : Type} {A : Arith num} {L : Libs num} {G : Geodesic num}.

(** [ros::spinOnce()] runs the callbacks that are due (telemetry
    subscribers, the setpoint timer, service requests) and [r.sleep()]
    lets time pass.  Which callbacks are due and what has changed
    afterwards is the runtime's choice: the functions below take both as
    they come.  [fuel] bounds the iterations of each polling loop that
    the model follows. *)
Variable spinOnce : World num -> World num.
Variable sleep : World num -> World num.
Variable fuel : nat.

Local Open Scope monad_scope.

(** [template<typename T, T& STORAGE> void handleMessage(const T& msg)] *)
Definition handleMessage {T : Type}
    (STORAGE : T -> Telemetry num -> Telemetry num) (msg : T) : M num unit :=
  modify (upd_telemetry (STORAGE msg)).

(** [q.setRPY(0, 0, yaw); tf::quaternionTFToMsg(q, ...)] is tf's
    [createQuaternionMsgFromRollPitchYaw(0, 0, yaw)]. *)
Definition publishBodyFrame : M num unit :=
  b <- get (fun g => body (containers g)) ;;
  if String.eqb (TransformStamped.child_frame_id b) "" then ret tt
  else
    lp <- get (fun g => local_position (telemetry g)) ;;
    let q := createQuaternionMsgFromRollPitchYaw zero zero
               (getYaw (Pose.orientation (PoseStamped.pose lp))) in
    let p := Pose.position (PoseStamped.pose lp) in
    let b' :=
      {| TransformStamped.header :=
           {| Header.stamp := Header.stamp (PoseStamped.header lp);
              Header.frame_id := Header.frame_id (PoseStamped.header lp) |};
         TransformStamped.child_frame_id := TransformStamped.child_frame_id b;
         TransformStamped.transform :=
           {| Transform.translation :=
                {| Vector3.x := Point.x p; Vector3.y := Point.y p;
                   Vector3.z := Point.z p |};
              Transform.rotation := q |} |} in
    modify (upd_containers (set_body b')) ;;
    publish_msg (sendTransform b').

Definition handleLocalPosition (pose : PoseStamped.t num) : M num unit :=
  modify (upd_telemetry (set_local_position pose)) ;;
  publishBodyFrame.

(** [while (ros::ok()) { body }]: [body] gives [Some v] when it leaves
    the loop ([return v], [break]) and [None] when it reaches the end of
    the loop's block.  The loop gives [None] when [ros::ok()] ends it. *)
Fixpoint while_ok {R : Type} (n : nat) (body : M num (option R))
    : M num (option R) :=
  match n with
  | O => diverge
  | S n' =>
      b <- ask ok ;;
      if b then
        r <- body ;;
        match r with
        | Some v => ret (Some v)
        | None => while_ok n' body
        end
      else ret None
  end.

(** When [ros::ok()] ends the loop, control flows off the end of
    [waitTransform], which has no [return] there. *)
Definition waitTransform (target source : string) (stamp : Time)
    (timeout : Duration) : M num bool :=
  start <- ask now ;;
  r <- while_ok fuel
         (t <- ask now ;;
          if Z.ltb timeout (t - start) then ret (Some false)
          else
            tf <- ask tf_buffer ;;
            if canTransform tf target source stamp then ret (Some true)
            else run spinOnce ;; run sleep ;; ret None) ;;
  match r with
  | Some b => ret b
  | None => undefined
  end.

(** [#define TIMEOUT(msg, timeout)
     (ros::Time::now() - msg.header.stamp > timeout)] *)
Definition TIMEOUT (msg_header : Header.t) (timeout : Duration) : M num bool :=
  t <- ask now ;;
  ret (Z.ltb timeout (t - Header.stamp msg_header)).

(** The fields of the response are the ones of the request's frame; the
    srv declaration is not part of the sources and the narrowing of a
    [double] to a [float32] field is left out. *)
Definition getTelemetry (req : GetTelemetry.Request.t)
    (res : GetTelemetry.Response.t num)
    : M num (bool * GetTelemetry.Response.t num) :=
  stamp <- ask now ;;
  p <- get params ;;
  let frame_id :=
    if String.eqb (GetTelemetry.Request.frame_id req) "" then local_frame p
    else GetTelemetry.Request.frame_id req in
  st <- get (fun g => state (telemetry g)) ;;
  state_late <- TIMEOUT (State.header st) (state_timeout p) ;;
  let '(connected, armed, mode) :=
    if negb state_late
    then (State.connected st, State.armed st, State.mode st)
    else (GetTelemetry.Response.connected res,
          GetTelemetry.Response.armed res,
          GetTelemetry.Response.mode res) in
  _ <- waitTransform (local_frame p) frame_id stamp
         (telemetry_transform_timeout p) ;;
  tf <- ask tf_buffer ;;
  lp <- get (fun g => local_position (telemetry g)) ;;
  lp_late <- TIMEOUT (PoseStamped.header lp) (local_position_timeout p) ;;
  let '(x, y, z, (yaw, pitch, roll)) :=
    if negb lp_late then
      match transform_pose tf lp frame_id 0 with
      | Ok pose =>
          let pt := Pose.position (PoseStamped.pose pose) in
          (Point.x pt, Point.y pt, Point.z pt,
           getEulerYPR (Pose.orientation (PoseStamped.pose pose)))
      | Err _ => (NAN, NAN, NAN, (NAN, NAN, NAN))
      end
    else (NAN, NAN, NAN, (NAN, NAN, NAN)) in
  vel <- get (fun g => velocity (telemetry g)) ;;
  vel_late <- TIMEOUT (TwistStamped.header vel) (velocity_timeout p) ;;
  let '(vx, vy, vz) :=
    if negb vel_late then
      let vec :=
        {| Vector3Stamped.header := TwistStamped.header vel;
           Vector3Stamped.vector := Twist.linear (TwistStamped.twist vel) |} in
      match transform_vector tf vec frame_id 0 with
      | Ok vec_out =>
          let v := Vector3Stamped.vector vec_out in
          (Vector3.x v, Vector3.y v, Vector3.z v)
      | Err _ => (NAN, NAN, NAN)
      end
    else (NAN, NAN, NAN) in
  let '(yaw_rate, pitch_rate, roll_rate) :=
    if negb vel_late then
      let a := Twist.angular (TwistStamped.twist vel) in
      (Vector3.z a, Vector3.y a, Vector3.x a)
    else (NAN, NAN, NAN) in
  gp <- get (fun g => global_position (telemetry g)) ;;
  gp_late <- TIMEOUT (NavSatFix.header gp) (global_position_timeout p) ;;
  let '(lat, lon, alt) :=
    if negb gp_late
    then (NavSatFix.latitude gp, NavSatFix.longitude gp, NavSatFix.altitude gp)
    else (NAN, NAN, NAN) in
  bat <- get (fun g => battery (telemetry g)) ;;
  bat_late <- TIMEOUT (BatteryState.header bat) (battery_timeout p) ;;
  let '(voltage, cell_voltage) :=
    if negb bat_late then
      (BatteryState.voltage bat,
       match BatteryState.cell_voltage bat with
       | [] => NAN
       | c :: _ => c
       end)
    else (NAN, NAN) in
  ret (true,
       {| GetTelemetry.Response.frame_id := frame_id;
          GetTelemetry.Response.connected := connected;
          GetTelemetry.Response.armed := armed;
          GetTelemetry.Response.mode := mode;
          GetTelemetry.Response.x := x;
          GetTelemetry.Response.y := y;
          GetTelemetry.Response.z := z;
          GetTelemetry.Response.lat := lat;
          GetTelemetry.Response.lon := lon;
          GetTelemetry.Response.alt := alt;
          GetTelemetry.Response.vx := vx;
          GetTelemetry.Response.vy := vy;
          GetTelemetry.Response.vz := vz;
          GetTelemetry.Response.pitch := pitch;
          GetTelemetry.Response.roll := roll;
          GetTelemetry.Response.yaw := yaw;
          GetTelemetry.Response.pitch_rate := pitch_rate;
          GetTelemetry.Response.roll_rate := roll_rate;
          GetTelemetry.Response.yaw_rate := yaw_rate;
          GetTelemetry.Response.voltage := voltage;
          GetTelemetry.Response.cell_voltage := cell_voltage |}).

(** The report of a timed-out wait: the latest status text is appended
    when it is later than the start of the wait. *)
Definition timeout_report (what : string) (start : Time) : M num string :=
  stx <- get (fun g => statustext (telemetry g)) ;;
  ret (if Z.ltb start (Header.stamp (StatusText.header stx))
       then what ++ ": " ++ StatusText.text stx
       else what).

(** [void offboardAndArm()], throws [std::runtime_error]. *)
Definition offboardAndArm : M num unit :=
  st <- get (fun g => state (telemetry g)) ;;
  (if negb (String.eqb (State.mode st) "OFFBOARD") then
     start <- ask now ;;
     sm <- ask (fun r => set_mode_call r "OFFBOARD") ;;
     match sm with
     | None => throw "Error calling set_mode service"
     | Some _ =>
         _ <- while_ok fuel
                (run spinOnce ;;
                 st <- get (fun g => state (telemetry g)) ;;
                 if String.eqb (State.mode st) "OFFBOARD" then ret (Some tt)
                 else
                   t <- ask now ;;
                   p <- get params ;;
                   if Z.ltb (offboard_timeout p) (t - start) then
                     report <- timeout_report "OFFBOARD timed out" start ;;
                     throw report
                   else run spinOnce ;; run sleep ;; ret None) ;;
         ret tt
     end
   else ret tt) ;;
  st <- get (fun g => state (telemetry g)) ;;
  if negb (State.armed st) then
    start <- ask now ;;
    called <- ask (fun r => arming_call r true) ;;
    if negb called then throw "Error calling arming service"
    else
      _ <- while_ok fuel
             (run spinOnce ;;
              st <- get (fun g => state (telemetry g)) ;;
              if State.armed st then ret (Some tt)
              else
                t <- ask now ;;
                p <- get params ;;
                if Z.ltb (arming_timeout p) (t - start) then
                  report <- timeout_report "Arming timed out" start ;;
                  throw report
                else run spinOnce ;; run sleep ;; ret None) ;;
      ret tt
  else ret tt.

Definition hypot (x y z : num) : num :=
  std_sqrt (x * x + y * y + z * z)%num.

(** [inline float getDistance(...)]: the [double] is narrowed. *)
Definition getDistance (from to : Point.t num) : num :=
  to_float (hypot (Point.x from - Point.x to)%num
                  (Point.y from - Point.y to)%num
                  (Point.z from - Point.z to)%num).

(** [getNavigateSetpoint] reads and writes the "State" variables only;
    the point it gives is what the source stores through [nav_setpoint]. *)
Definition getNavigateSetpoint (stamp : Time) (speed : num)
    (s : Setpoint num) : Point.t num * Setpoint num :=
  let s :=
    if wait_armed s
    then set_nav_start (PoseStamped.with_stamp stamp (nav_start s)) s
    else s in
  let start := Pose.position (PoseStamped.pose (nav_start s)) in
  let goal :=
    Pose.position (PoseStamped.pose (setpoint_position_transformed s)) in
  let distance := getDistance start goal in
  let time := divf distance speed in
  let passed :=
    to_float
      (std_min
         (toSec (Z.sub stamp (Header.stamp (PoseStamped.header (nav_start s))))
          / time)%num
         one) in
  ({| Point.x := (Point.x start + (Point.x goal - Point.x start) * passed)%num;
      Point.y := (Point.y start + (Point.y goal - Point.y start) * passed)%num;
      Point.z := (Point.z start + (Point.z goal - Point.z start) * passed)%num
   |}, s).

(** [earth.Inverse(lat0, lon0, lat, lon, distance, _, azimuth)]: the
    azimuth taken is the third output. *)
Definition globalToLocal (lat lon : num) : M num (PoseStamped.t num) :=
  gp <- get (fun g => global_position (telemetry g)) ;;
  let '(distance, _, azimuth) :=
    Geodesic_Inverse (NavSatFix.latitude gp) (NavSatFix.longitude gp)
                     lat lon in
  let azimuth_radians := (azimuth * M_PI / of_int 180)%num in
  let x_offset := (distance * std_sin azimuth_radians)%num in
  let y_offset := (distance * std_cos azimuth_radians)%num in
  p <- get params ;;
  tf <- ask tf_buffer ;;
  local <- lift_result
             (lookupTransform tf (local_frame p) (fcu_frame p)
                (Header.stamp (NavSatFix.header gp))) ;;
  let tr := Transform.translation (TransformStamped.transform local) in
  ret {| PoseStamped.header :=
           {| Header.stamp := Header.stamp (NavSatFix.header gp);
              Header.frame_id := local_frame p |};
         PoseStamped.pose :=
           {| Pose.position :=
                {| Point.x := (Vector3.x tr + x_offset)%num;
                   Point.y := (Vector3.y tr + y_offset)%num;
                   Point.z := zero |};
              Pose.orientation :=
                {| Quaternion.x := zero; Quaternion.y := zero;
                   Quaternion.z := zero; Quaternion.w := one |} |} |}.

(** Assignments to one variable. *)
Definition upd_position_msg (f : PoseStamped.t num -> PoseStamped.t num) :=
  modify (upd_containers (fun c => set_position_msg (f (position_msg c)) c)).
Definition upd_position_raw_msg
    (f : PositionTarget.t num -> PositionTarget.t num) :=
  modify (upd_containers
            (fun c => set_position_raw_msg (f (position_raw_msg c)) c)).
Definition upd_thrust_msg (f : Thrust.t num -> Thrust.t num) :=
  modify (upd_containers (fun c => set_thrust_msg (f (thrust_msg c)) c)).
Definition upd_rates_msg (f : TwistStamped.t num -> TwistStamped.t num) :=
  modify (upd_containers (fun c => set_rates_msg (f (rates_msg c)) c)).
Definition assign (f : Setpoint num -> Setpoint num) : M num unit :=
  modify (upd_sp f).

Definition is_navigate (t : setpoint_type_t) : bool :=
  match t with NAVIGATE | NAVIGATE_GLOBAL => true | _ => false end.
Definition has_position (t : setpoint_type_t) : bool :=
  match t with NAVIGATE | NAVIGATE_GLOBAL | POSITION => true | _ => false end.
Definition has_yaw (t : setpoint_type_t) : bool :=
  match t with
  | NAVIGATE | NAVIGATE_GLOBAL | POSITION | VELOCITY => true
  | _ => false
  end.
Definition has_frame (t : setpoint_type_t) : bool :=
  match t with
  | NAVIGATE | NAVIGATE_GLOBAL | POSITION | VELOCITY | ATTITUDE => true
  | _ => false
  end.

Definition publish (stamp : Time) : M num unit :=
  ty <- get (fun g => setpoint_type (sp g)) ;;
  if setpoint_type_eqb ty NONE then ret tt
  else
    upd_position_raw_msg (PositionTarget.with_stamp stamp) ;;
    upd_thrust_msg (Thrust.with_stamp stamp) ;;
    upd_rates_msg (TwistStamped.with_stamp stamp) ;;
    p <- get params ;;
    tf <- ask tf_buffer ;;
    try_catch
      ((* transform position and/or yaw *)
       when (has_frame ty)
         (assign (fun s => set_setpoint_position
                    (PoseStamped.with_stamp stamp (setpoint_position s)) s) ;;
          pos <- get (fun g => setpoint_position (sp g)) ;;
          out <- lift_result
                   (transform_pose tf pos (local_frame p) (millis 50)) ;;
          assign (set_setpoint_position_transformed out)) ;;
       (* transform velocity *)
       when (setpoint_type_eqb ty VELOCITY)
         (assign (fun s => set_setpoint_velocity
                    (Vector3Stamped.with_stamp stamp (setpoint_velocity s)) s) ;;
          vel <- get (fun g => setpoint_velocity (sp g)) ;;
          out <- lift_result
                   (transform_vector tf vel (local_frame p) (millis 50)) ;;
          assign (set_setpoint_velocity_transformed out)))
      (fun _ => ret tt) ;;
    tg <- get (fun g => target (containers g)) ;;
    when (negb (String.eqb (TransformStamped.child_frame_id tg) "")
          && has_position ty)
      (spt <- get (fun g => setpoint_position_transformed (sp g)) ;;
       let pt := Pose.position (PoseStamped.pose spt) in
       let tg' :=
         {| TransformStamped.header := PoseStamped.header spt;
            TransformStamped.child_frame_id :=
              TransformStamped.child_frame_id tg;
            TransformStamped.transform :=
              {| Transform.translation :=
                   {| Vector3.x := Point.x pt; Vector3.y := Point.y pt;
                      Vector3.z := Point.z pt |};
                 Transform.rotation :=
                   Pose.orientation (PoseStamped.pose spt) |} |} in
       modify (upd_containers (set_target tg')) ;;
       publish_msg (sendTransform tg')) ;;
    when (is_navigate ty)
      (spt <- get (fun g => setpoint_position_transformed (sp g)) ;;
       (* copy yaw *)
       upd_position_msg
         (PoseStamped.with_orientation
            (Pose.orientation (PoseStamped.pose spt))) ;;
       s <- get sp ;;
       let '(nav_setpoint, s') := getNavigateSetpoint stamp (nav_speed s) s in
       assign (fun _ => s') ;;
       upd_position_msg (PoseStamped.with_position nav_setpoint) ;;
       when (setpoint_yaw_type_eqb (setpoint_yaw_type s') TOWARDS)
         (let from := Pose.position (PoseStamped.pose (nav_start s')) in
          let yaw_towards :=
            std_atan2 (Point.y nav_setpoint - Point.y from)%num
                      (Point.x nav_setpoint - Point.x from)%num in
          upd_position_msg
            (PoseStamped.with_orientation
               (createQuaternionMsgFromRollPitchYaw zero zero yaw_towards)))) ;;
    when (setpoint_type_eqb ty POSITION)
      (spt <- get (fun g => setpoint_position_transformed (sp g)) ;;
       upd_position_msg (fun _ => spt)) ;;
    when (has_position ty)
      (s <- get sp ;;
       match setpoint_yaw_type s with
       | YAW | TOWARDS =>
           upd_position_msg (PoseStamped.with_stamp stamp) ;;
           m <- get (fun g => position_msg (containers g)) ;;
           publish_msg (position_pub m)
       | YAW_RATE =>
           upd_position_raw_msg
             (PositionTarget.with_type_mask
                (PositionTarget.IGNORE_VX + PositionTarget.IGNORE_VY +
                 PositionTarget.IGNORE_VZ + PositionTarget.IGNORE_AFX +
                 PositionTarget.IGNORE_AFY + PositionTarget.IGNORE_AFZ +
                 PositionTarget.IGNORE_YAW)) ;;
           upd_position_raw_msg
             (PositionTarget.with_yaw_rate (setpoint_yaw_rate s)) ;;
           pm <- get (fun g => position_msg (containers g)) ;;
           upd_position_raw_msg
             (PositionTarget.with_position
                (Pose.position (PoseStamped.pose pm))) ;;
           m <- get (fun g => position_raw_msg (containers g)) ;;
           publish_msg (position_raw_pub m)
       end) ;;
    when (setpoint_type_eqb ty VELOCITY)
      (s <- get sp ;;
       upd_position_raw_msg
         (PositionTarget.with_type_mask
            (PositionTarget.IGNORE_PX + PositionTarget.IGNORE_PY +
             PositionTarget.IGNORE_PZ + PositionTarget.IGNORE_AFX +
             PositionTarget.IGNORE_AFY + PositionTarget.IGNORE_AFZ)) ;;
       upd_position_raw_msg
         (fun m => PositionTarget.with_type_mask
            (PositionTarget.type_mask m +
             (if setpoint_yaw_type_eqb (setpoint_yaw_type s) YAW
              then PositionTarget.IGNORE_YAW_RATE
              else PositionTarget.IGNORE_YAW)) m) ;;
       upd_position_raw_msg
         (PositionTarget.with_velocity
            (Vector3Stamped.vector (setpoint_velocity_transformed s))) ;;
       upd_position_raw_msg
         (PositionTarget.with_yaw
            (to_float
               (getYaw (Pose.orientation
                          (PoseStamped.pose
                             (setpoint_position_transformed s)))))) ;;
       upd_position_raw_msg
         (PositionTarget.with_yaw_rate (setpoint_yaw_rate s)) ;;
       m <- get (fun g => position_raw_msg (containers g)) ;;
       publish_msg (position_raw_pub m)) ;;
    when (setpoint_type_eqb ty ATTITUDE)
      (spt <- get (fun g => setpoint_position_transformed (sp g)) ;;
       publish_msg (attitude_pub spt) ;;
       th <- get (fun g => thrust_msg (containers g)) ;;
       publish_msg (thrust_pub th)) ;;
    when (setpoint_type_eqb ty RATES)
      (c <- get containers ;;
       let m :=
         {| AttitudeTarget.header :=
              {| Header.stamp := stamp; Header.frame_id := fcu_frame p |};
            AttitudeTarget.type_mask := AttitudeTarget.IGNORE_ATTITUDE;
            AttitudeTarget.orientation :=
              AttitudeTarget.orientation (att_raw_msg c);
            AttitudeTarget.body_rate :=
              Twist.angular (TwistStamped.twist (rates_msg c));
            AttitudeTarget.thrust := Thrust.thrust (thrust_msg c) |} in
       modify (upd_containers (set_att_raw_msg m)) ;;
       publish_msg (attitude_raw_pub m)).

(** The timer's callback; [event.current_real] is the tick time. *)
Definition publishSetpoint (current_real : Time) : M num unit :=
  publish current_real.

Definition checkState : M num unit :=
  st <- get (fun g => state (telemetry g)) ;;
  p <- get params ;;
  late <- TIMEOUT (State.header st) (state_timeout p) ;;
  if late then throw "State timeout, check mavros settings"
  else if negb (State.connected st) then
    throw "No connection to FCU, https://clever.copterexpress.com/connection.html"
  else ret tt.

(** [reference_frames.find(frame_id)] on the alias map. *)
Fixpoint find (m : list (string * string)) (k : string) : option string :=
  match m with
  | [] => None
  | (k', v) :: m' => if String.eqb k' k then Some v else find m' k
  end.

(** [serve] writes [success] and [message] through references into the
    response [res] of the service and always returns [true]. *)
Definition serve (sp_type : setpoint_type_t)
    (x y z vx vy vz pitch roll yaw pitch_rate roll_rate yaw_rate
     lat lon thrust speed : num)
    (frame_id : string) (auto_arm : bool) (res : Response.t)
    : M num (bool * Response.t) :=
  stamp <- ask now ;;
  caught <-
    try_catch
      (b <- get (fun g => busy (sp g)) ;;
       (if b then throw "Busy" else ret tt) ;;
       assign (set_busy true) ;;
       (* Checks *)
       checkState ;;
       p <- get params ;;
       speed <-
         (if is_navigate sp_type then
            lp <- get (fun g => local_position (telemetry g)) ;;
            late <- TIMEOUT (PoseStamped.header lp)
                      (local_position_timeout p) ;;
            if late then throw "No local position, check settings"
            else if (speed <? zero)%num then
              throw ("Navigate speed must be positive, "
                       ++ std_to_string speed ++ " passed")
            else if (speed =? zero)%num then ret (default_speed p)
            else ret speed
          else ret speed) ;;
       (if has_yaw sp_type then
          if neqb yaw_rate zero && negb (std_isnan yaw) then
            throw "Yaw value should be NaN for setting yaw rate"
          else if std_isnan yaw_rate && std_isnan yaw then
            throw "Both yaw and yaw_rate cannot be NaN"
          else ret tt
        else ret tt) ;;
       (if setpoint_type_eqb sp_type NAVIGATE_GLOBAL then
          gp <- get (fun g => global_position (telemetry g)) ;;
          late <- TIMEOUT (NavSatFix.header gp)
                    (global_position_timeout p) ;;
          if late then throw "No global position" else ret tt
        else ret tt) ;;
       (* default frame is local frame *)
       let frame_id :=
         if String.eqb frame_id "" then local_frame p else frame_id in
       (* look up for reference frame *)
       let reference_frame :=
         match find (reference_frames p) frame_id with
         | None => frame_id
         | Some f => f
         end in
       (if has_frame sp_type then
          found <- waitTransform reference_frame frame_id stamp
                     (transform_timeout p) ;;
          (if negb found then
             throw ("Can't transform from " ++ frame_id ++ " to "
                      ++ reference_frame)
           else ret tt) ;;
          found <- waitTransform (local_frame p) reference_frame stamp
                     (transform_timeout p) ;;
          if negb found then
            throw ("Can't transform from " ++ reference_frame ++ " to "
                     ++ local_frame p)
          else ret tt
        else ret tt) ;;
       xy <-
         (if setpoint_type_eqb sp_type NAVIGATE_GLOBAL then
            local <- globalToLocal lat lon ;;
            tf <- ask tf_buffer ;;
            xy_in_req_frame <- lift_result
                                 (transform_pose tf local frame_id 0) ;;
            let pt := Pose.position (PoseStamped.pose xy_in_req_frame) in
            ret (to_float (Point.x pt), to_float (Point.y pt))
          else ret (x, y)) ;;
       let '(x, y) := xy in
       (* Everything fine - switch setpoint type *)
       assign (set_setpoint_type sp_type) ;;
       when (is_navigate sp_type)
         (lp <- get (fun g => local_position (telemetry g)) ;;
          assign (set_nav_start lp) ;;
          assign (set_nav_speed speed)) ;;
       when (has_frame sp_type)
         ((* destination point and/or yaw *)
          ps <- get serve_ps ;;
          let ps :=
            PoseStamped.with_position
              {| Point.x := x; Point.y := y; Point.z := z |}
              (PoseStamped.with_stamp stamp
                 (PoseStamped.with_frame_id frame_id ps)) in
          ps <-
            (if std_isnan yaw then
               assign (set_setpoint_yaw_type YAW_RATE) ;;
               assign (set_setpoint_yaw_rate yaw_rate) ;;
               ret ps
             else if std_isinf yaw && gtb yaw zero then
               (* yaw towards *)
               assign (set_setpoint_yaw_type TOWARDS) ;;
               assign (set_setpoint_yaw_rate zero) ;;
               ret ps
             else
               assign (set_setpoint_yaw_type YAW) ;;
               assign (set_setpoint_yaw_rate zero) ;;
               ret (PoseStamped.with_orientation
                      (createQuaternionMsgFromRollPitchYaw roll pitch yaw)
                      ps)) ;;
          modify (set_serve_ps ps) ;;
          tf <- ask tf_buffer ;;
          out <- lift_result (transform_pose tf ps reference_frame 0) ;;
          assign (set_setpoint_position out)) ;;
       when (setpoint_type_eqb sp_type VELOCITY)
         (vel <- get serve_vel ;;
          let vel :=
            {| Vector3Stamped.header :=
                 {| Header.stamp := stamp; Header.frame_id := frame_id |};
               Vector3Stamped.vector :=
                 {| Vector3.x := vx; Vector3.y := vy; Vector3.z := vz |} |} in
          modify (set_serve_vel vel) ;;
          tf <- ask tf_buffer ;;
          out <- lift_result (transform_vector tf vel reference_frame 0) ;;
          assign (set_setpoint_velocity out)) ;;
       when (setpoint_type_eqb sp_type ATTITUDE
             || setpoint_type_eqb sp_type RATES)
         (upd_thrust_msg (Thrust.with_thrust thrust)) ;;
       when (setpoint_type_eqb sp_type RATES)
         (upd_rates_msg
            (TwistStamped.with_angular
               {| Vector3.x := roll_rate; Vector3.y := pitch_rate;
                  Vector3.z := yaw_rate |})) ;;
       assign (set_wait_armed auto_arm) ;;
       (* calculate initial transformed messages first *)
       publish stamp ;;
       modify (set_setpoint_timer true) ;;
       (if auto_arm then
          offboardAndArm ;;
          assign (set_wait_armed false)
        else
          st <- get (fun g => state (telemetry g)) ;;
          if negb (String.eqb (State.mode st) "OFFBOARD") then
            modify (set_setpoint_timer false) ;;
            throw "Copter is not in OFFBOARD mode, use auto_arm?"
          else if negb (State.armed st) then
            modify (set_setpoint_timer false) ;;
            throw "Copter is not armed, use auto_arm?"
          else ret tt) ;;
       ret None)
      (fun what =>
         assign (set_busy false) ;;
         ret (Some (true, Response.with_message what res))) ;;
  match caught with
  | Some r => ret r
  | None =>
      assign (set_busy false) ;;
      ret (true, Response.with_success true res)
  end.

Definition navigate (req : Navigate.Request num) (res : Response.t) :=
  serve NAVIGATE (Navigate.x req) (Navigate.y req) (Navigate.z req)
    zero zero zero zero zero (Navigate.yaw req) zero zero
    (Navigate.yaw_rate req) zero zero zero (Navigate.speed req)
    (Navigate.frame_id req) (Navigate.auto_arm req) res.

(** [serve] takes [lat] and [lon] as [float]. *)
Definition navigateGlobal (req : NavigateGlobal.Request num)
    (res : Response.t) :=
  serve NAVIGATE_GLOBAL zero zero (NavigateGlobal.z req)
    zero zero zero zero zero (NavigateGlobal.yaw req) zero zero
    (NavigateGlobal.yaw_rate req)
    (to_float (NavigateGlobal.lat req)) (to_float (NavigateGlobal.lon req))
    zero (NavigateGlobal.speed req)
    (NavigateGlobal.frame_id req) (NavigateGlobal.auto_arm req) res.

Definition setPosition (req : SetPosition.Request num) (res : Response.t) :=
  serve POSITION (SetPosition.x req) (SetPosition.y req) (SetPosition.z req)
    zero zero zero zero zero (SetPosition.yaw req) zero zero
    (SetPosition.yaw_rate req) zero zero zero zero
    (SetPosition.frame_id req) (SetPosition.auto_arm req) res.

Definition setVelocity (req : SetVelocity.Request num) (res : Response.t) :=
  serve VELOCITY zero zero zero
    (SetVelocity.vx req) (SetVelocity.vy req) (SetVelocity.vz req)
    zero zero (SetVelocity.yaw req) zero zero
    (SetVelocity.yaw_rate req) zero zero zero zero
    (SetVelocity.frame_id req) (SetVelocity.auto_arm req) res.

Definition setAttitude (req : SetAttitude.Request num) (res : Response.t) :=
  serve ATTITUDE zero zero zero zero zero zero
    (SetAttitude.pitch req) (SetAttitude.roll req) (SetAttitude.yaw req)
    zero zero zero zero zero (SetAttitude.thrust req) zero
    (SetAttitude.frame_id req) (SetAttitude.auto_arm req) res.

Definition setRates (req : SetRates.Request num) (res : Response.t) :=
  serve RATES zero zero zero zero zero zero zero zero zero
    (SetRates.pitch_rate req) (SetRates.roll_rate req)
    (SetRates.yaw_rate req) zero zero (SetRates.thrust req) zero
    "" (SetRates.auto_arm req) res.

(** [land] has no [return] after its [while (ros::ok())] loop: when
    [ros::ok()] ends the loop, control flows off the end of the function. *)
Definition land (res : Response.t) : M num (bool * Response.t) :=
  try_catch
    (b <- get (fun g => busy (sp g)) ;;
     (if b then throw "Busy" else ret tt) ;;
     assign (set_busy true) ;;
     checkState ;;
     p <- get params ;;
     st <- get (fun g => state (telemetry g)) ;;
     (if land_only_in_offboard p
         && negb (String.eqb (State.mode st) "OFFBOARD")
      then throw "Copter is not in OFFBOARD mode"
      else ret tt) ;;
     sm <- ask (fun r => set_mode_call r "AUTO.LAND") ;;
     match sm with
     | None => throw "Can't call set_mode service"
     | Some false => throw "Can't send set_mode request"
     | Some true =>
         start <- ask now ;;
         r <- while_ok fuel
                (st <- get (fun g => state (telemetry g)) ;;
                 if String.eqb (State.mode st) "AUTO.LAND" then
                   assign (set_busy false) ;;
                   ret (Some (true, Response.with_success true res))
                 else
                   t <- ask now ;;
                   p <- get params ;;
                   if Z.ltb (land_timeout p) (t - start) then
                     throw "Land request timed out"
                   else run spinOnce ;; run sleep ;; ret None) ;;
         match r with
         | Some v => ret v
         | None => undefined
         end
     end)
    (fun what =>
       assign (set_busy false) ;;
       ret (true, Response.with_message what res)).

(** One round of a polling loop: [ros::spinOnce(); r.sleep();]. *)
Definition poll (w : World num) : World num := sleep (spinOnce w).

(** The seven commands and the service callback that each one reaches. *)
Inductive Command :=
| cmd_navigate (req : Navigate.Request num)
| cmd_navigate_global (req : NavigateGlobal.Request num)
| cmd_set_position (req : SetPosition.Request num)
| cmd_set_velocity (req : SetVelocity.Request num)
| cmd_set_attitude (req : SetAttitude.Request num)
| cmd_set_rates (req : SetRates.Request num)
| cmd_land.

Definition handler (c : Command) (res : Response.t)
    : M num (bool * Response.t) :=
  match c with
  | cmd_navigate req => navigate req res
  | cmd_navigate_global req => navigateGlobal req res
  | cmd_set_position req => setPosition req res
  | cmd_set_velocity req => setVelocity req res
  | cmd_set_attitude req => setAttitude req res
  | cmd_set_rates req => setRates req res
  | cmd_land => land res
  end.

(** The publisher ticks at the times [ts], one after the other. *)
Fixpoint ticks (ts : list Time) : M num unit :=
  match ts with
  | [] => ret tt
  | t :: ts' => publishSetpoint t ;; ticks ts'
  end.

End Handlers.

Arguments Command : clear implicits.

(** ** [main]: subscribers, services, the timer and [ros::spin]

    [ros::spinOnce] takes the callbacks that are due from the queue and
    runs them in order.  A service callback run from inside a command
    that is polling is the re-entrant call that [busy] guards against;
    its own polling spins one level deeper, down to [depth] levels, below
    which the queue is left as it is.  What [r.sleep()] brings (a later
    clock, newer transforms, callbacks that became due) is [advance]. *)

Section Runtime.
Context {num : Type} {A : Arith num} {L : Libs num} {G : Geodesic num}.
Variable advance : Ros num -> Ros num.
Variable fuel : nat.

Definition r_sleep (w : World num) : World num :=
  {| globals := globals w; sent := sent w; ros := advance (ros w) |}.

Definition clear_queue (w : World num) : World num :=
  {| globals := globals w; sent := sent w;
     ros := {| now := now (ros w); ok := ok (ros w);
               tf_buffer := tf_buffer (ros w);
               set_mode_call := set_mode_call (ros w);
               arming_call := arming_call (ros w); queue := [] |} |}.

(** A default-constructed clever/GetTelemetry response. *)
Definition GetTelemetry_Response_default : GetTelemetry.Response.t num :=
  {| GetTelemetry.Response.frame_id := "";
     GetTelemetry.Response.connected := false;
     GetTelemetry.Response.armed := false;
     GetTelemetry.Response.mode := "";
     GetTelemetry.Response.x := zero; GetTelemetry.Response.y := zero;
     GetTelemetry.Response.z := zero; GetTelemetry.Response.lat := zero;
     GetTelemetry.Response.lon := zero; GetTelemetry.Response.alt := zero;
     GetTelemetry.Response.vx := zero; GetTelemetry.Response.vy := zero;
     GetTelemetry.Response.vz := zero; GetTelemetry.Response.pitch := zero;
     GetTelemetry.Response.roll := zero; GetTelemetry.Response.yaw := zero;
     GetTelemetry.Response.pitch_rate := zero;
     GetTelemetry.Response.roll_rate := zero;
     GetTelemetry.Response.yaw_rate := zero;
     GetTelemetry.Response.voltage := zero;
     GetTelemetry.Response.cell_voltage := zero |}.

(** The world after a subscriber or timer callback. *)
Definition after (m : M num unit) (w : World num) : World num := snd (m w).

(** The world after a service callback: its response goes to the client
    when the callback returns. *)
Definition served {R : Type} (f : R -> Msg num) (m : M num (bool * R))
    (w : World num) : World num :=
  match m w with
  | (Val (_, r), w') => send (f r) w'
  | (_, w') => w'
  end.

Definition dispatch (spinOnce : World num -> World num) (cb : Callback num)
    (w : World num) : World num :=
  match cb with
  | state_sub m => after (handleMessage set_state m) w
  | velocity_sub m => after (handleMessage set_velocity m) w
  | global_position_sub m => after (handleMessage set_global_position m) w
  | battery_sub m => after (handleMessage set_battery m) w
  | statustext_sub m => after (handleMessage set_statustext m) w
  | local_position_sub m => after (handleLocalPosition m) w
  | timer_event current_real =>
      if setpoint_timer (globals w)
      then after (publishSetpoint current_real) w
      else w
  | gt_serv req =>
      served (@telemetry_response num)
        (getTelemetry spinOnce r_sleep fuel req GetTelemetry_Response_default)
        w
  | na_serv req =>
      served (@response num)
        (navigate spinOnce r_sleep fuel req Response.default) w
  | ng_serv req =>
      served (@response num)
        (navigateGlobal spinOnce r_sleep fuel req Response.default) w
  | sp_serv req =>
      served (@response num)
        (setPosition spinOnce r_sleep fuel req Response.default) w
  | sv_serv req =>
      served (@response num)
        (setVelocity spinOnce r_sleep fuel req Response.default) w
  | sa_serv req =>
      served (@response num)
        (setAttitude spinOnce r_sleep fuel req Response.default) w
  | sr_serv req =>
      served (@response num)
        (setRates spinOnce r_sleep fuel req Response.default) w
  | ld_serv =>
      served (@response num) (land spinOnce r_sleep fuel Response.default) w
  end.

Fixpoint ros_spinOnce (depth : nat) (w : World num) : World num :=
  match depth with
  | O => w
  | S d =>
      fold_left (fun w cb => dispatch (ros_spinOnce d) cb w)
        (queue (ros w)) (clear_queue w)
  end.

(** [ros::spin()], for [n] rounds. *)
Fixpoint ros_spin (depth n : nat) (w : World num) : World num :=
  match n with
  | O => w
  | S n' => ros_spin depth n' (r_sleep (ros_spinOnce depth w))
  end.

(** The variables as [main] leaves them before [ros::spin()]: statics
    are zero-initialised, then the frame ids are set. *)
Definition Header_in (frame : string) : Header.t :=
  {| Header.stamp := 0; Header.frame_id := frame |}.
Definition Point_zero : Point.t num :=
  {| Point.x := zero; Point.y := zero; Point.z := zero |}.
Definition Vector3_zero : Vector3.t num :=
  {| Vector3.x := zero; Vector3.y := zero; Vector3.z := zero |}.
Definition Quaternion_zero : Quaternion.t num :=
  {| Quaternion.x := zero; Quaternion.y := zero; Quaternion.z := zero;
     Quaternion.w := zero |}.
Definition PoseStamped_in (frame : string) : PoseStamped.t num :=
  {| PoseStamped.header := Header_in frame;
     PoseStamped.pose := {| Pose.position := Point_zero;
                            Pose.orientation := Quaternion_zero |} |}.
Definition Vector3Stamped_in (frame : string) : Vector3Stamped.t num :=
  {| Vector3Stamped.header := Header_in frame;
     Vector3Stamped.vector := Vector3_zero |}.
Definition TransformStamped_to (child : string) : TransformStamped.t num :=
  {| TransformStamped.header := Header_in "";
     TransformStamped.child_frame_id := child;
     TransformStamped.transform :=
       {| Transform.translation := Vector3_zero;
          Transform.rotation := Quaternion_zero |} |}.

Definition main_containers (p : Params num) (target_frame body_frame : string)
    : Containers num :=
  {| position_msg := PoseStamped_in (local_frame p);
     position_raw_msg :=
       {| PositionTarget.header := Header_in (local_frame p);
          PositionTarget.coordinate_frame := PositionTarget.FRAME_LOCAL_NED;
          PositionTarget.type_mask := 0;
          PositionTarget.position := Point_zero;
          PositionTarget.velocity := Vector3_zero;
          PositionTarget.yaw := zero; PositionTarget.yaw_rate := zero |};
     att_raw_msg :=
       {| AttitudeTarget.header := Header_in "";
          AttitudeTarget.type_mask := 0;
          AttitudeTarget.orientation := Quaternion_zero;
          AttitudeTarget.body_rate := Vector3_zero;
          AttitudeTarget.thrust := zero |};
     thrust_msg := {| Thrust.header := Header_in ""; Thrust.thrust := zero |};
     rates_msg :=
       {| TwistStamped.header := Header_in (fcu_frame p);
          TwistStamped.twist := {| Twist.linear := Vector3_zero;
                                   Twist.angular := Vector3_zero |} |};
     target := TransformStamped_to target_frame;
     body := TransformStamped_to body_frame |}.

Definition main_setpoint : Setpoint num :=
  {| nav_start := PoseStamped_in "";
     setpoint_position := PoseStamped_in "";
     setpoint_position_transformed := PoseStamped_in "";
     setpoint_velocity := Vector3Stamped_in "";
     setpoint_velocity_transformed := Vector3Stamped_in "";
     setpoint_yaw_rate := zero; nav_speed := zero;
     busy := false; wait_armed := false;
     setpoint_type := NONE; setpoint_yaw_type := YAW |}.

Definition main_telemetry : Telemetry num :=
  {| state := {| State.header := Header_in ""; State.connected := false;
                 State.armed := false; State.mode := "" |};
     statustext := {| StatusText.header := Header_in "";
                      StatusText.text := "" |};
     local_position := PoseStamped_in "";
     velocity := {| TwistStamped.header := Header_in "";
                    TwistStamped.twist := {| Twist.linear := Vector3_zero;
                                             Twist.angular := Vector3_zero |} |};
     global_position := {| NavSatFix.header := Header_in "";
                           NavSatFix.latitude := zero;
                           NavSatFix.longitude := zero;
                           NavSatFix.altitude := zero |};
     battery := {| BatteryState.header := Header_in "";
                   BatteryState.voltage := zero;
                   BatteryState.cell_voltage := [] |} |}.

Definition main_globals (p : Params num) (target_frame body_frame : string)
    : Globals num :=
  {| params := p;
     containers := main_containers p target_frame body_frame;
     sp := main_setpoint;
     telemetry := main_telemetry;
     setpoint_timer := false;
     serve_ps := PoseStamped_in "";
     serve_vel := Vector3Stamped_in "" |}.

(** The defaults of the parameters in [main]; [default_speed] is [0.5f]. *)
Definition default_params : Params num :=
  {| local_frame := "map"; fcu_frame := "base_link";
     transform_timeout := millis 500;
     telemetry_transform_timeout := millis 500;
     offboard_timeout := seconds 3;
     land_timeout := seconds 3;
     arming_timeout := seconds 4;
     local_position_timeout := seconds 2;
     state_timeout := seconds 3;
     velocity_timeout := seconds 2;
     global_position_timeout := seconds 10;
     battery_timeout := seconds 2;
     default_speed := divf one (of_int 2);
     auto_release := true;
     land_only_in_offboard := true;
     reference_frames := [] |}.

End Runtime.

(** ** IEEE-754 arithmetic, bit-exact

    [double] is binary64 and [float] binary32, both carried by
    [spec_float] in the canonical form of binary64; every operation
    rounds to nearest, ties to even, as the node's code does on x86-64
    and ARM. *)

Module IEEE.

(** The canonical binary64 form of a value that binary64 holds. *)
Definition double (x : spec_float) : spec_float :=
  match x with
  | S754_finite s m e => binary_round 53 1024 s m e
  | _ => x
  end.

(** The conversion [double -> float]. *)
Definition float (x : spec_float) : spec_float :=
  match x with
  | S754_finite s m e => double (binary_round 24 128 s m e)
  | _ => x
  end.

Definition of_Z (z : Z) : spec_float := binary_normalize 53 1024 z 0 false.

Definition is_nan (x : spec_float) : bool :=
  match x with S754_nan => true | _ => false end.
Definition is_inf (x : spec_float) : bool :=
  match x with S754_infinity _ => true | _ => false end.

(** [ros::Duration::toSec]:
    [static_cast<double>(sec) + 1e-9 * static_cast<double>(nsec)], with
    [nsec] in [0, 10^9). *)
Definition to_sec (d : Duration) : spec_float :=
  SFadd 53 1024 (of_Z (d / 1000000000))
    (SFmul 53 1024 (SFdiv 53 1024 (of_Z 1) (of_Z 1000000000))
                   (of_Z (d mod 1000000000))).

#[global] Instance arith : Arith spec_float := {|
  zero := S754_zero false;
  one := of_Z 1;
  NAN := S754_nan;
  add := SFadd 53 1024;
  sub := SFsub 53 1024;
  mul := SFmul 53 1024;
  div := SFdiv 53 1024;
  divf := fun x y => double (SFdiv 24 128 x y);
  std_sqrt := SFsqrt 53 1024;
  ltb := SFltb;
  eqb := SFeqb;
  std_isnan := is_nan;
  std_isinf := is_inf;
  to_float := float;
  toSec := to_sec;
  of_int := of_Z
|}.

(** A point whose coordinates are all NaN. *)
Definition all_nan : Point.t spec_float :=
  {| Point.x := S754_nan; Point.y := S754_nan; Point.z := S754_nan |}.

(** Zeros of either sign; zeros and finite values. *)
Definition is_zero (x : spec_float) : bool :=
  match x with S754_zero _ => true | _ => false end.
Definition is_number (x : spec_float) : bool :=
  match x with S754_zero _ | S754_finite _ _ _ => true | _ => false end.

(** The point with integer coordinates. *)
Definition pt (a b c : Z) : Point.t spec_float :=
  {| Point.x := of_Z a; Point.y := of_Z b; Point.z := of_Z c |}.

End IEEE.

(** ** Rounding-free arithmetic

    The reals with NaN and the two infinities: the operations are exact
    on finite values and follow IEEE-754 on the special ones.  The sign
    of zero is not kept: a zero divisor counts as [+0]. *)

Module Ideal.

Local Open Scope R_scope.

Inductive xreal := XNaN | XInf (negative : bool) | XFin (r : R).

Definition Rltb (a b : R) : bool := if Rlt_dec a b then true else false.
Definition Reqb (a b : R) : bool := if Req_dec_T a b then true else false.

Definition xopp (x : xreal) : xreal :=
  match x with
  | XNaN => XNaN
  | XInf s => XInf (negb s)
  | XFin r => XFin (- r)
  end.

Definition xadd (x y : xreal) : xreal :=
  match x, y with
  | XNaN, _ | _, XNaN => XNaN
  | XInf a, XInf b => if Bool.eqb a b then XInf a else XNaN
  | XInf a, XFin _ => XInf a
  | XFin _, XInf b => XInf b
  | XFin a, XFin b => XFin (a + b)
  end.

Definition xsub (x y : xreal) : xreal := xadd x (xopp y).

Definition xmul (x y : xreal) : xreal :=
  match x, y with
  | XNaN, _ | _, XNaN => XNaN
  | XInf a, XInf b => XInf (xorb a b)
  | XInf a, XFin r | XFin r, XInf a =>
      if Reqb r 0 then XNaN else XInf (xorb a (Rltb r 0))
  | XFin a, XFin b => XFin (a * b)
  end.

Definition xdiv (x y : xreal) : xreal :=
  match x, y with
  | XNaN, _ | _, XNaN => XNaN
  | XInf _, XInf _ => XNaN
  | XInf a, XFin r => XInf (xorb a (Rltb r 0))
  | XFin _, XInf _ => XFin 0
  | XFin a, XFin b =>
      if Reqb b 0 then (if Reqb a 0 then XNaN else XInf (Rltb a 0))
      else XFin (a / b)
  end.

Definition xsqrt (x : xreal) : xreal :=
  match x with
  | XNaN => XNaN
  | XInf s => if s then XNaN else XInf false
  | XFin r => if Rltb r 0 then XNaN else XFin (sqrt r)
  end.

Definition xltb (x y : xreal) : bool :=
  match x, y with
  | XNaN, _ | _, XNaN => false
  | XInf a, XInf b => a && negb b
  | XInf a, XFin _ => a
  | XFin _, XInf b => negb b
  | XFin a, XFin b => Rltb a b
  end.

Definition xeqb (x y : xreal) : bool :=
  match x, y with
  | XInf a, XInf b => Bool.eqb a b
  | XFin a, XFin b => Reqb a b
  | _, _ => false
  end.

Definition xisnan (x : xreal) : bool :=
  match x with XNaN => true | _ => false end.
Definition xisinf (x : xreal) : bool :=
  match x with XInf _ => true | _ => false end.

#[global] Instance arith : Arith xreal := {|
  zero := XFin 0;
  one := XFin 1;
  NAN := XNaN;
  add := xadd;
  sub := xsub;
  mul := xmul;
  div := xdiv;
  divf := xdiv;
  std_sqrt := xsqrt;
  ltb := xltb;
  eqb := xeqb;
  std_isnan := xisnan;
  std_isinf := xisinf;
  to_float := fun x => x;
  toSec := fun d => XFin (IZR d / 1000000000);
  of_int := fun z => XFin (IZR z)
|}.

(** *** libm and tf on the extended reals *)

Definition xsin (x : xreal) : xreal :=
  match x with XFin r => XFin (sin r) | _ => XNaN end.
Definition xcos (x : xreal) : xreal :=
  match x with XFin r => XFin (cos r) | _ => XNaN end.

(** [atan2] of the C standard (annex F for the infinities). *)
Definition Ratan2 (y x : R) : R :=
  if Rltb 0 x then atan (y / x)
  else if Rltb x 0 then
    (if Rltb y 0 then atan (y / x) - PI else atan (y / x) + PI)
  else if Rltb 0 y then PI / 2
  else if Rltb y 0 then - (PI / 2)
  else 0.

Definition signed (negative : bool) (r : R) : R :=
  if negative then - r else r.

Definition xatan2 (y x : xreal) : xreal :=
  match y, x with
  | XNaN, _ | _, XNaN => XNaN
  | XFin b, XFin a => XFin (Ratan2 b a)
  | XFin b, XInf s => XFin (if s then signed (Rltb b 0) PI else 0)
  | XInf t, XFin _ => XFin (signed t (PI / 2))
  | XInf t, XInf s =>
      XFin (signed t (if s then 3 * PI / 4 else PI / 4))
  end.

(** [std::to_string(float)] prints with [%f]: the exact value rounded
    to six decimals, to nearest, ties to even. *)
Definition digits (z : Z) : string :=
  NilZero.string_of_uint (N.to_uint (Z.to_N z)).

Definition pad6 (s : string) : string :=
  String.substring 0 (6 - String.length s) "000000" ++ s.

Definition xto_string (x : xreal) : string :=
  match x with
  | XNaN => "nan"
  | XInf s => if s then "-inf" else "inf"
  | XFin r =>
      let scaled := Rabs r * 1000000 in
      let below := Int_part scaled in
      let rest := frac_part scaled in
      let n := (if Rltb rest (/ 2) then below
                else if Rltb (/ 2) rest then below + 1
                else if Z.even below then below else below + 1)%Z in
      ((if Rltb r 0 then "-" else "")
         ++ digits (n / 1000000) ++ "." ++ pad6 (digits (n mod 1000000)))%string
  end.

(** [tf::createQuaternionMsgFromRollPitchYaw], after
    [tf::Quaternion::setRPY]. *)
Definition quaternion_of_rpy (roll pitch yaw : xreal) : Quaternion.t xreal :=
  let two := XFin 2 in
  let cy := xcos (xdiv yaw two) in
  let sy := xsin (xdiv yaw two) in
  let cp := xcos (xdiv pitch two) in
  let sp := xsin (xdiv pitch two) in
  let cr := xcos (xdiv roll two) in
  let sr := xsin (xdiv roll two) in
  {| Quaternion.x := xsub (xmul (xmul sr cp) cy) (xmul (xmul cr sp) sy);
     Quaternion.y := xadd (xmul (xmul cr sp) cy) (xmul (xmul sr cp) sy);
     Quaternion.z := xsub (xmul (xmul cr cp) sy) (xmul (xmul sr sp) cy);
     Quaternion.w := xadd (xmul (xmul cr cp) cy) (xmul (xmul sr sp) sy) |}.

Definition xasin (x : xreal) : xreal :=
  match x with
  | XFin r => if Rltb r (-1) || Rltb 1 r then XNaN else XFin (asin r)
  | _ => XNaN
  end.

(** [tf2::getEulerYPR], after tf2/impl/utils.h: yaw, pitch, roll. *)
Definition euler_ypr (q : Quaternion.t xreal) : xreal * xreal * xreal :=
  let x := Quaternion.x q in
  let y := Quaternion.y q in
  let z := Quaternion.z q in
  let w := Quaternion.w q in
  let sqx := xmul x x in
  let sqy := xmul y y in
  let sqz := xmul z z in
  let sqw := xmul w w in
  let sarg :=
    xdiv (xmul (XFin (-2)) (xsub (xmul x z) (xmul w y)))
         (xadd (xadd (xadd sqx sqy) sqz) sqw) in
  let pi_2 := XFin (PI / 2) in
  if negb (xltb (XFin (-0.99999)) sarg) && negb (xisnan sarg) then
    (xmul (XFin (-2)) (xatan2 y x), xopp pi_2, XFin 0)
  else if negb (xltb sarg (XFin 0.99999)) && negb (xisnan sarg) then
    (xmul (XFin 2) (xatan2 y x), pi_2, XFin 0)
  else
    (xatan2 (xmul (XFin 2) (xadd (xmul x y) (xmul w z)))
            (xsub (xsub (xadd sqw sqx) sqy) sqz),
     xasin sarg,
     xatan2 (xmul (XFin 2) (xadd (xmul y z) (xmul w x)))
            (xadd (xsub (xsub sqw sqx) sqy) sqz)).

#[global] Instance libs : Libs xreal := {|
  std_sin := xsin;
  std_cos := xcos;
  std_atan2 := xatan2;
  M_PI := XFin PI;
  std_to_string := xto_string;
  createQuaternionMsgFromRollPitchYaw := quaternion_of_rpy;
  getYaw := fun q => fst (fst (euler_ypr q));
  getEulerYPR := euler_ypr
|}.

(** A solver for short distances, to run examples with: the
    equirectangular projection on the sphere of the WGS84 equatorial
    radius.  The theorems on [globalToLocal] hold for every solver. *)
Definition flat_inverse (lat1 lon1 lat2 lon2 : xreal)
    : xreal * xreal * xreal :=
  let rad := XFin (PI / 180) in
  let mid := xmul (xdiv (xadd lat1 lat2) (XFin 2)) rad in
  let dx := xmul (xmul (xsub lon2 lon1) rad) (xcos mid) in
  let dy := xmul (xsub lat2 lat1) rad in
  let azi := xdiv (xatan2 dx dy) rad in
  (xmul (XFin 6378137) (xsqrt (xadd (xmul dx dx) (xmul dy dy))), azi, azi).

#[global] Instance flat_earth : Geodesic xreal := {|
  Geodesic_Inverse := flat_inverse
|}.

(** A point with real coordinates, the distance between two of them, and
    the seconds from [t0] to [t]. *)
Definition pt (a b c : R) : Point.t xreal :=
  {| Point.x := XFin a; Point.y := XFin b; Point.z := XFin c |}.

Definition dist (a b c a' b' c' : R) : R :=
  sqrt ((a' - a) * (a' - a) + (b' - b) * (b' - b) + (c' - c) * (c' - c)).

Definition elapsed (t0 t : Time) : R := IZR (t - t0) / 1000000000.

End Ideal.

(** ** Notions that the properties speak of *)

Section Notions.
Context {num : Type} {A : Arith num} {L : Libs num} {G : Geodesic num}.

(** The current setpoint is the same in [s'] as in [s]: its kind, the
    target pose and velocity as stored and as transformed, the start of
    the navigation and its speed, and the yaw policy. *)
Definition setpoint_unchanged (s s' : Setpoint num) : Prop :=
  setpoint_type s' = setpoint_type s /\
  setpoint_position s' = setpoint_position s /\
  setpoint_position_transformed s' = setpoint_position_transformed s /\
  setpoint_velocity s' = setpoint_velocity s /\
  setpoint_velocity_transformed s' = setpoint_velocity_transformed s /\
  nav_start s' = nav_start s /\
  nav_speed s' = nav_speed s /\
  setpoint_yaw_type s' = setpoint_yaw_type s /\
  setpoint_yaw_rate s' = setpoint_yaw_rate s.

(** The autopilot state is fresh and shows a connection. *)
Definition state_fresh (w : World num) : Prop :=
  now (ros w) - Header.stamp (State.header (state (telemetry (globals w))))
    <= state_timeout (params (globals w)) /\
  State.connected (state (telemetry (globals w))) = true.

(** What a piece of code publishes in [w]: the messages it appends. *)
Definition emitted {R : Type} (m : M num R) (w : World num)
    : list (Msg num) :=
  skipn (List.length (sent w)) (sent (snd (m w))).

(** Setpoints, as opposed to frames for the transform broadcaster and
    responses to clients. *)
Definition is_setpoint (m : Msg num) : bool :=
  match m with
  | sendTransform _ | response _ | telemetry_response _ => false
  | _ => true
  end.

Definition setpoints (l : list (Msg num)) : list (Msg num) :=
  filter is_setpoint l.

(** A raw position target that carries a yaw rate and no absolute yaw:
    velocities, accelerations and yaw are to be ignored, positions and
    the yaw rate are not. *)
Definition yaw_rate_target (stamp : Time) (rate : num) (m : Msg num) : Prop :=
  exists p,
    m = position_raw_pub p /\
    Header.stamp (PositionTarget.header p) = stamp /\
    PositionTarget.yaw_rate p = rate /\
    forallb (fun b => asserted b (PositionTarget.type_mask p))
      [PositionTarget.IGNORE_VX; PositionTarget.IGNORE_VY;
       PositionTarget.IGNORE_VZ; PositionTarget.IGNORE_AFX;
       PositionTarget.IGNORE_AFY; PositionTarget.IGNORE_AFZ;
       PositionTarget.IGNORE_YAW] = true /\
    existsb (fun b => asserted b (PositionTarget.type_mask p))
      [PositionTarget.IGNORE_PX; PositionTarget.IGNORE_PY;
       PositionTarget.IGNORE_PZ; PositionTarget.IGNORE_YAW_RATE] = false.

(** A pose setpoint: position and orientation, no yaw rate. *)
Definition pose_target (stamp : Time) (m : Msg num) : Prop :=
  exists p,
    m = position_pub p /\ Header.stamp (PoseStamped.header p) = stamp.

(** The raw attitude target of a [set_rates] command at a tick: the
    body frame, IGNORE_ATTITUDE, the commanded rates and thrust. *)
Definition rates_message (w : World num) (req : SetRates.Request num)
    (stamp : Time) : AttitudeTarget.t num :=
  {| AttitudeTarget.header :=
       {| Header.stamp := stamp;
          Header.frame_id := fcu_frame (params (globals w)) |};
     AttitudeTarget.type_mask := AttitudeTarget.IGNORE_ATTITUDE;
     AttitudeTarget.orientation :=
       AttitudeTarget.orientation (att_raw_msg (containers (globals w)));
     AttitudeTarget.body_rate :=
       {| Vector3.x := SetRates.roll_rate req;
          Vector3.y := SetRates.pitch_rate req;
          Vector3.z := SetRates.yaw_rate req |};
     AttitudeTarget.thrust := SetRates.thrust req |}.

Definition rates_target (w : World num) (req : SetRates.Request num)
    (stamp : Time) : Msg num :=
  attitude_raw_pub (rates_message w req stamp).

(** What an accepted [set_rates] leaves for the publisher. *)
Definition rates_pending (w : World num) (req : SetRates.Request num)
    (w' : World num) : Prop :=
  setpoint_type (sp (globals w')) = RATES /\
  fcu_frame (params (globals w')) = fcu_frame (params (globals w)) /\
  AttitudeTarget.orientation (att_raw_msg (containers (globals w')))
    = AttitudeTarget.orientation (att_raw_msg (containers (globals w))) /\
  Twist.angular (TwistStamped.twist (rates_msg (containers (globals w'))))
    = {| Vector3.x := SetRates.roll_rate req;
         Vector3.y := SetRates.pitch_rate req;
         Vector3.z := SetRates.yaw_rate req |} /\
  Thrust.thrust (thrust_msg (containers (globals w'))) = SetRates.thrust req.

(** The world that an accepted [set_rates] leaves. *)
Definition rates_accepted (req : SetRates.Request num) (w : World num)
    : World num :=
  let stamp := now (ros w) in
  let angular := {| Vector3.x := SetRates.roll_rate req;
                    Vector3.y := SetRates.pitch_rate req;
                    Vector3.z := SetRates.yaw_rate req |} in
  let m := rates_message w req stamp in
  send (attitude_raw_pub m)
    (upd_globals
       (fun g =>
          set_setpoint_timer true
            (upd_sp
               (fun s =>
                  set_busy false
                    (set_wait_armed false (set_setpoint_type RATES s)))
               (upd_containers
                  (fun c =>
                     set_att_raw_msg m
                       (set_rates_msg
                          (TwistStamped.with_stamp stamp
                             (TwistStamped.with_angular angular (rates_msg c)))
                          (set_thrust_msg
                             (Thrust.with_stamp stamp
                                (Thrust.with_thrust (SetRates.thrust req)
                                   (thrust_msg c)))
                             (set_position_raw_msg
                                (PositionTarget.with_stamp stamp
                                   (position_raw_msg c)) c))))
                  g))) w).

(** What every command does when [busy] is set. *)
Definition busy_exit (res : Response.t) (w : World num)
    : outcome (bool * Response.t) * World num :=
  (Val (true, Response.with_message "Busy" res),
   upd_globals (upd_sp (set_busy false)) w).

(** What [checkState] says of an autopilot that is not ready. *)
Definition unready_message (w : World num) : string :=
  let st := state (telemetry (globals w)) in
  if Z.ltb (state_timeout (params (globals w)))
           (now (ros w) - Header.stamp (State.header st))
  then "State timeout, check mavros settings"
  else "No connection to FCU, https://clever.copterexpress.com/connection.html".

(** The world that a command rejected in its checks leaves. *)
Definition rejected (what : string) (res : Response.t) (w : World num)
    : outcome (bool * Response.t) * World num :=
  (Val (true, Response.with_message what res),
   upd_globals (upd_sp (set_busy false)) w).

(** The local position is fresh. *)
Definition position_fresh (w : World num) : Prop :=
  now (ros w)
    - Header.stamp (PoseStamped.header (local_position (telemetry (globals w))))
    <= local_position_timeout (params (globals w)).

(** A piece of code that lets no exception out. *)
Definition never_throws {R : Type} (m : M num R) : Prop :=
  forall w e w', m w <> (Throw e, w').

(** The frame that [get_telemetry] answers in. *)
Definition requested_frame (req : GetTelemetry.Request.t) (w : World num)
    : string :=
  if String.eqb (GetTelemetry.Request.frame_id req) ""
  then local_frame (params (globals w))
  else GetTelemetry.Request.frame_id req.

(** The pose and the velocity of a telemetry response [r] are given in
    [frame]: whenever the cached local position (the velocity) of [w'] is
    fresh by the timeouts of [p] and its transform into [frame] succeeds,
    the position and the angles (the linear velocity) of [r] are those
    of the transformed message. *)
Definition telemetry_in_frame (frame : string) (p : Params num)
    (w' : World num) (r : GetTelemetry.Response.t num) : Prop :=
  let tf := tf_buffer (ros w') in
  let lp := local_position (telemetry (globals w')) in
  let vel := velocity (telemetry (globals w')) in
  (forall pose,
     now (ros w') - Header.stamp (PoseStamped.header lp)
       <= local_position_timeout p ->
     transform_pose tf lp frame 0 = Ok pose ->
     {| Point.x := GetTelemetry.Response.x r;
        Point.y := GetTelemetry.Response.y r;
        Point.z := GetTelemetry.Response.z r |}
       = Pose.position (PoseStamped.pose pose) /\
     (GetTelemetry.Response.yaw r, GetTelemetry.Response.pitch r,
      GetTelemetry.Response.roll r)
       = getEulerYPR (Pose.orientation (PoseStamped.pose pose))) /\
  (forall out,
     now (ros w') - Header.stamp (TwistStamped.header vel)
       <= velocity_timeout p ->
     transform_vector tf
       {| Vector3Stamped.header := TwistStamped.header vel;
          Vector3Stamped.vector := Twist.linear (TwistStamped.twist vel) |}
       frame 0 = Ok out ->
     {| Vector3.x := GetTelemetry.Response.vx r;
        Vector3.y := GetTelemetry.Response.vy r;
        Vector3.z := GetTelemetry.Response.vz r |}
       = Vector3Stamped.vector out).

(** *** A runtime that stays up

    The handlers poll, and a polling loop of the model has [fuel] rounds:
    it ends by itself when each round moves the clock on and the rounds
    outlast the deadline. *)

(** The runtime is up and the parameters are [p0], those that [main]
    read. *)
Definition up (p0 : Params num) (w : World num) : Prop :=
  ok (ros w) = true /\ params (globals w) = p0.

(** A step [f] of the runtime keeps it up and moves the clock on by [d]
    at least. *)
Definition steady (p0 : Params num) (d : Duration)
    (f : World num -> World num) : Prop :=
  forall w, up p0 w -> up p0 (f w) /\ now (ros w) + d <= now (ros (f w)).

(** [n] rounds of polling, [delta] apart, outlast [timeout]. *)
Definition within_fuel (n : nat) (delta timeout : Duration) : Prop :=
  timeout < (Z.of_nat n - 1) * delta.

(** On a runtime that is up, [m] ends with a value or an exception, and
    leaves the runtime up with a clock that has not gone back. *)
Definition lively {R : Type} (p0 : Params num) (m : M num R) (w : World num)
    : Prop :=
  up p0 w ->
  match m w with
  | (Val _, w') | (Throw _, w') => up p0 w' /\ now (ros w) <= now (ros w')
  | _ => False
  end.

(** A polling loop that ends by its own [return], [break] or [throw]. *)
Definition leaves {R : Type} (p0 : Params num) (m : M num (option R))
    (w : World num) : Prop :=
  up p0 w ->
  match m w with
  | (Val (Some _), w') | (Throw _, w') =>
      up p0 w' /\ now (ros w) <= now (ros w')
  | _ => False
  end.

(** A message with the header [h] is older than [timeout] in [w]. *)
Definition stale (w : World num) (h : Header.t) (timeout : Duration) : Prop :=
  timeout < now (ros w) - Header.stamp h.

(** The six fields of the pose, the three of the linear velocity. *)
Definition pose_fields (r : GetTelemetry.Response.t num) : list num :=
  [GetTelemetry.Response.x r; GetTelemetry.Response.y r;
   GetTelemetry.Response.z r; GetTelemetry.Response.yaw r;
   GetTelemetry.Response.pitch r; GetTelemetry.Response.roll r].
Definition velocity_fields (r : GetTelemetry.Response.t num) : list num :=
  [GetTelemetry.Response.vx r; GetTelemetry.Response.vy r;
   GetTelemetry.Response.vz r].
Definition rate_fields (r : GetTelemetry.Response.t num) : list num :=
  [GetTelemetry.Response.roll_rate r; GetTelemetry.Response.pitch_rate r;
   GetTelemetry.Response.yaw_rate r].
Definition fix_fields (r : GetTelemetry.Response.t num) : list num :=
  [GetTelemetry.Response.lat r; GetTelemetry.Response.lon r;
   GetTelemetry.Response.alt r].

(** What a response [r] given in the world [w'] lacks: the fields of
    whatever is stale or cannot be transformed are NaN. *)
Definition nan_for_what_it_lacks (p : Params num) (w' : World num)
    (r : GetTelemetry.Response.t num) : Prop :=
  let t := telemetry (globals w') in
  let tf := tf_buffer (ros w') in
  let frame := GetTelemetry.Response.frame_id r in
  let lp := local_position t in
  let vel := velocity t in
  (stale w' (PoseStamped.header lp) (local_position_timeout p) \/
   (exists e, transform_pose tf lp frame 0 = Err e) ->
   pose_fields r = repeat NAN 6) /\
  (stale w' (TwistStamped.header vel) (velocity_timeout p) ->
   velocity_fields r = repeat NAN 3 /\ rate_fields r = repeat NAN 3) /\
  ((exists e,
      transform_vector tf
        {| Vector3Stamped.header := TwistStamped.header vel;
           Vector3Stamped.vector := Twist.linear (TwistStamped.twist vel) |}
        frame 0 = Err e) ->
   velocity_fields r = repeat NAN 3) /\
  (stale w' (NavSatFix.header (global_position t))
     (global_position_timeout p) ->
   fix_fields r = repeat NAN 3) /\
  (stale w' (BatteryState.header (battery t)) (battery_timeout p) ->
   GetTelemetry.Response.voltage r = NAN /\
   GetTelemetry.Response.cell_voltage r = NAN) /\
  (BatteryState.cell_voltage (battery t) = [] ->
   GetTelemetry.Response.cell_voltage r = NAN).

(** What a response [r] to a request made in [w] and answered in [w']
    echoes: the autopilot state as it was fresh at the request, and what
    is fresh at the answer of the angular rates, the fix and the
    battery. *)
Definition echoes_what_is_fresh (p : Params num)
    (res : GetTelemetry.Response.t num) (w w' : World num)
    (r : GetTelemetry.Response.t num) : Prop :=
  let st := state (telemetry (globals w)) in
  let t := telemetry (globals w') in
  let a := Twist.angular (TwistStamped.twist (velocity t)) in
  (~ stale w (State.header st) (state_timeout p) ->
   (GetTelemetry.Response.connected r, GetTelemetry.Response.armed r,
    GetTelemetry.Response.mode r)
   = (State.connected st, State.armed st, State.mode st)) /\
  (stale w (State.header st) (state_timeout p) ->
   (GetTelemetry.Response.connected r, GetTelemetry.Response.armed r,
    GetTelemetry.Response.mode r)
   = (GetTelemetry.Response.connected res, GetTelemetry.Response.armed res,
      GetTelemetry.Response.mode res)) /\
  (~ stale w' (TwistStamped.header (velocity t)) (velocity_timeout p) ->
   rate_fields r = [Vector3.x a; Vector3.y a; Vector3.z a]) /\
  (~ stale w' (NavSatFix.header (global_position t))
       (global_position_timeout p) ->
   fix_fields r = [NavSatFix.latitude (global_position t);
                   NavSatFix.longitude (global_position t);
                   NavSatFix.altitude (global_position t)]) /\
  (~ stale w' (BatteryState.header (battery t)) (battery_timeout p) ->
   GetTelemetry.Response.voltage r = BatteryState.voltage (battery t) /\
   GetTelemetry.Response.cell_voltage r
   = hd NAN (BatteryState.cell_voltage (battery t))).

(** What a command has set and a tick is to leave alone: the kind of
    setpoint, the yaw policy and rate, the speed, the flags, the timer, the
    target pose and velocity as commanded (the tick restamps them), the
    place of the start of the navigation (the tick may restamp it), the
    telemetry and the parameters. *)
Definition commanded (w : World num) :=
  let g := globals w in
  let s := sp g in
  (setpoint_type s, setpoint_yaw_type s, setpoint_yaw_rate s, nav_speed s,
   (wait_armed s, busy s, setpoint_timer g),
   (PoseStamped.pose (setpoint_position s),
    Header.frame_id (PoseStamped.header (setpoint_position s))),
   (Vector3Stamped.vector (setpoint_velocity s),
    Header.frame_id (Vector3Stamped.header (setpoint_velocity s))),
   (PoseStamped.pose (nav_start s),
    Header.frame_id (PoseStamped.header (nav_start s))),
   telemetry g, params g).

(** A raw target for a velocity setpoint: the positions and the
    accelerations are to be ignored, the velocities are not, and of the
    yaw and the yaw rate exactly one is: the yaw rate under the
    absolute-yaw policy, the yaw otherwise. *)
Definition velocity_target (yaw_type : setpoint_yaw_type_t)
    (p : PositionTarget.t num) : Prop :=
  forallb (fun b => asserted b (PositionTarget.type_mask p))
    [PositionTarget.IGNORE_PX; PositionTarget.IGNORE_PY;
     PositionTarget.IGNORE_PZ; PositionTarget.IGNORE_AFX;
     PositionTarget.IGNORE_AFY; PositionTarget.IGNORE_AFZ] = true /\
  existsb (fun b => asserted b (PositionTarget.type_mask p))
    [PositionTarget.IGNORE_VX; PositionTarget.IGNORE_VY;
     PositionTarget.IGNORE_VZ] = false /\
  asserted PositionTarget.IGNORE_YAW_RATE (PositionTarget.type_mask p)
    = setpoint_yaw_type_eqb yaw_type YAW /\
  asserted PositionTarget.IGNORE_YAW (PositionTarget.type_mask p)
    = negb (setpoint_yaw_type_eqb yaw_type YAW).

(** The callbacks of the telemetry subscribers and of the timer. *)
Definition passive (cb : Callback num) : bool :=
  match cb with
  | state_sub _ | velocity_sub _ | global_position_sub _ | battery_sub _
  | statustext_sub _ | local_position_sub _ | timer_event _ => true
  | _ => false
  end.

(** The frame that follows the vehicle: at the position [lp], level,
    turned by the yaw of [lp]. *)
Definition body_frame_of (child : string) (lp : PoseStamped.t num)
    : TransformStamped.t num :=
  let p := Pose.position (PoseStamped.pose lp) in
  {| TransformStamped.header := PoseStamped.header lp;
     TransformStamped.child_frame_id := child;
     TransformStamped.transform :=
       {| Transform.translation :=
            {| Vector3.x := Point.x p; Vector3.y := Point.y p;
               Vector3.z := Point.z p |};
          Transform.rotation :=
            createQuaternionMsgFromRollPitchYaw zero zero
              (getYaw (Pose.orientation (PoseStamped.pose lp))) |} |}.

(** The node is idle: no command has been accepted yet. *)
Definition idle (w : World num) : Prop :=
  setpoint_type (sp (globals w)) = NONE.

(** The frame that a command refers to, and the frame its target is
    kept in. *)
Definition frame_of (p : Params num) (frame_id : string) : string :=
  if String.eqb frame_id "" then local_frame p else frame_id.
Definition reference_of (p : Params num) (frame_id : string) : string :=
  match find (reference_frames p) (frame_of p frame_id) with
  | None => frame_of p frame_id
  | Some f => f
  end.

(** The yaw policy that a yaw stands for. *)
Definition policy_of (yaw : num) : setpoint_yaw_type_t :=
  if std_isnan yaw then YAW_RATE
  else if std_isinf yaw && gtb yaw zero then TOWARDS else YAW.

(** The clock of a runtime, [dt] later. *)
Definition later (dt : Duration) (r : Ros num) : Ros num :=
  {| now := now r + dt; ok := ok r; tf_buffer := tf_buffer r;
     set_mode_call := set_mode_call r; arming_call := arming_call r;
     queue := queue r |}.

(** A runtime in which a shutdown was requested. *)
Definition shutdown (r : Ros num) : Ros num :=
  {| now := now r; ok := false; tf_buffer := tf_buffer r;
     set_mode_call := set_mode_call r; arming_call := arming_call r;
     queue := queue r |}.

(** The responses among the messages sent, in order. *)
Definition responses (l : list (Msg num)) : list Response.t :=
  flat_map (fun m => match m with response r => [r] | _ => [] end) l.

(** The world in which the callbacks [q] are due. *)
Definition due (q : list (Callback num)) (w : World num) : World num :=
  {| globals := globals w; sent := sent w;
     ros := {| now := now (ros w); ok := ok (ros w);
               tf_buffer := tf_buffer (ros w);
               set_mode_call := set_mode_call (ros w);
               arming_call := arming_call (ros w); queue := q |} |}.

(** The world with the transform buffer [tf] in place of its own. *)
Definition with_tf (tf : Tf num) (w : World num) : World num :=
  {| globals := globals w; sent := sent w;
     ros := {| now := now (ros w); ok := ok (ros w); tf_buffer := tf;
               set_mode_call := set_mode_call (ros w);
               arming_call := arming_call (ros w);
               queue := queue (ros w) |} |}.

(** Run from [w], [m] does not look at the transform buffer: with any
    other buffer it ends in the same way, in the same world. *)
Definition tf_blind {R : Type} (m : M num R) (w : World num) : Prop :=
  forall tf, m (with_tf tf w) = (fst (m w), with_tf tf (snd (m w))).

(** *** The interpolation as the specification words it

    [d = |target - start|], [T = d / speed],
    [u = clamp((t - start.timestamp) / T, 0, 1)], emit
    [start + u (target - start)]. *)

Definition clamp (x lo hi : num) : num :=
  if (x <? lo)%num then lo else if (hi <? x)%num then hi else x.

Definition norm (from to : Point.t num) : num :=
  let dx := (Point.x to - Point.x from)%num in
  let dy := (Point.y to - Point.y from)%num in
  let dz := (Point.z to - Point.z from)%num in
  std_sqrt (dx * dx + dy * dy + dz * dz)%num.

Definition interpolation_parameter (t : Time) (start : PoseStamped.t num)
    (target : Point.t num) (speed : num) : num :=
  let d := norm (Pose.position (PoseStamped.pose start)) target in
  let T := (d / speed)%num in
  clamp (toSec (Z.sub t (Header.stamp (PoseStamped.header start))) / T)%num
        zero one.

Definition navigate_setpoint_spec (t : Time) (start : PoseStamped.t num)
    (target : Point.t num) (speed : num) : Point.t num :=
  let u := interpolation_parameter t start target speed in
  let from := Pose.position (PoseStamped.pose start) in
  {| Point.x := (Point.x from + u * (Point.x target - Point.x from))%num;
     Point.y := (Point.y from + u * (Point.y target - Point.y from))%num;
     Point.z := (Point.z from + u * (Point.z target - Point.z from))%num |}.

(** The start and the target of the navigation in a setpoint state. *)
Definition start_point (s : Setpoint num) : Point.t num :=
  Pose.position (PoseStamped.pose (nav_start s)).
Definition target_point (s : Setpoint num) : Point.t num :=
  Pose.position (PoseStamped.pose (setpoint_position_transformed s)).
Definition start_stamp (s : Setpoint num) : Time :=
  Header.stamp (PoseStamped.header (nav_start s)).

(** A navigation from [from] (stamped [t0]) to [to]. *)
Definition navigation (t0 : Time) (from to : Point.t num) (waiting : bool)
    : Setpoint num :=
  let at_ (t : Time) (p : Point.t num) : PoseStamped.t num :=
    {| PoseStamped.header := {| Header.stamp := t; Header.frame_id := "map" |};
       PoseStamped.pose := {| Pose.position := p;
                              Pose.orientation := Quaternion_zero |} |} in
  set_setpoint_type NAVIGATE
    (set_wait_armed waiting
       (set_setpoint_position_transformed (at_ t0 to)
          (set_nav_start (at_ t0 from) main_setpoint))).

(** A transform buffer that knows no transform. *)
Definition empty_tf : Tf num :=
  {| canTransform := fun _ _ _ => false;
     transform_pose := fun _ _ _ => Err "no transform";
     transform_vector := fun _ _ _ => Err "no transform";
     lookupTransform := fun _ _ _ => Err "no transform" |}.

(** A transform buffer in which every frame is the local frame. *)
Definition identity_tf : Tf num :=
  {| canTransform := fun _ _ _ => true;
     transform_pose := fun p f _ => Ok (PoseStamped.with_frame_id f p);
     transform_vector :=
       fun v f _ =>
         Ok (Vector3Stamped.with_header
               (Header.with_frame_id f (Vector3Stamped.header v)) v);
     lookupTransform :=
       fun f c t =>
         Ok {| TransformStamped.header :=
                 {| Header.stamp := t; Header.frame_id := f |};
               TransformStamped.child_frame_id := c;
               TransformStamped.transform :=
                 {| Transform.translation := Vector3_zero;
                    Transform.rotation :=
                      {| Quaternion.x := zero; Quaternion.y := zero;
                         Quaternion.z := zero; Quaternion.w := one |} |} |} |}.

(** The state message of an autopilot, stamped [t]. *)
Definition autopilot (t : Time) (connected armed : bool) (mode : string)
    : State.t :=
  {| State.header := {| Header.stamp := t; Header.frame_id := "" |};
     State.connected := connected; State.armed := armed;
     State.mode := mode |}.

(** The node after [main], at time [t], with the autopilot state [st]
    received, nothing published, no callback due, and services that
    answer as given. *)
Definition node_at (t : Time) (st : State.t) (tf : Tf num)
    (set_mode : string -> option bool) (arming : bool -> bool)
    : World num :=
  {| globals :=
       upd_telemetry (set_state st)
         (main_globals default_params "navigate_target" "body");
     sent := [];
     ros := {| now := t; ok := true; tf_buffer := tf;
               set_mode_call := set_mode; arming_call := arming;
               queue := [] |} |}.

End Notions.

(** ** Worlds and requests to run the node on *)

Module Examples.

Local Open Scope R_scope.

(** A runtime whose clock gains 100 ms at each [r.sleep()]. *)
Definition tick : Ros Ideal.xreal -> Ros Ideal.xreal := later (millis 100).

(** A runtime that is shut down during the first [r.sleep()]. *)
Definition interrupted : Ros Ideal.xreal -> Ros Ideal.xreal :=
  fun r => shutdown (tick r).

(** At 100 s: the autopilot is connected, disarmed, in POSCTL, and
    refuses both services; no transform is known. *)
Definition grounded : World Ideal.xreal :=
  node_at (seconds 100) (autopilot (seconds 100) true false "POSCTL")
    empty_tf (fun _ => None) (fun _ => false).

(** The same with a command in flight. *)
Definition grounded_busy : World Ideal.xreal :=
  upd_globals (upd_sp (set_busy true)) grounded.

(** At 100 s: the autopilot is connected, armed, in OFFBOARD, and
    acknowledges mode changes without changing mode; no transform is
    known. *)
Definition flying : World Ideal.xreal :=
  node_at (seconds 100) (autopilot (seconds 100) true true "OFFBOARD")
    empty_tf (fun _ => Some true) (fun _ => true).

(** The same with every frame being the local frame. *)
Definition flying_in_map : World Ideal.xreal :=
  node_at (seconds 100) (autopilot (seconds 100) true true "OFFBOARD")
    identity_tf (fun _ => Some true) (fun _ => true).

Definition hold_at_1m : SetPosition.Request Ideal.xreal :=
  {| SetPosition.x := Ideal.XFin 0; SetPosition.y := Ideal.XFin 0;
     SetPosition.z := Ideal.XFin 1; SetPosition.yaw := Ideal.XNaN;
     SetPosition.yaw_rate := Ideal.XFin (1 / 2);
     SetPosition.frame_id := "body"; SetPosition.auto_arm := false |}.

Definition spin_up (auto_arm : bool) : SetRates.Request Ideal.xreal :=
  {| SetRates.pitch_rate := Ideal.XFin 0; SetRates.roll_rate := Ideal.XFin 0;
     SetRates.yaw_rate := Ideal.XFin 1; SetRates.thrust := Ideal.XFin (1 / 2);
     SetRates.auto_arm := auto_arm |}.

Definition roll_over : SetRates.Request Ideal.xreal :=
  {| SetRates.pitch_rate := Ideal.XFin 0; SetRates.roll_rate := Ideal.XFin 2;
     SetRates.yaw_rate := Ideal.XFin 0; SetRates.thrust := Ideal.XFin 1;
     SetRates.auto_arm := false |}.

(** At 100 s: the autopilot is connected, disarmed, in POSCTL; it
    acknowledges mode changes and arming without ever changing its state. *)
Definition willing : World Ideal.xreal :=
  node_at (seconds 100) (autopilot (seconds 100) true false "POSCTL")
    empty_tf (fun _ => Some true) (fun _ => true).

(** The same with two commands due: they are served by the first
    [ros::spinOnce()] of whichever command is polling. *)
Definition crowded : World Ideal.xreal :=
  due [sp_serv hold_at_1m; sr_serv roll_over] willing.

(** An attitude command in the body frame. *)
Definition level_off : SetAttitude.Request Ideal.xreal :=
  {| SetAttitude.pitch := Ideal.XFin 0; SetAttitude.roll := Ideal.XFin 0;
     SetAttitude.yaw := Ideal.XFin 0; SetAttitude.thrust := Ideal.XFin (1 / 2);
     SetAttitude.frame_id := "body"; SetAttitude.auto_arm := false |}.

(** In flight, armed and in OFFBOARD, with no transform known and the
    same two commands due: they are served by the first
    [ros::spinOnce()] of a command that waits for a transform. *)
Definition interrupted_wait : World Ideal.xreal :=
  due [sp_serv hold_at_1m; sr_serv roll_over] flying.

(** At 100 s, with the last autopilot state 10 s old. *)
Definition out_of_touch : World Ideal.xreal :=
  node_at (seconds 100) (autopilot (seconds 90) true false "POSCTL")
    empty_tf (fun _ => None) (fun _ => false).

(** A local position at (0, 0, 1) in the map, stamped [t]. *)
Definition one_metre_up (t : Time) : PoseStamped.t Ideal.xreal :=
  {| PoseStamped.header := {| Header.stamp := t; Header.frame_id := "map" |};
     PoseStamped.pose :=
       {| Pose.position := Ideal.pt 0 0 1;
          Pose.orientation :=
            {| Quaternion.x := Ideal.XFin 0; Quaternion.y := Ideal.XFin 0;
               Quaternion.z := Ideal.XFin 0; Quaternion.w := Ideal.XFin 1 |}
       |} |}.

(** [flying_in_map] with a local position just received. *)
Definition hovering : World Ideal.xreal :=
  upd_globals (upd_telemetry (set_local_position (one_metre_up (seconds 100))))
    flying_in_map.

(** Two metres east at one metre, at the speed [v]. *)
Definition go_east (v yaw yaw_rate : Ideal.xreal)
    : Navigate.Request Ideal.xreal :=
  {| Navigate.x := Ideal.XFin 2; Navigate.y := Ideal.XFin 0;
     Navigate.z := Ideal.XFin 1; Navigate.yaw := yaw;
     Navigate.yaw_rate := yaw_rate; Navigate.speed := v;
     Navigate.frame_id := "map"; Navigate.auto_arm := false |}.

(** A global fix at [(lat, lon)], stamped [t]. *)
Definition fix_at (t : Time) (lat lon : R) : NavSatFix.t Ideal.xreal :=
  {| NavSatFix.header := {| Header.stamp := t; Header.frame_id := "map" |};
     NavSatFix.latitude := Ideal.XFin lat;
     NavSatFix.longitude := Ideal.XFin lon;
     NavSatFix.altitude := Ideal.XFin 0 |}.

(** [flying_in_map] with a fix at 80 N on the Greenwich meridian. *)
Definition at_80_north : World Ideal.xreal :=
  upd_globals (upd_telemetry (set_global_position (fix_at (seconds 100) 80 0)))
    flying_in_map.

(** A solver for two northern points on opposite meridians, on the
    sphere of the WGS84 equatorial radius: the geodesic crosses the
    pole, so it leaves due north (azimuth 0 at point 1) and arrives
    heading due south (azimuth 180 at point 2), as it does on the
    ellipsoid. *)
Definition polar_inverse (lat1 lon1 lat2 lon2 : Ideal.xreal)
    : Ideal.xreal * Ideal.xreal * Ideal.xreal :=
  let rad := Ideal.XFin (PI / 180) in
  (Ideal.xmul (Ideal.XFin 6378137)
     (Ideal.xmul (Ideal.xsub (Ideal.xsub (Ideal.XFin 180) lat1) lat2) rad),
   Ideal.XFin 0, Ideal.XFin 180).

Definition polar_route : Geodesic Ideal.xreal :=
  {| Geodesic_Inverse := polar_inverse |}.

(** A velocity setpoint and an attitude setpoint, as the publisher
    finds them. *)
Definition cruising : World Ideal.xreal :=
  upd_globals (upd_sp (set_setpoint_type VELOCITY)) flying_in_map.
Definition leaning : World Ideal.xreal :=
  upd_globals (upd_sp (set_setpoint_type ATTITUDE)) flying_in_map.

(** An autopilot that obeys: at each spin it shows OFFBOARD, and armed
    once it has shown OFFBOARD. *)
Definition obey (w : World Ideal.xreal) : World Ideal.xreal :=
  let st := state (telemetry (globals w)) in
  upd_globals
    (upd_telemetry
       (set_state
          (autopilot (now (ros w)) true
             (String.eqb (State.mode st) "OFFBOARD") "OFFBOARD")))
    w.

(** A spin that takes four seconds and brings nothing. *)
Definition stall : World Ideal.xreal -> World Ideal.xreal :=
  r_sleep (later (seconds 4)).

(** A position setpoint in yaw-rate mode, as the publisher finds it. *)
Definition holding_with_yaw_rate : World Ideal.xreal :=
  upd_globals
    (upd_sp (fun s =>
       set_setpoint_type POSITION
         (set_setpoint_yaw_type YAW_RATE
            (set_setpoint_yaw_rate (Ideal.XFin (1 / 2)) s))))
    flying.

(** A navigation from the origin, stamped 10 s, to (2, 0, 0). *)
Definition two_metres : Setpoint Ideal.xreal :=
  navigation (seconds 10) (Ideal.pt 0 0 0) (Ideal.pt 2 0 0) false.

(** The same in IEEE arithmetic. *)
Definition two_metres_ieee : Setpoint spec_float :=
  navigation (seconds 10) (IEEE.pt 0 0 0) (IEEE.pt 2 0 0) false.

(** A navigation to the place where it starts, at (3, 4, 5), in IEEE
    arithmetic. *)
Definition on_the_spot (waiting : bool) : Setpoint spec_float :=
  navigation (seconds 10) (IEEE.pt 3 4 5) (IEEE.pt 3 4 5) waiting.

End Examples.

(** * Properties *)

Local Open Scope list_scope.

Section Properties.
Context {num : Type} {A : Arith num} {L : Libs num} {G : Geodesic num}.
Variable spinOnce sleep : World num -> World num.
Variable fuel : nat.

Ltac unfold_monad :=
  unfold upd_position_msg, upd_position_raw_msg, upd_thrust_msg,
    upd_rates_msg, assign, when, publish_msg, lift_result, try_catch,
    bind, get, ask, modify, ret, throw, run in *.

Ltac open_world w :=
  destruct w as [[?p ?c [?ns ?spos ?spt ?sv ?svt ?rate ?speed ?b ?wa ?ty ?yt]
                    [[?sth ?conn ?armed ?mode] ?stx ?lp ?v ?gp ?bat]
                    ?tm ?ps ?vel] ?snt ?r];
  cbn in *.

Lemma skipn_sent {T : Type} (l new : list T) :
  skipn (List.length l) (l ++ new) = new.
Proof. induction l; [reflexivity | assumption]. Qed.

Lemma fresh_not_late (now_ stamp timeout : Z) :
  now_ - stamp <= timeout -> Z.ltb timeout (now_ - stamp) = false.
Proof. intros H. apply Z.ltb_ge. exact H. Qed.

(** ** The command arbiter *)

Lemma serve_busy sp_type x y z vx vy vz pitch roll yaw pitch_rate roll_rate
    yaw_rate lat lon thrust speed frame_id auto_arm res w :
  busy (sp (globals w)) = true ->
  serve spinOnce sleep fuel sp_type x y z vx vy vz pitch roll yaw
    pitch_rate roll_rate yaw_rate lat lon thrust speed frame_id auto_arm
    res w = busy_exit res w.
Proof.
  intros Hb. unfold busy_exit, serve.
  unfold bind at 1. unfold ask at 1.
  unfold bind at 1. unfold try_catch at 1. unfold bind at 1. unfold get at 1.
  cbn [globals]. rewrite Hb. unfold bind at 1. unfold throw at 1.
  unfold bind, assign, modify, ret. reflexivity.
Qed.

Lemma land_busy res w :
  busy (sp (globals w)) = true ->
  land spinOnce sleep fuel res w = busy_exit res w.
Proof.
  intros Hb. unfold busy_exit, land.
  unfold try_catch at 1. unfold bind at 1. unfold get at 1.
  cbn [globals]. rewrite Hb. unfold bind at 1. unfold throw at 1.
  unfold bind, assign, modify, ret. reflexivity.
Qed.

Lemma handler_busy c res w :
  busy (sp (globals w)) = true ->
  handler spinOnce sleep fuel c res w = busy_exit res w.
Proof.
  intros Hb. destruct c; cbn [handler];
    first [ apply land_busy; exact Hb
          | unfold navigate, navigateGlobal, setPosition, setVelocity,
              setAttitude, setRates; apply serve_busy; exact Hb ].
Qed.

(** The rejection itself: each of the seven commands, issued while
    [busy] is set, returns
    with [success = false] and the message "Busy"; the current setpoint
    (kind, target pose and velocity, start and speed of the navigation,
    yaw policy), the publisher's messages and the timer are as before, and
    nothing is published. *)
Theorem busy_command_is_rejected (c : Command num) (w : World num) :
  busy (sp (globals w)) = true ->
  exists w',
    handler spinOnce sleep fuel c Response.default w
      = (Val (true, {| Response.success := false;
                       Response.message := "Busy" |}), w') /\
    setpoint_unchanged (sp (globals w)) (sp (globals w')) /\
    wait_armed (sp (globals w')) = wait_armed (sp (globals w)) /\
    containers (globals w') = containers (globals w) /\
    setpoint_timer (globals w') = setpoint_timer (globals w) /\
    sent w' = sent w.
Proof.
  intros Hb. rewrite (handler_busy c _ w Hb). unfold busy_exit.
  eexists. split; [reflexivity|].
  unfold setpoint_unchanged. cbn. repeat split.
Qed.

(** X2. The rejection itself clears [busy], the flag of the command that
    is still in flight. *)
Remark busy_rejection_clears_busy (c : Command num) (res : Response.t)
    (w : World num) :
  busy (sp (globals w)) = true ->
  busy (sp (globals (snd (handler spinOnce sleep fuel c res w)))) = false.
Proof. intros Hb. rewrite (handler_busy c res w Hb). reflexivity. Qed.

(** The block that [serve] tries ends without a value of its own: it
    leaves by its last statement or by an exception. *)
Definition gives_none {R : Type} (m : M num (option R)) : Prop :=
  forall w v w', m w = (Val v, w') -> v = None.

Lemma gives_none_bind {R S : Type} (m : M num S) (k : S -> M num (option R)) :
  (forall a, gives_none (k a)) -> gives_none (bind m k).
Proof.
  intros Hk w v w'. unfold bind.
  destruct (m w) as [[a|e| |] w1]; try discriminate.
  apply Hk.
Qed.

Lemma gives_none_ret {R : Type} : gives_none (ret (@None R)).
Proof. intros w v w' H. injection H as <- _. reflexivity. Qed.

(** [serve] lets no exception out, and when it returns it has cleared
    [busy]; a response that is not a success carries the message of the
    failure and the [success] it came with. *)
Lemma serve_returns_response sp_type x y z vx vy vz pitch roll yaw pitch_rate
    roll_rate yaw_rate lat lon thrust speed frame_id auto_arm res w :
  match serve spinOnce sleep fuel sp_type x y z vx vy vz pitch roll yaw
          pitch_rate roll_rate yaw_rate lat lon thrust speed frame_id
          auto_arm res w with
  | (Val (b, r), w') =>
      b = true /\ busy (sp (globals w')) = false /\
      (r = Response.with_success true res \/
       exists what, r = Response.with_message what res)
  | (Throw _, _) => False
  | _ => True
  end.
Proof.
  unfold serve.
  unfold bind at 1. unfold ask at 1. unfold bind at 1.
  unfold try_catch at 1.
  match goal with
  | |- context [match ?body w with _ => _ end] =>
      assert (Hnone : gives_none body);
        [| destruct (body w) as [[[[b r]|]|what| |] w1] eqn:E]
  end.
  - repeat first [ apply gives_none_ret
                 | apply gives_none_bind; intros
                 | match goal with
                   | |- gives_none (let '(_, _) := ?p in _) => destruct p
                   end
                 | progress cbv zeta ].
  - discriminate (Hnone _ _ _ E).
  - cbn. unfold_monad. cbn. auto.
  - cbn. unfold_monad. cbn.
    split; [reflexivity|]. split; [reflexivity|]. right.
    exists what. reflexivity.
  - exact I.
  - exact I.
Qed.

(** C3. A [set_rates] command with [auto_arm] on a vehicle that is not in
    OFFBOARD, when the [set_mode] service cannot be called: the message is
    recorded, [busy] is cleared and the response is a failure, but the
    publisher timer that this call started is left running, the setpoint
    kind stays switched and [wait_armed] stays set. *)
Theorem auto_arm_failure_leaves_timer_running (req : SetRates.Request num)
    (w : World num) :
  busy (sp (globals w)) = false ->
  setpoint_timer (globals w) = false ->
  state_fresh w ->
  String.eqb (State.mode (state (telemetry (globals w)))) "OFFBOARD"
    = false ->
  set_mode_call (ros w) "OFFBOARD" = None ->
  SetRates.auto_arm req = true ->
  exists w',
    setRates spinOnce sleep fuel req Response.default w
      = (Val (true, {| Response.success := false;
                       Response.message :=
                         "Error calling set_mode service" |}), w') /\
    busy (sp (globals w')) = false /\
    setpoint_type (sp (globals w')) = RATES /\
    setpoint_timer (globals w') = true /\
    wait_armed (sp (globals w')) = true.
Proof.
  intros Hb Htm [Hf Hc] Hm Hs Ha.
  unfold setRates, serve. rewrite Ha.
  open_world w. subst.
  unfold checkState, TIMEOUT, offboardAndArm. unfold_monad. cbn.
  rewrite (fresh_not_late _ _ _ Hf). cbn.
  unfold publish. unfold_monad. cbn. rewrite andb_false_r. cbn.
  rewrite Hm. cbn. rewrite Hs. cbn.
  eexists. split; [reflexivity|]. cbn. auto.
Qed.

(** X8. The sibling path: the same command without [auto_arm] fails
    because the vehicle is not in OFFBOARD, and this path does stop the
    publisher timer before it throws. *)
Lemma manual_failure_stops_the_timer (req : SetRates.Request num)
    (w : World num) :
  busy (sp (globals w)) = false ->
  state_fresh w ->
  String.eqb (State.mode (state (telemetry (globals w)))) "OFFBOARD"
    = false ->
  SetRates.auto_arm req = false ->
  exists w',
    setRates spinOnce sleep fuel req Response.default w
      = (Val (true, {| Response.success := false;
                       Response.message :=
                         "Copter is not in OFFBOARD mode, use auto_arm?" |}),
         w') /\
    busy (sp (globals w')) = false /\
    setpoint_timer (globals w') = false.
Proof.
  intros Hb [Hf Hc] Hm Ha.
  unfold setRates, serve. rewrite Ha.
  open_world w. subst.
  unfold checkState, TIMEOUT. unfold_monad. cbn.
  rewrite (fresh_not_late _ _ _ Hf). cbn.
  unfold publish. unfold_monad. cbn. rewrite andb_false_r. cbn.
  rewrite Hm. cbn.
  eexists. split; [reflexivity|]. cbn. auto.
Qed.

(** C4. A Land request on a fresh, connected autopilot whose mode change
    is acknowledged, when a shutdown is requested during the first round
    of polling: the loop ends and control flows off the end of [land]; no
    result is produced and [busy] stays set. *)
Theorem land_without_result_on_shutdown (res : Response.t) (w : World num) :
  let w1 := poll spinOnce sleep (upd_globals (upd_sp (set_busy true)) w) in
  (2 <= fuel)%nat ->
  busy (sp (globals w)) = false ->
  state_fresh w ->
  (land_only_in_offboard (params (globals w)) = true ->
   State.mode (state (telemetry (globals w))) = "OFFBOARD") ->
  String.eqb (State.mode (state (telemetry (globals w)))) "AUTO.LAND"
    = false ->
  set_mode_call (ros w) "AUTO.LAND" = Some true ->
  0 <= land_timeout (params (globals w)) ->
  ok (ros w) = true ->
  ok (ros w1) = false ->
  land spinOnce sleep fuel res w = (Undefined, w1).
Proof.
  intros w1 Hfuel Hb [Hf Hc] Hoff Hm Hs Ht Hok Hok1.
  destruct fuel as [|[|n]]; try lia.
  unfold land. cbn [while_ok].
  subst w1. unfold poll in *.
  open_world w. subst.
  unfold checkState, TIMEOUT. unfold_monad. cbn.
  rewrite (fresh_not_late _ _ _ Hf). cbn.
  assert (Hoff' : land_only_in_offboard p
                  && negb (String.eqb mode "OFFBOARD") = false).
  { destruct (land_only_in_offboard p); [|reflexivity].
    rewrite (Hoff eq_refl). reflexivity. }
  rewrite Hoff'. cbn. rewrite Hs. cbn. rewrite Hok. cbn. rewrite Hm. cbn.
  rewrite Z.sub_diag.
  replace (Z.ltb (land_timeout p) 0) with false
    by (symmetry; apply Z.ltb_ge; exact Ht).
  cbn. unfold_monad. cbn.
  rewrite Hok1. reflexivity.
Qed.

(** How a polling loop can end. *)
Lemma while_ok_ends {R : Type} (body : M num (option R)) (n : nat) :
  forall w,
    match while_ok n body w with
    | (Val (Some v), w') =>
        exists w0, ok (ros w0) = true /\ body w0 = (Val (Some v), w')
    | (Val None, w') => ok (ros w') = false
    | (Throw e, w') => exists w0, body w0 = (Throw e, w')
    | (Undefined, w') => exists w0, body w0 = (Undefined, w')
    | (Diverge, _) => True
    end.
Proof.
  induction n as [|n IH]; intros w; cbn.
  - exact I.
  - unfold bind, ask, ret.
    destruct (ok (ros w)) eqn:Hok; [|exact Hok].
    destruct (body w) as [[[v|]|e| |] w1] eqn:E.
    + exists w. auto.
    + apply IH.
    + exists w. exact E.
    + exists w. exact E.
    + exact I.
Qed.

(** The ways in which [land] ends: with a success once the mode is
    AUTO.LAND, with a failure and its message, or, when [ros::ok()] ends
    the loop, with no result; it lets no exception out. *)
Lemma land_results (res : Response.t) (w : World num) :
  match land spinOnce sleep fuel res w with
  | (Val (b, r), w') =>
      b = true /\ busy (sp (globals w')) = false /\
      ((r = Response.with_success true res /\
        State.mode (state (telemetry (globals w'))) = "AUTO.LAND") \/
       exists what, r = Response.with_message what res)
  | (Throw _, _) => False
  | (Undefined, w') => ok (ros w') = false
  | (Diverge, _) => True
  end.
Proof.
  unfold land, checkState, TIMEOUT.
  unfold try_catch at 1.
  unfold bind at 1. unfold get at 1.
  destruct (busy (sp (globals w))) eqn:Hb.
  { cbn. unfold_monad. cbn. eauto 6. }
  unfold_monad. cbn.
  destruct (Z.ltb _ _); cbn; [eauto 6|].
  destruct (State.connected _); cbn; [|eauto 6].
  destruct (_ && _); cbn; [eauto 6|].
  destruct (set_mode_call _ _) as [[|]|]; cbn; [|eauto 6|eauto 6].
  match goal with
  | |- context [while_ok fuel ?body ?w0] =>
      pose proof (while_ok_ends body fuel w0) as Hends;
        destruct (while_ok fuel body w0) as [[[[b r]|]|e| |] w1]
  end; cbn.
  - destruct Hends as (w0 & _ & Hbody).
    destruct (String.eqb _ _) eqn:Hmode in Hbody.
    + injection Hbody as <- <- <-. cbn.
      apply String.eqb_eq in Hmode. auto.
    + destruct (Z.ltb _ _) in Hbody; discriminate Hbody.
  - exact Hends.
  - eauto 6.
  - destruct Hends as (w0 & Hbody).
    destruct (String.eqb _ _) in Hbody; [discriminate|].
    destruct (Z.ltb _ _) in Hbody; discriminate Hbody.
  - exact I.
Qed.

(** ** The publisher *)

(** One tick on a setpoint with a position target: one setpoint goes
    out, on the channel that the yaw policy selects, and the kind and the
    yaw policy stay. *)
Lemma publish_position_setpoint (stamp : Time) (w : World num) :
  has_position (setpoint_type (sp (globals w))) = true ->
  exists w' new m,
    publish stamp w = (Val tt, w') /\
    sent w' = sent w ++ new /\
    setpoints new = [m] /\
    match setpoint_yaw_type (sp (globals w)) with
    | YAW_RATE =>
        yaw_rate_target stamp (setpoint_yaw_rate (sp (globals w))) m
    | YAW | TOWARDS => pose_target stamp m
    end /\
    setpoint_type (sp (globals w')) = setpoint_type (sp (globals w)) /\
    setpoint_yaw_type (sp (globals w'))
      = setpoint_yaw_type (sp (globals w)) /\
    setpoint_yaw_rate (sp (globals w'))
      = setpoint_yaw_rate (sp (globals w)).
Proof.
  intros Hty.
  destruct w as [[p c s tl tm ps vel] snt r].
  destruct s as [ns spos spt sv svt rate speed b wa ty yt].
  cbn in Hty.
  cbn [globals sp setpoint_yaw_type setpoint_yaw_rate setpoint_type sent].
  unfold publish. unfold_monad.
  destruct ty; try discriminate Hty; cbn;
    destruct (transform_pose _ _ _ _) as [out|e]; cbn;
    destruct (String.eqb _ _); cbn.
  all: try (destruct wa; cbn).
  all: destruct yt; cbn.
  all: do 3 eexists; split; [reflexivity|]; cbn.
  all: rewrite <- ?app_assoc; cbn.
  all: split; [reflexivity|].
  all: split; [reflexivity|].
  all: split; [| repeat split].
  all: unfold yaw_rate_target, pose_target; eexists; repeat split.
Qed.

(** C7. On a Navigate, NavigateGlobal or Position setpoint, the ticks at
    the times [ts] publish one setpoint each.  Under the yaw-rate policy
    each is a raw position target stamped with its tick that carries the
    commanded yaw rate and asserts the ignore bits of the velocities, the
    accelerations and the yaw (and not those of the positions or the yaw
    rate): no pose message goes out.  Under the absolute-yaw and the
    facing-travel-direction policies each is a message on the pose
    channel: no raw target, hence no yaw rate, goes out. *)
Theorem yaw_policy_selects_the_channel (ts : list Time) (w : World num) :
  has_position (setpoint_type (sp (globals w))) = true ->
  exists w',
    ticks ts w = (Val tt, w') /\
    Forall2
      (fun t m =>
         match setpoint_yaw_type (sp (globals w)) with
         | YAW_RATE =>
             yaw_rate_target t (setpoint_yaw_rate (sp (globals w))) m
         | YAW | TOWARDS => pose_target t m
         end)
      ts (setpoints (emitted (ticks ts) w)).
Proof.
  intros Hty.
  assert (H : exists w' new,
             ticks ts w = (Val tt, w') /\ sent w' = sent w ++ new /\
             Forall2
               (fun t m =>
                  match setpoint_yaw_type (sp (globals w)) with
                  | YAW_RATE =>
                      yaw_rate_target t (setpoint_yaw_rate (sp (globals w))) m
                  | YAW | TOWARDS => pose_target t m
                  end)
               ts (setpoints new)).
  { revert w Hty. induction ts as [|t ts IH]; intros w Hty.
    - exists w, []. cbn. rewrite app_nil_r. auto.
    - destruct (publish_position_setpoint t w Hty)
        as (w1 & new1 & m & E1 & S1 & F1 & Hm & Kty & Kyt & Krate).
      rewrite <- Kty in Hty.
      destruct (IH w1 Hty) as (w2 & new2 & E2 & S2 & F2).
      exists w2, (new1 ++ new2). cbn [ticks].
      unfold bind, publishSetpoint. rewrite E1.
      split; [exact E2|]. split.
      + rewrite S2, S1, app_assoc. reflexivity.
      + unfold setpoints in *. rewrite filter_app, F1. cbn.
        constructor; [exact Hm|].
        rewrite Kyt, Krate in F2. exact F2. }
  destruct H as (w' & new & E & S & F).
  exists w'. split; [exact E|].
  unfold emitted. rewrite E. cbn [snd]. rewrite S, skipn_sent. exact F.
Qed.

(** One tick on a Rates setpoint. *)
Lemma publish_rates (stamp : Time) (w : World num)
    (req : SetRates.Request num) (w0 : World num) :
  rates_pending w req w0 ->
  exists w1,
    publish stamp w0 = (Val tt, w1) /\
    sent w1 = sent w0 ++ [rates_target w req stamp] /\
    rates_pending w req w1.
Proof.
  intros (Hty & Hf & Ho & Hr & Ht).
  destruct w0 as [[p c s tl tm ps vel] snt r].
  destruct s as [ns spos spt sv svt rate speed b wa ty yt].
  cbn in *. subst ty.
  unfold publish. unfold_monad. cbn.
  rewrite andb_false_r.
  eexists; split; [reflexivity|]. cbn.
  unfold rates_target, rates_message. rewrite Hf, Ho, Hr, Ht.
  split; [reflexivity|].
  unfold rates_pending; cbn. auto.
Qed.

Lemma ticks_rates (ts : list Time) :
  forall w req w0,
    rates_pending w req w0 ->
    exists w1,
      ticks ts w0 = (Val tt, w1) /\
      sent w1 = sent w0 ++ map (rates_target w req) ts /\
      rates_pending w req w1.
Proof.
  induction ts as [|t ts IH]; intros w req w0 H.
  - exists w0. cbn. rewrite app_nil_r. auto.
  - destruct (publish_rates t w req w0 H) as (w1 & E1 & S1 & P1).
    destruct (IH w req w1 P1) as (w2 & E2 & S2 & P2).
    exists w2. cbn [ticks]. unfold bind, publishSetpoint. rewrite E1.
    split; [exact E2|]. split; [|exact P2].
    rewrite S2, S1, <- app_assoc. reflexivity.
Qed.

Lemma setRates_accepted (req : SetRates.Request num) (res : Response.t)
    (w : World num) :
  busy (sp (globals w)) = false ->
  state_fresh w ->
  State.mode (state (telemetry (globals w))) = "OFFBOARD" ->
  State.armed (state (telemetry (globals w))) = true ->
  setRates spinOnce sleep fuel req res w
    = (Val (true, Response.with_success true res), rates_accepted req w).
Proof.
  intros Hb [Hf Hc] Hm Ha.
  unfold setRates, serve.
  open_world w. subst.
  unfold checkState, TIMEOUT, offboardAndArm. unfold_monad. cbn.
  rewrite (fresh_not_late _ _ _ Hf). cbn.
  unfold publish. unfold_monad. cbn. rewrite andb_false_r. cbn.
  destruct (SetRates.auto_arm req); cbn; reflexivity.
Qed.

(** C9. A [set_rates] command on a fresh, connected autopilot that is in
    OFFBOARD and armed is accepted whatever the transform buffer holds
    (the statement is for every world, an empty transform tree included):
    the response is a success, the publisher timer runs, the command
    itself publishes a first raw attitude target, and every later tick
    publishes exactly one, each with the body frame id, IGNORE_ATTITUDE,
    and the commanded body rates and thrust. *)
Theorem set_rates_needs_no_transform (req : SetRates.Request num)
    (w : World num) :
  busy (sp (globals w)) = false ->
  state_fresh w ->
  State.mode (state (telemetry (globals w))) = "OFFBOARD" ->
  State.armed (state (telemetry (globals w))) = true ->
  exists w',
    setRates spinOnce sleep fuel req Response.default w
      = (Val (true, {| Response.success := true;
                       Response.message := "" |}), w') /\
    setpoint_type (sp (globals w')) = RATES /\
    setpoint_timer (globals w') = true /\
    busy (sp (globals w')) = false /\
    sent w' = sent w ++ [rates_target w req (now (ros w))] /\
    forall ts, emitted (ticks ts) w' = map (rates_target w req) ts.
Proof.
  intros Hb Hf Hm Ha.
  exists (rates_accepted req w). split.
  - apply setRates_accepted; assumption.
  - repeat (split; [reflexivity|]).
    intros ts.
    destruct (ticks_rates ts w req (rates_accepted req w))
      as (w1 & E & S & _).
    + unfold rates_pending. repeat split.
    + unfold emitted. rewrite E. cbn [snd]. rewrite S. apply skipn_sent.
Qed.

(** ** The telemetry service *)

Lemma while_ok_never_throws {R : Type} (body : M num (option R)) :
  never_throws body -> forall n, never_throws (while_ok n body).
Proof.
  intros Hb n w e w' E.
  pose proof (while_ok_ends body n w) as H. rewrite E in H.
  destruct H as (w0 & H). exact (Hb w0 e w' H).
Qed.

Lemma waitTransform_never_throws target source stamp timeout :
  never_throws (waitTransform spinOnce sleep fuel target source stamp timeout).
Proof.
  intros w e w'. unfold waitTransform.
  unfold bind at 1. unfold ask at 1.
  unfold bind at 1.
  match goal with |- context [while_ok fuel ?b] => set (body := b) end.
  destruct (while_ok fuel body w) as [[[v|]|e0| |] w1] eqn:E;
    try discriminate.
  exfalso. revert E. apply while_ok_never_throws.
  intros w2 e2 w2'. unfold body. unfold_monad.
  destruct (Z.ltb _ _); [discriminate|].
  destruct (canTransform _ _ _ _); discriminate.
Qed.

(** What [get_telemetry] answers, however its wait for the transform
    ends: the [frame_id] of the response is the request's, the configured
    local frame standing in for an empty one, and the pose and the
    velocity of the response are given in that frame.  The service lets
    no exception out. *)
Lemma getTelemetry_results (req : GetTelemetry.Request.t)
    (res : GetTelemetry.Response.t num) (w : World num) :
  match getTelemetry spinOnce sleep fuel req res w with
  | (Val (b, r), w') =>
      b = true /\
      GetTelemetry.Response.frame_id r = requested_frame req w /\
      telemetry_in_frame (GetTelemetry.Response.frame_id r)
        (params (globals w)) w' r
  | (Throw _, _) => False
  | _ => True
  end.
Proof.
  unfold getTelemetry, telemetry_in_frame.
  unfold bind at 1. unfold ask at 1.
  unfold bind at 1. unfold get at 1.
  unfold bind at 1. unfold get at 1.
  unfold bind at 1. unfold TIMEOUT at 1. unfold bind at 1, ask at 1, ret at 1.
  set (late := Z.ltb _ _).
  set (frame := if String.eqb (GetTelemetry.Request.frame_id req) ""
                then _ else _).
  destruct (if negb late then _ else _) as [[conn arm] mode].
  unfold bind at 1.
  destruct (waitTransform _ _ _ _ _ _ _ w) as [[b|e| |] w1] eqn:E; auto.
  2: { exact (waitTransform_never_throws _ _ _ _ _ _ _ E). }
  unfold TIMEOUT. unfold_monad.
  set (lp := local_position (telemetry (globals w1))).
  set (vel := velocity (telemetry (globals w1))).
  repeat (match goal with
          | |- context [Z.ltb ?a ?b] => destruct (Z.ltb a b) eqn:?
          | |- context [transform_pose ?a ?b ?c ?d] =>
              destruct (transform_pose a b c d) eqn:?
          | |- context [transform_vector ?a ?b ?c ?d] =>
              destruct (transform_vector a b c d) eqn:?
          | |- context [getEulerYPR ?q] =>
              destruct (getEulerYPR q) as [[? ?] ?] eqn:?
          end; cbn).
  all: repeat match goal with
         | H : Z.ltb _ _ = true |- _ => apply Z.ltb_lt in H
         | H : Z.ltb _ _ = false |- _ => apply Z.ltb_ge in H
         end.
  all: split; [reflexivity|]; split; [reflexivity|].
  all: split; [intros pose' Hfr Hp | intros out' Hfr Hv].
  all: subst lp vel; try lia.
  all: try congruence.
  all: repeat match goal with
         | H : Ok _ = Ok _ |- _ => injection H as H; subst
         end.
  all: repeat match goal with
         | H1 : ?t = Ok ?x, H2 : ?t = Ok ?y |- _ =>
             rewrite H1 in H2; injection H2 as H2; subst
         end.
  all: try (destruct (Vector3Stamped.vector _); reflexivity).
  all: split; [destruct (Pose.position _); reflexivity | congruence].
Qed.

End Properties.

(** ** The handlers return

    On a runtime that stays up, in which [ros::spinOnce()] does not turn
    the clock back and [r.sleep()] moves it on by [delta] at least, every
    polling loop of the node ends by its own test, so that every handler
    returns.  The fuel of the model is to outlast the timeouts. *)

Section Liveness.
Context {num : Type} {A : Arith num} {L : Libs num} {G : Geodesic num}.
Variable spinOnce sleep : World num -> World num.
Variable fuel : nat.
Variable p0 : Params num.
Variable delta : Duration.

Ltac unfold_monad :=
  unfold upd_position_msg, upd_position_raw_msg, upd_thrust_msg,
    upd_rates_msg, assign, when, publish_msg, lift_result, try_catch,
    bind, get, ask, modify, ret, throw, run in *.

Lemma lively_ret {R : Type} (a : R) w : lively p0 (ret a) w.
Proof. intros H. cbn. split; [exact H | lia]. Qed.

Lemma lively_throw {R : Type} e w : lively p0 (@throw num R e) w.
Proof. intros H. cbn. split; [exact H | lia]. Qed.

Lemma lively_bind {R S : Type} (m : M num S) (k : S -> M num R) w :
  lively p0 m w ->
  (forall a w', m w = (Val a, w') -> lively p0 (k a) w') ->
  lively p0 (bind m k) w.
Proof.
  intros Hm Hk Hup. unfold bind. specialize (Hm Hup).
  destruct (m w) as [[a|e| |] w1] eqn:E; try contradiction; try exact Hm.
  destruct Hm as [Hup1 Hle].
  specialize (Hk a w1 eq_refl Hup1).
  destruct (k a w1) as [[b|e| |] w2]; try contradiction.
  all: destruct Hk; split; [assumption | lia].
Qed.

Lemma lively_seq {R S : Type} (m : M num S) (k : S -> M num R) w :
  lively p0 m w -> (forall a w', lively p0 (k a) w') ->
  lively p0 (bind m k) w.
Proof. intros Hm Hk. apply lively_bind; auto. Qed.

Lemma lively_get {R S : Type} (f : Globals num -> S) (k : S -> M num R) w :
  lively p0 (k (f (globals w))) w -> lively p0 (bind (get f) k) w.
Proof. intros H. exact H. Qed.

(** The parameters that a handler reads are those of [main]. *)
Lemma lively_get_params {R : Type} (k : Params num -> M num R) w :
  lively p0 (k p0) w -> lively p0 (bind (get params) k) w.
Proof.
  intros H Hup. unfold bind, get. rewrite (proj2 Hup). exact (H Hup).
Qed.

Lemma lively_ask {R S : Type} (f : Ros num -> S) (k : S -> M num R) w :
  lively p0 (k (f (ros w))) w -> lively p0 (bind (ask f) k) w.
Proof. intros H. exact H. Qed.

Lemma lively_modify {R : Type} (f : Globals num -> Globals num)
    (k : unit -> M num R) w :
  (forall g, params (f g) = params g) ->
  (forall w', lively p0 (k tt) w') -> lively p0 (bind (modify f) k) w.
Proof.
  intros Hf Hk Hup. unfold bind, modify.
  assert (Hup' : up p0 (upd_globals f w)).
  { destruct Hup as [H1 H2]. split; [exact H1 | cbn; rewrite Hf; exact H2]. }
  specialize (Hk _ Hup'). cbn in Hk.
  destruct (k tt (upd_globals f w)) as [[b|e| |] w2];
    try contradiction; exact Hk.
Qed.

Lemma lively_modify_end (f : Globals num -> Globals num) w :
  (forall g, params (f g) = params g) -> lively p0 (modify f) w.
Proof.
  intros Hf [H1 H2]. cbn.
  split; [split; [exact H1 | cbn; rewrite Hf; exact H2] | lia].
Qed.

Lemma lively_publish_msg {R : Type} (m : Msg num) (k : unit -> M num R) w :
  (forall w', lively p0 (k tt) w') -> lively p0 (bind (publish_msg m) k) w.
Proof.
  intros Hk Hup. unfold bind, publish_msg.
  assert (Hup' : up p0 (send m w)) by exact Hup.
  specialize (Hk _ Hup'). cbn in Hk.
  destruct (k tt (send m w)) as [[b|e| |] w2]; try contradiction; exact Hk.
Qed.

Lemma lively_publish_msg_end (m : Msg num) w : lively p0 (publish_msg m) w.
Proof. intros H. cbn. split; [exact H | lia]. Qed.

Lemma lively_try_catch {R : Type} (m : M num R) (h : string -> M num R) w :
  lively p0 m w -> (forall e w', lively p0 (h e) w') ->
  lively p0 (try_catch m h) w.
Proof.
  intros Hm Hh Hup. unfold try_catch. specialize (Hm Hup).
  destruct (m w) as [[a|e| |] w1]; try contradiction; try exact Hm.
  destruct Hm as [Hup1 Hle].
  specialize (Hh e w1 Hup1).
  destruct (h e w1) as [[b|e'| |] w2]; try contradiction.
  all: destruct Hh; split; [assumption | lia].
Qed.

Lemma lively_lift_result {R : Type} (r : result R) w :
  lively p0 (lift_result r) w.
Proof. destruct r; [apply lively_ret | apply lively_throw]. Qed.

Lemma lively_bind_ret {R S : Type} (a : S) (k : S -> M num R) w :
  lively p0 (k a) w -> lively p0 (bind (ret a) k) w.
Proof. intros H. exact H. Qed.

Lemma lively_bind_throw {R S : Type} e (k : S -> M num R) w :
  lively p0 (bind (throw e) k) w.
Proof. intros H. cbn. split; [exact H | lia]. Qed.

Lemma lively_loop {R S : Type} (loop : M num (option S))
    (k : option S -> M num R) w :
  leaves p0 loop w -> (forall v w', lively p0 (k (Some v)) w') ->
  lively p0 (bind loop k) w.
Proof.
  intros Hl Hk Hup. unfold bind. specialize (Hl Hup).
  destruct (loop w) as [[[v|]|e| |] w1]; try contradiction; try exact Hl.
  destruct Hl as [Hup1 Hle].
  specialize (Hk v w1 Hup1).
  destruct (k (Some v) w1) as [[b|e| |] w2]; try contradiction.
  all: destruct Hk; split; [assumption | lia].
Qed.

(** What liveness gives: a result. *)
Lemma lively_result {R : Type} (m : M num R) w :
  lively p0 m w -> up p0 w -> never_throws m ->
  exists a w', m w = (Val a, w') /\ up p0 w' /\ now (ros w) <= now (ros w').
Proof.
  intros Hl Hup Hn. specialize (Hl Hup).
  destruct (m w) as [[a|e| |] w'] eqn:E; try contradiction.
  - exists a, w'. auto.
  - exfalso. exact (Hn w e w' E).
Qed.

(** [ros::spinOnce()] keeps the runtime up. *)
Hypothesis spinOnce_steady : steady p0 0 spinOnce.

Lemma lively_run_spinOnce {R : Type} (k : unit -> M num R) w :
  (forall w', lively p0 (k tt) w') -> lively p0 (bind (run spinOnce) k) w.
Proof.
  intros Hk Hup. unfold bind, run.
  destruct (spinOnce_steady w Hup) as [Hu Hc].
  specialize (Hk _ Hu).
  destruct (k tt (spinOnce w)) as [[b|e| |] w2]; try contradiction.
  all: destruct Hk; split; [assumption | lia].
Qed.

Create HintDb lively.

(** One step through a handler, by the shape of its code. *)
Ltac live_step :=
  lazymatch goal with
  | |- lively _ (ret _) _ => apply lively_ret
  | |- lively _ (throw _) _ => apply lively_throw
  | |- lively _ (lift_result _) _ => apply lively_lift_result
  | |- lively _ (publish_msg _) _ => apply lively_publish_msg_end
  | |- lively _ (modify _) _ => apply lively_modify_end; intros; reflexivity
  | |- lively _ (bind (get params) _) _ => apply lively_get_params
  | |- lively _ (bind (get _) _) _ => apply lively_get
  | |- lively _ (bind (ask _) _) _ => apply lively_ask
  | |- lively _ (bind (ret _) _) _ => apply lively_bind_ret
  | |- lively _ (bind (throw _) _) _ => apply lively_bind_throw
  | |- lively _ (bind (modify _) _) _ =>
      apply lively_modify; [intros; reflexivity | intros]
  | |- lively _ (bind (publish_msg _) _) _ =>
      apply lively_publish_msg; intros
  | |- lively _ (bind (run spinOnce) _) _ =>
      apply lively_run_spinOnce; intros
  | |- lively _ (if ?c then _ else _) _ => destruct c
  | |- lively _ (match ?x with _ => _ end) _ => destruct x
  | |- lively _ (try_catch _ _) _ => apply lively_try_catch; [| intros]
  | |- lively _ (bind (while_ok _ _) _) _ => apply lively_loop; [| intros]
  | |- lively _ (bind _ _) _ => apply lively_seq; [| intros]
  | |- lively _ _ _ => solve [auto 2 with lively nocore]
  end.

Ltac live := repeat (cbv beta iota zeta; live_step).

Lemma TIMEOUT_lively h d w : lively p0 (TIMEOUT h d) w.
Proof. unfold TIMEOUT. live. Qed.

#[local] Hint Resolve TIMEOUT_lively : lively.

Lemma checkState_lively w : lively p0 checkState w.
Proof. unfold checkState. live. Qed.

Lemma publish_lively stamp w : lively p0 (publish stamp) w.
Proof.
  unfold publish, upd_position_msg, upd_position_raw_msg, upd_thrust_msg,
    upd_rates_msg, assign, when.
  live.
Qed.

Lemma globalToLocal_lively lat lon w : lively p0 (globalToLocal lat lon) w.
Proof. unfold globalToLocal. live. Qed.

#[local] Hint Resolve checkState_lively publish_lively globalToLocal_lively
  : lively.

Lemma handleMessage_lively {T : Type}
    (set : T -> Telemetry num -> Telemetry num) (m : T) w :
  lively p0 (handleMessage set m) w.
Proof. unfold handleMessage. live. Qed.

Lemma handleLocalPosition_lively m w : lively p0 (handleLocalPosition m) w.
Proof.
  unfold handleLocalPosition, publishBodyFrame, handleMessage, assign, when.
  live.
Qed.

(** [r.sleep()] keeps the runtime up and moves the clock on by [delta],
    and the rounds of a loop outlast the timeouts. *)
Hypothesis delta_pos : 0 < delta.
Hypothesis fuel_pos : (1 <= fuel)%nat.
Hypothesis sleep_steady : steady p0 delta sleep.

(** A loop whose rounds either leave it or gain [delta] on the clock
    before the deadline [start + timeout] leaves it within the rounds
    that outlast the deadline. *)
Lemma while_ok_leaves {R : Type} (body : M num (option R)) (start : Time)
    (timeout : Duration) :
  (forall w, up p0 w ->
     match body w with
     | (Val (Some _), w') | (Throw _, w') =>
         up p0 w' /\ now (ros w) <= now (ros w')
     | (Val None, w') =>
         up p0 w' /\ now (ros w) + delta <= now (ros w') /\
         now (ros w) - start <= timeout
     | _ => False
     end) ->
  forall n w,
    (1 <= n)%nat ->
    timeout - (now (ros w) - start) < (Z.of_nat n - 1) * delta ->
    leaves p0 (while_ok n body) w.
Proof.
  intros Hbody n. induction n as [|n IH]; intros w Hn Hfuel Hup; [lia|].
  cbn. unfold bind, ask, ret. destruct Hup as [Hok Hp] eqn:Eup. rewrite Hok.
  specialize (Hbody w (conj Hok Hp)).
  destruct (body w) as [[[v|]|e| |] w1]; try contradiction; try exact Hbody.
  destruct Hbody as (Hup1 & Hclock & Hnot).
  destruct n as [|n].
  - exfalso. lia.
  - assert (Hl : leaves p0 (while_ok (S n) body) w1).
    { apply IH; [lia|]. nia. }
    specialize (Hl Hup1).
    destruct (while_ok (S n) body w1) as [[[v|]|e| |] w2];
      try contradiction.
    all: destruct Hl; split; [assumption | lia].
Qed.

Lemma waitTransform_lively target source stamp timeout w :
  within_fuel fuel delta timeout ->
  lively p0 (waitTransform spinOnce sleep fuel target source stamp timeout) w.
Proof.
  intros Hfuel. unfold waitTransform.
  apply lively_ask.
  apply lively_loop; [| intros; apply lively_ret].
  apply while_ok_leaves with (start := now (ros w)) (timeout := timeout).
  - intros w1 Hup1. unfold_monad.
    destruct (Z.ltb _ _) eqn:El; [split; [exact Hup1 | lia]|].
    destruct (canTransform _ _ _ _); [split; [exact Hup1 | lia]|].
    apply Z.ltb_ge in El.
    destruct (spinOnce_steady w1 Hup1) as [Hu2 Hc2].
    destruct (sleep_steady _ Hu2) as [Hu3 Hc3].
    split; [exact Hu3|]. split; lia.
  - exact fuel_pos.
  - rewrite Z.sub_diag. unfold within_fuel in Hfuel. lia.
Qed.

Hypothesis fuel_transform : within_fuel fuel delta (transform_timeout p0).
Hypothesis fuel_telemetry :
  within_fuel fuel delta (telemetry_transform_timeout p0).
Hypothesis fuel_offboard : within_fuel fuel delta (offboard_timeout p0).
Hypothesis fuel_arming : within_fuel fuel delta (arming_timeout p0).
Hypothesis fuel_land : within_fuel fuel delta (land_timeout p0).

#[local] Hint Resolve waitTransform_lively fuel_transform fuel_telemetry
  : lively.

Lemma offboardAndArm_lively w :
  lively p0 (offboardAndArm spinOnce sleep fuel) w.
Proof.
  unfold offboardAndArm.
  apply lively_get.
  apply lively_seq.
  - destruct (negb _); [|apply lively_ret].
    apply lively_ask. apply lively_ask.
    destruct (set_mode_call _ _); [|apply lively_throw].
    apply lively_loop; [|intros; apply lively_ret].
    apply while_ok_leaves
      with (start := now (ros w)) (timeout := offboard_timeout p0).
    + intros w1 Hup1. unfold timeout_report. unfold_monad.
      destruct (spinOnce_steady w1 Hup1) as [Hu2 Hc2].
      destruct (String.eqb _ _); [split; [exact Hu2 | lia]|].
      destruct Hu2 as [Hok2 Hp2] eqn:E2. rewrite Hp2.
      destruct (Z.ltb _ _) eqn:El; [split; [split; assumption | lia]|].
      apply Z.ltb_ge in El.
      destruct (spinOnce_steady _ (conj Hok2 Hp2)) as [Hu3 Hc3].
      destruct (sleep_steady _ Hu3) as [Hu4 Hc4].
      split; [exact Hu4|]. split; lia.
    + exact fuel_pos.
    + rewrite Z.sub_diag. unfold within_fuel in fuel_offboard. lia.
  - intros _ w1. apply lively_get.
    destruct (negb _); [|apply lively_ret].
    apply lively_ask. apply lively_ask.
    destruct (negb _); [apply lively_throw|].
    apply lively_loop; [|intros; apply lively_ret].
    apply while_ok_leaves
      with (start := now (ros w1)) (timeout := arming_timeout p0).
    + intros w2 Hup2. unfold timeout_report. unfold_monad.
      destruct (spinOnce_steady w2 Hup2) as [Hu3 Hc3].
      destruct (State.armed _); [split; [exact Hu3 | lia]|].
      destruct Hu3 as [Hok3 Hp3] eqn:E3. rewrite Hp3.
      destruct (Z.ltb _ _) eqn:El; [split; [split; assumption | lia]|].
      apply Z.ltb_ge in El.
      destruct (spinOnce_steady _ (conj Hok3 Hp3)) as [Hu4 Hc4].
      destruct (sleep_steady _ Hu4) as [Hu5 Hc5].
      split; [exact Hu5|]. split; lia.
    + exact fuel_pos.
    + rewrite Z.sub_diag. unfold within_fuel in fuel_arming. lia.
Qed.

#[local] Hint Resolve offboardAndArm_lively : lively.

Lemma serve_lively sp_type x y z vx vy vz pitch roll yaw pitch_rate roll_rate
    yaw_rate lat lon thrust speed frame_id auto_arm res w :
  lively p0
    (serve spinOnce sleep fuel sp_type x y z vx vy vz pitch roll yaw
       pitch_rate roll_rate yaw_rate lat lon thrust speed frame_id
       auto_arm res) w.
Proof.
  unfold serve, upd_thrust_msg, upd_rates_msg, assign, when.
  destruct sp_type; cbn [is_navigate has_yaw has_frame setpoint_type_eqb orb].
  all: live.
Qed.

Lemma getTelemetry_lively req res w :
  lively p0 (getTelemetry spinOnce sleep fuel req res) w.
Proof. unfold getTelemetry. live. Qed.

Lemma land_lively res w : lively p0 (land spinOnce sleep fuel res) w.
Proof.
  unfold land, assign.
  live.
  match goal with
  | |- leaves _ (while_ok _ _) ?w0 =>
      apply while_ok_leaves
        with (start := now (ros w0)) (timeout := land_timeout p0)
  end.
  - intros w1 Hup1. unfold_monad.
    destruct (String.eqb _ _).
    + split; [|cbn; lia].
      destruct Hup1 as [H1 H2]. split; [exact H1 | exact H2].
    + destruct Hup1 as [Hok1 Hp1] eqn:E1. rewrite Hp1.
      destruct (Z.ltb _ _) eqn:El; [split; [split; assumption | lia]|].
      apply Z.ltb_ge in El.
      destruct (spinOnce_steady _ (conj Hok1 Hp1)) as [Hu2 Hc2].
      destruct (sleep_steady _ Hu2) as [Hu3 Hc3].
      split; [exact Hu3|]. split; lia.
  - exact fuel_pos.
  - rewrite Z.sub_diag. unfold within_fuel in fuel_land. lia.
Qed.

Lemma handler_lively c res w :
  lively p0 (handler spinOnce sleep fuel c res) w.
Proof.
  destruct c; cbn [handler];
    unfold navigate, navigateGlobal, setPosition, setVelocity, setAttitude,
      setRates;
    first [apply serve_lively | apply land_lively].
Qed.

(** A command lets no exception out and returns with [busy] cleared. *)
Lemma handler_ends (c : Command num) (res : Response.t) (w : World num) :
  match handler spinOnce sleep fuel c res w with
  | (Val (b, _), w') => b = true /\ busy (sp (globals w')) = false
  | (Throw _, _) => False
  | _ => True
  end.
Proof.
  destruct c; cbn [handler];
    unfold navigate, navigateGlobal, setPosition, setVelocity, setAttitude,
      setRates.
  7: { pose proof (land_results spinOnce sleep fuel res w) as H.
       destruct (land spinOnce sleep fuel res w) as [[[b r]|e| |] w1];
         tauto. }
  all: match goal with
       | |- match serve _ _ _ ?t ?x ?y ?z ?vx ?vy ?vz ?pitch ?roll ?yaw ?pr
                    ?rr ?yr ?lat ?lon ?th ?speed ?f ?arm _ _ with _ => _ end =>
           pose proof (serve_returns_response spinOnce sleep fuel t x y z vx
                         vy vz pitch roll yaw pr rr yr lat lon th speed f
                         arm res w) as H;
             destruct (serve spinOnce sleep fuel t x y z vx vy vz pitch roll
                         yaw pr rr yr lat lon th speed f arm res w)
               as [[[b r]|e| |] w1]; tauto
       end.
Qed.

(** X1. On a runtime that stays up, every command returns a response,
    with [busy] cleared. *)
Lemma command_returns_a_response (c : Command num) (res : Response.t)
    (w : World num) :
  up p0 w ->
  exists r w',
    handler spinOnce sleep fuel c res w = (Val (true, r), w') /\
    busy (sp (globals w')) = false /\
    up p0 w'.
Proof.
  intros Hup.
  pose proof (handler_lively c res w Hup) as Hl.
  pose proof (handler_ends c res w) as Hr.
  destruct (handler spinOnce sleep fuel c res w) as [[[b r]|e| |] w1];
    try contradiction.
  destruct Hr as [-> Hb]. destruct Hl as [Hup1 _].
  exists r, w1. auto.
Qed.

(** C10. The service answers: on a runtime that stays up it returns a
    response whose [frame_id] is the request's, the configured local frame
    standing in for an empty one, and that is the frame into which the
    pose and the velocity of the response were transformed. *)
Theorem telemetry_frame_is_the_frame_used (req : GetTelemetry.Request.t)
    (res : GetTelemetry.Response.t num) (w : World num) :
  up p0 w ->
  exists r w',
    getTelemetry spinOnce sleep fuel req res w = (Val (true, r), w') /\
    (GetTelemetry.Request.frame_id req = "" ->
     GetTelemetry.Response.frame_id r = local_frame p0) /\
    (GetTelemetry.Request.frame_id req <> "" ->
     GetTelemetry.Response.frame_id r = GetTelemetry.Request.frame_id req) /\
    telemetry_in_frame (GetTelemetry.Response.frame_id r) p0 w' r.
Proof.
  intros Hup.
  pose proof (getTelemetry_lively req res w Hup) as Hl.
  pose proof (getTelemetry_results spinOnce sleep fuel req res w) as Hr.
  destruct (getTelemetry spinOnce sleep fuel req res w)
    as [[[b r]|e| |] w1]; try contradiction.
  destruct Hr as (-> & Hf & Hin).
  exists r, w1. split; [reflexivity|].
  unfold requested_frame in Hf. rewrite (proj2 Hup) in Hf, Hin.
  split; [|split; [|exact Hin]].
  - intros He. rewrite Hf, He. reflexivity.
  - intros Hne. rewrite Hf.
    destruct (String.eqb_spec (GetTelemetry.Request.frame_id req) "");
      [contradiction | reflexivity].
Qed.

End Liveness.

(** ** The node's own runtime stays up

    [ros_spinOnce] runs the callbacks that are due, commands among them,
    which poll in turn.  When [r.sleep()] keeps the runtime up and moves
    the clock on by [delta], so does every level of it. *)

Section LiveRuntime.
Context {num : Type} {A : Arith num} {L : Libs num} {G : Geodesic num}.
Variable advance : Ros num -> Ros num.
Variable fuel : nat.
Variable p0 : Params num.
Variable delta : Duration.

Hypothesis delta_pos : 0 < delta.
Hypothesis fuel_pos : (1 <= fuel)%nat.
Hypothesis advance_up :
  forall r, ok r = true ->
    ok (advance r) = true /\ now r + delta <= now (advance r).
Hypothesis fuel_transform : within_fuel fuel delta (transform_timeout p0).
Hypothesis fuel_telemetry :
  within_fuel fuel delta (telemetry_transform_timeout p0).
Hypothesis fuel_offboard : within_fuel fuel delta (offboard_timeout p0).
Hypothesis fuel_arming : within_fuel fuel delta (arming_timeout p0).
Hypothesis fuel_land : within_fuel fuel delta (land_timeout p0).

Lemma r_sleep_steady : steady p0 delta (r_sleep advance).
Proof.
  intros w [Hok Hp]. destruct (advance_up (ros w) Hok) as [Hok' Hc].
  split; [split; [exact Hok' | exact Hp] | exact Hc].
Qed.

Lemma after_steady (m : M num unit) :
  (forall w, lively p0 m w) -> steady p0 0 (after m).
Proof.
  intros Hm w Hup. unfold after. specialize (Hm w Hup).
  destruct (m w) as [[a|e| |] w1]; try contradiction.
  all: destruct Hm; split; [assumption | cbn; lia].
Qed.

Lemma served_steady {R : Type} (f : R -> Msg num) (m : M num (bool * R)) :
  (forall w, lively p0 m w) -> steady p0 0 (served f m).
Proof.
  intros Hm w Hup. unfold served. specialize (Hm w Hup).
  destruct (m w) as [[[b r]|e| |] w1]; try contradiction.
  all: destruct Hm; split; [assumption | cbn; lia].
Qed.

Lemma dispatch_steady (spinOnce : World num -> World num)
    (cb : Callback num) :
  steady p0 0 spinOnce -> steady p0 0 (dispatch advance fuel spinOnce cb).
Proof.
  intros Hs w Hup.
  pose proof r_sleep_steady as Hr.
  destruct cb; cbn [dispatch];
    try solve [ apply after_steady;
                [ intros;
                  first [ apply handleMessage_lively
                        | apply handleLocalPosition_lively ]
                | exact Hup ] ];
    try (apply served_steady; [intros | exact Hup]).
  - destruct (setpoint_timer (globals w)).
    + apply after_steady; [|exact Hup]. intros. unfold publishSetpoint.
      apply publish_lively.
    + split; [exact Hup | lia].
  - apply getTelemetry_lively with (delta := delta); assumption.
  - unfold navigate.
    apply serve_lively with (delta := delta); assumption.
  - unfold navigateGlobal.
    apply serve_lively with (delta := delta); assumption.
  - unfold setPosition.
    apply serve_lively with (delta := delta); assumption.
  - unfold setVelocity.
    apply serve_lively with (delta := delta); assumption.
  - unfold setAttitude.
    apply serve_lively with (delta := delta); assumption.
  - unfold setRates.
    apply serve_lively with (delta := delta); assumption.
  - apply land_lively with (delta := delta); assumption.
Qed.

Lemma fold_steady (f : Callback num -> World num -> World num)
    (l : list (Callback num)) :
  (forall cb, steady p0 0 (f cb)) ->
  steady p0 0 (fun w => fold_left (fun w cb => f cb w) l w).
Proof.
  intros Hf. induction l as [|cb l IH]; intros w Hup; cbn.
  - split; [exact Hup | lia].
  - destruct (Hf cb w Hup) as [Hu1 Hc1].
    destruct (IH _ Hu1) as [Hu2 Hc2].
    split; [exact Hu2 | lia].
Qed.

(** [ros::spinOnce()] keeps the runtime up, at every depth. *)
Lemma ros_spinOnce_steady (depth : nat) :
  steady p0 0 (ros_spinOnce advance fuel depth).
Proof.
  induction depth as [|d IH]; intros w Hup; cbn [ros_spinOnce].
  - split; [exact Hup | lia].
  - assert (Hq : up p0 (clear_queue w)) by exact Hup.
    destruct (fold_steady (dispatch advance fuel (ros_spinOnce advance fuel d))
                (queue (ros w)) (fun cb => dispatch_steady _ cb IH)
                (clear_queue w) Hq) as [Hu Hc].
    split; [exact Hu | exact Hc].
Qed.

End LiveRuntime.

(** ** Commands that do not look at the transform buffer *)

Section Blind.
Context {num : Type} {A : Arith num} {L : Libs num} {G : Geodesic num}.
Variable spinOnce sleep : World num -> World num.
Variable fuel : nat.

(** What the runtime does between the rounds of a loop is apart from
    the command: it does the same whatever the buffer. *)
Hypothesis spinOnce_blind :
  forall tf w, spinOnce (with_tf tf w) = with_tf tf (spinOnce w).
Hypothesis sleep_blind :
  forall tf w, sleep (with_tf tf w) = with_tf tf (sleep w).

Lemma blind_ret {R : Type} (a : R) w : tf_blind (@ret num R a) w.
Proof. intros tf. reflexivity. Qed.

Lemma blind_throw {R : Type} e w : tf_blind (@throw num R e) w.
Proof. intros tf. reflexivity. Qed.

Lemma blind_bind {R S : Type} (m : M num S) (k : S -> M num R) w :
  tf_blind m w ->
  (forall a w', m w = (Val a, w') -> tf_blind (k a) w') ->
  tf_blind (bind m k) w.
Proof.
  intros Hm Hk tf. unfold bind. rewrite (Hm tf).
  destruct (m w) as [[a|e| |] w1] eqn:E; cbn [fst snd]; try reflexivity.
  exact (Hk a w1 eq_refl tf).
Qed.

Lemma blind_seq {R S : Type} (m : M num S) (k : S -> M num R) w :
  tf_blind m w -> (forall a w', tf_blind (k a) w') -> tf_blind (bind m k) w.
Proof. intros Hm Hk. apply blind_bind; auto. Qed.

Lemma blind_get {R S : Type} (f : Globals num -> S) (k : S -> M num R) w :
  tf_blind (k (f (globals w))) w -> tf_blind (bind (get f) k) w.
Proof. intros H tf. exact (H tf). Qed.

(** Reading the runtime is blind when what is read is not the buffer. *)
Lemma blind_ask {R S : Type} (f : Ros num -> S) (k : S -> M num R) w :
  (forall tf, f (ros (with_tf tf w)) = f (ros w)) ->
  tf_blind (k (f (ros w))) w -> tf_blind (bind (ask f) k) w.
Proof.
  intros Hf H tf. unfold bind, ask. rewrite Hf. exact (H tf).
Qed.

Lemma blind_bind_ret {R S : Type} (a : S) (k : S -> M num R) w :
  tf_blind (k a) w -> tf_blind (bind (ret a) k) w.
Proof. intros H tf. exact (H tf). Qed.

Lemma blind_bind_throw {R S : Type} e (k : S -> M num R) w :
  tf_blind (bind (throw e) k) w.
Proof. intros tf. reflexivity. Qed.

Lemma blind_modify {R : Type} (f : Globals num -> Globals num)
    (k : unit -> M num R) w :
  tf_blind (k tt) (upd_globals f w) -> tf_blind (bind (modify f) k) w.
Proof. intros H tf. exact (H tf). Qed.

Lemma blind_modify_end (f : Globals num -> Globals num) w :
  tf_blind (modify f) w.
Proof. intros tf. reflexivity. Qed.

Lemma blind_publish_msg {R : Type} (m : Msg num) (k : unit -> M num R) w :
  tf_blind (k tt) (send m w) -> tf_blind (bind (publish_msg m) k) w.
Proof. intros H tf. exact (H tf). Qed.

Lemma blind_publish_msg_end (m : Msg num) w : tf_blind (publish_msg m) w.
Proof. intros tf. reflexivity. Qed.

Lemma blind_run_spinOnce {R : Type} (k : unit -> M num R) w :
  tf_blind (k tt) (spinOnce w) -> tf_blind (bind (run spinOnce) k) w.
Proof.
  intros H tf. unfold bind, run. rewrite spinOnce_blind. exact (H tf).
Qed.

Lemma blind_run_sleep {R : Type} (k : unit -> M num R) w :
  tf_blind (k tt) (sleep w) -> tf_blind (bind (run sleep) k) w.
Proof.
  intros H tf. unfold bind, run. rewrite sleep_blind. exact (H tf).
Qed.

Lemma blind_try_catch {R : Type} (m : M num R) (h : string -> M num R) w :
  tf_blind m w -> (forall e w', m w = (Throw e, w') -> tf_blind (h e) w') ->
  tf_blind (try_catch m h) w.
Proof.
  intros Hm Hh tf. unfold try_catch. rewrite (Hm tf).
  destruct (m w) as [[a|e| |] w1] eqn:E; cbn [fst snd]; try reflexivity.
  exact (Hh e w1 eq_refl tf).
Qed.

Lemma blind_while_ok {R : Type} (body : M num (option R)) (n : nat) :
  (forall w, tf_blind body w) -> forall w, tf_blind (while_ok n body) w.
Proof.
  intros Hb. induction n as [|n IH]; intros w; cbn [while_ok].
  - intros tf. reflexivity.
  - apply blind_ask; [reflexivity|].
    destruct (ok (ros w)); [|apply blind_ret].
    apply blind_seq; [apply Hb|].
    intros [v|] w'; [apply blind_ret | apply IH].
Qed.

Create HintDb blind.

(** One step through a piece of code, by its shape.  A read of the
    buffer itself stops it. *)
Ltac blind_step :=
  lazymatch goal with
  | |- tf_blind (ret _) _ => apply blind_ret
  | |- tf_blind (throw _) _ => apply blind_throw
  | |- tf_blind (publish_msg _) _ => apply blind_publish_msg_end
  | |- tf_blind (modify _) _ => apply blind_modify_end
  | |- tf_blind (bind (get _) _) _ => apply blind_get
  | |- tf_blind (bind (ask tf_buffer) _) _ => fail
  | |- tf_blind (bind (ask _) _) _ => apply blind_ask; [reflexivity|]
  | |- tf_blind (bind (ret _) _) _ => apply blind_bind_ret
  | |- tf_blind (bind (throw _) _) _ => apply blind_bind_throw
  | |- tf_blind (bind (modify _) _) _ => apply blind_modify
  | |- tf_blind (bind (publish_msg _) _) _ => apply blind_publish_msg
  | |- tf_blind (bind (run spinOnce) _) _ => apply blind_run_spinOnce
  | |- tf_blind (bind (run sleep) _) _ => apply blind_run_sleep
  | |- tf_blind (if ?c then _ else _) _ => destruct c
  | |- tf_blind (match ?x with _ => _ end) _ => destruct x
  | |- tf_blind (try_catch _ _) _ => apply blind_try_catch; [| intros]
  | |- tf_blind (bind (while_ok _ _) _) _ =>
      apply blind_seq; [apply blind_while_ok; intros | intros]
  | |- tf_blind (bind _ _) _ => apply blind_seq; [| intros]
  | |- tf_blind _ _ => solve [auto 2 with blind nocore]
  end.

Ltac blind := repeat (cbv beta iota zeta; blind_step).

Lemma TIMEOUT_blind h d w : tf_blind (@TIMEOUT num h d) w.
Proof. unfold TIMEOUT. blind. Qed.

#[local] Hint Resolve TIMEOUT_blind : blind.

Lemma checkState_blind w : tf_blind (@checkState num) w.
Proof. unfold checkState. blind. Qed.

Lemma timeout_report_blind what start w :
  tf_blind (@timeout_report num what start) w.
Proof. unfold timeout_report. blind. Qed.

#[local] Hint Resolve checkState_blind timeout_report_blind : blind.

Lemma offboardAndArm_blind w :
  tf_blind (offboardAndArm spinOnce sleep fuel) w.
Proof. unfold offboardAndArm. blind. Qed.

#[local] Hint Resolve offboardAndArm_blind : blind.

(** A tick on a Rates setpoint does not transform anything. *)
Lemma publish_rates_blind stamp w :
  setpoint_type (sp (globals w)) = RATES -> tf_blind (publish stamp) w.
Proof.
  intros Hty tf.
  destruct w as [[p c s tl tm ps vel] snt r].
  destruct s as [ns spos spt sv svt rate speed b wa ty yt].
  cbn in Hty. subst ty.
  unfold publish, upd_position_msg, upd_position_raw_msg, upd_thrust_msg,
    upd_rates_msg, assign, when, publish_msg, lift_result, try_catch,
    bind, get, ask, modify, ret, throw.
  cbn. rewrite andb_false_r. reflexivity.
Qed.

(** X7. [set_rates] does not look at the transform buffer: whatever the
    buffer holds, the command ends in the same way, with the same
    response, and leaves the same world. *)
Lemma setRates_blind req res w :
  tf_blind (setRates spinOnce sleep fuel req res) w.
Proof.
  unfold setRates, serve, upd_thrust_msg, upd_rates_msg, assign, when.
  cbn [is_navigate has_yaw has_frame setpoint_type_eqb orb].
  blind.
  all: apply publish_rates_blind; reflexivity.
Qed.

End Blind.

(** ** The checks of a command *)

Section Checks.
Context {num : Type} {A : Arith num} {L : Libs num} {G : Geodesic num}.
Variable spinOnce sleep : World num -> World num.
Variable fuel : nat.

Ltac unfold_monad :=
  unfold upd_position_msg, upd_position_raw_msg, upd_thrust_msg,
    upd_rates_msg, assign, when, publish_msg, lift_result, try_catch,
    bind, get, ask, modify, ret, throw, run in *.

Lemma serve_unready sp_type x y z vx vy vz pitch roll yaw pitch_rate roll_rate
    yaw_rate lat lon thrust speed frame_id auto_arm res w :
  busy (sp (globals w)) = false ->
  ~ state_fresh w ->
  serve spinOnce sleep fuel sp_type x y z vx vy vz pitch roll yaw
    pitch_rate roll_rate yaw_rate lat lon thrust speed frame_id auto_arm
    res w = rejected (unready_message w) res w.
Proof.
  intros Hb Hn. unfold rejected, unready_message, state_fresh in *.
  unfold serve, checkState, TIMEOUT.
  unfold bind at 1. unfold ask at 1.
  unfold bind at 1. unfold try_catch at 1.
  unfold bind at 1. unfold get at 1. rewrite Hb.
  unfold bind at 1. unfold ret at 1.
  unfold bind at 1. unfold assign at 1, modify at 1.
  unfold bind at 1. unfold bind at 1. unfold get at 1.
  unfold bind at 1. unfold get at 1.
  unfold bind at 1. unfold bind at 1. unfold ask at 1. unfold ret at 1.
  cbn [globals upd_globals ros telemetry params upd_sp].
  destruct (Z.ltb _ _) eqn:El.
  - unfold throw at 1. unfold_monad. cbn. reflexivity.
  - destruct (State.connected _) eqn:Ec.
    + exfalso. apply Hn. split; [apply Z.ltb_ge; exact El | reflexivity].
    + cbn [negb]. unfold throw at 1. unfold_monad. cbn. reflexivity.
Qed.

Lemma land_unready res w :
  busy (sp (globals w)) = false ->
  ~ state_fresh w ->
  land spinOnce sleep fuel res w = rejected (unready_message w) res w.
Proof.
  intros Hb Hn. unfold rejected, unready_message, state_fresh in *.
  unfold land, checkState, TIMEOUT.
  unfold try_catch at 1.
  unfold bind at 1. unfold get at 1. rewrite Hb.
  unfold bind at 1. unfold ret at 1.
  unfold bind at 1. unfold assign at 1, modify at 1.
  unfold bind at 1. unfold bind at 1. unfold get at 1.
  unfold bind at 1. unfold get at 1.
  unfold bind at 1. unfold bind at 1. unfold ask at 1. unfold ret at 1.
  cbn [globals upd_globals ros telemetry params upd_sp].
  destruct (Z.ltb _ _) eqn:El.
  - unfold throw at 1. unfold_monad. cbn. reflexivity.
  - destruct (State.connected _) eqn:Ec.
    + exfalso. apply Hn. split; [apply Z.ltb_ge; exact El | reflexivity].
    + cbn [negb]. unfold throw at 1. unfold_monad. cbn. reflexivity.
Qed.

(** X9. While the autopilot state is stale or shows no connection, every
    command is refused with the message of [checkState], and the node is
    left as it was: setpoint, containers, timer and published messages
    are untouched and [busy] is clear. *)
Theorem unready_autopilot_rejects_every_command (c : Command num)
    (res : Response.t) (w : World num) :
  busy (sp (globals w)) = false ->
  ~ state_fresh w ->
  handler spinOnce sleep fuel c res w
  = (Val (true, Response.with_message (unready_message w) res),
     upd_globals (upd_sp (set_busy false)) w).
Proof.
  intros Hb Hn. destruct c; cbn [handler];
    first [ apply land_unready; assumption
          | unfold navigate, navigateGlobal, setPosition, setVelocity,
              setAttitude, setRates; apply serve_unready; assumption ].
Qed.

(** X10. Navigate and NavigateGlobal need a fresh local position. *)
Theorem navigate_needs_a_local_position sp_type x y z vx vy vz pitch roll yaw
    pitch_rate roll_rate yaw_rate lat lon thrust speed frame_id auto_arm res
    w :
  is_navigate sp_type = true ->
  busy (sp (globals w)) = false ->
  state_fresh w ->
  ~ position_fresh w ->
  serve spinOnce sleep fuel sp_type x y z vx vy vz pitch roll yaw
    pitch_rate roll_rate yaw_rate lat lon thrust speed frame_id auto_arm
    res w = rejected "No local position, check settings" res w.
Proof.
  intros Hk Hb [Hf Hc] Hp. unfold rejected, position_fresh in *.
  apply Z.nle_gt in Hp. apply Z.ltb_lt in Hp.
  unfold serve, checkState, TIMEOUT. unfold_monad.
  rewrite Hb. cbn.
  rewrite (proj2 (Z.ltb_ge _ _) Hf). cbn. rewrite Hc. cbn.
  rewrite Hk. cbn. rewrite Hp. cbn. reflexivity.
Qed.

(** X11. A negative speed is refused, with the speed in the message. *)
Theorem negative_speed_is_rejected sp_type x y z vx vy vz pitch roll yaw
    pitch_rate roll_rate yaw_rate lat lon thrust speed frame_id auto_arm res
    w :
  is_navigate sp_type = true ->
  busy (sp (globals w)) = false ->
  state_fresh w ->
  position_fresh w ->
  ltb speed zero = true ->
  serve spinOnce sleep fuel sp_type x y z vx vy vz pitch roll yaw
    pitch_rate roll_rate yaw_rate lat lon thrust speed frame_id auto_arm
    res w
  = rejected ("Navigate speed must be positive, " ++ std_to_string speed
                ++ " passed") res w.
Proof.
  intros Hk Hb [Hf Hc] Hp Hs. unfold rejected, position_fresh in *.
  unfold serve, checkState, TIMEOUT. unfold_monad.
  rewrite Hb. cbn.
  rewrite (proj2 (Z.ltb_ge _ _) Hf). cbn. rewrite Hc. cbn.
  rewrite Hk. cbn. rewrite (proj2 (Z.ltb_ge _ _) Hp). cbn. rewrite Hs. cbn.
  reflexivity.
Qed.

(** X12. For the four kinds of setpoint with a yaw: a yaw rate other
    than 0 asks for a NaN yaw, and the two cannot both be NaN. *)
Theorem yaw_and_yaw_rate_are_checked sp_type x y z vx vy vz pitch roll yaw
    pitch_rate roll_rate yaw_rate lat lon thrust speed frame_id auto_arm res
    w what :
  has_yaw sp_type = true ->
  busy (sp (globals w)) = false ->
  state_fresh w ->
  (is_navigate sp_type = true ->
   position_fresh w /\ ltb speed zero = false) ->
  (neqb yaw_rate zero = true /\ std_isnan yaw = false /\
   what = "Yaw value should be NaN for setting yaw rate") \/
  (std_isnan yaw_rate = true /\ std_isnan yaw = true /\
   what = "Both yaw and yaw_rate cannot be NaN") ->
  serve spinOnce sleep fuel sp_type x y z vx vy vz pitch roll yaw
    pitch_rate roll_rate yaw_rate lat lon thrust speed frame_id auto_arm
    res w = rejected what res w.
Proof.
  intros Hk Hb [Hf Hc] Hn Hy. unfold rejected, position_fresh in *.
  unfold serve, checkState, TIMEOUT. unfold_monad.
  rewrite Hb. cbn.
  rewrite (proj2 (Z.ltb_ge _ _) Hf). cbn. rewrite Hc. cbn.
  rewrite Hk.
  assert (Hchk :
    (if neqb yaw_rate zero && negb (std_isnan yaw) then true
     else std_isnan yaw_rate && std_isnan yaw) = true /\
    what = (if neqb yaw_rate zero && negb (std_isnan yaw)
            then "Yaw value should be NaN for setting yaw rate"
            else "Both yaw and yaw_rate cannot be NaN")).
  { destruct Hy as [(H1 & H2 & ->)|(H1 & H2 & ->)]; rewrite H1, H2; cbn.
    - split; reflexivity.
    - rewrite andb_false_r. split; reflexivity. }
  destruct Hchk as [Hchk ->].
  destruct (is_navigate sp_type) eqn:En.
  - destruct (Hn eq_refl) as [Hp Hs]. cbn.
    rewrite (proj2 (Z.ltb_ge _ _) Hp). cbn. rewrite Hs. cbn.
    destruct (eqb speed zero); cbn.
    all: destruct (neqb yaw_rate zero && negb (std_isnan yaw)); cbn;
      [reflexivity|].
    all: rewrite Hchk; cbn; reflexivity.
  - cbn.
    destruct (neqb yaw_rate zero && negb (std_isnan yaw)); cbn;
      [reflexivity|].
    rewrite Hchk; cbn; reflexivity.
Qed.

End Checks.

(** ** What the telemetry service and the transform wait answer *)

Section Answers.
Context {num : Type} {A : Arith num} {L : Libs num} {G : Geodesic num}.
Variable spinOnce sleep : World num -> World num.
Variable fuel : nat.

Ltac unfold_monad :=
  unfold upd_position_msg, upd_position_raw_msg, upd_thrust_msg,
    upd_rates_msg, assign, when, publish_msg, lift_result, try_catch,
    bind, get, ask, modify, ret, throw, run in *.

Lemma getTelemetry_fields (req : GetTelemetry.Request.t)
    (res : GetTelemetry.Response.t num) (w : World num) :
  match getTelemetry spinOnce sleep fuel req res w with
  | (Val (_, r), w') =>
      nan_for_what_it_lacks (params (globals w)) w' r /\
      echoes_what_is_fresh (params (globals w)) res w w' r
  | _ => True
  end.
Proof.
  unfold getTelemetry, nan_for_what_it_lacks, echoes_what_is_fresh, stale,
    pose_fields, velocity_fields, rate_fields, fix_fields.
  unfold bind at 1. unfold ask at 1.
  unfold bind at 1. unfold get at 1.
  unfold bind at 1. unfold get at 1.
  unfold bind at 1. unfold TIMEOUT at 1. unfold bind at 1, ask at 1, ret at 1.
  destruct (Z.ltb _ _) eqn:Est.
  all: cbn [negb].
  all: unfold bind at 1.
  all: destruct (waitTransform _ _ _ _ _ _ _ w) as [[b|e| |] w1] eqn:E; auto.
  all: unfold TIMEOUT; unfold_monad.
  all: repeat (match goal with
          | |- context [Z.ltb ?a ?b] => destruct (Z.ltb a b) eqn:?
          | |- context [transform_pose ?a ?b ?c ?d] =>
              destruct (transform_pose a b c d) eqn:?
          | |- context [transform_vector ?a ?b ?c ?d] =>
              destruct (transform_vector a b c d) eqn:?
          | |- context [getEulerYPR ?q] =>
              destruct (getEulerYPR q) as [[? ?] ?] eqn:?
          | |- context [BatteryState.cell_voltage ?b] =>
              destruct (BatteryState.cell_voltage b) eqn:?
          end; cbn).
  all: repeat match goal with
         | H : Z.ltb _ _ = true |- _ => apply Z.ltb_lt in H
         | H : Z.ltb _ _ = false |- _ => apply Z.ltb_ge in H
         end.
  all: repeat split; intros; try reflexivity; try lia; try discriminate.
  all: repeat match goal with
         | H : _ \/ _ |- _ => destruct H
         | H : exists _, _ |- _ => destruct H
         end; try lia; try congruence.
Qed.

(** How the wait for a transform can end. *)
Lemma waitTransform_ends target source stamp timeout w :
  match waitTransform spinOnce sleep fuel target source stamp timeout w with
  | (Val true, w') =>
      canTransform (tf_buffer (ros w')) target source stamp = true /\
      now (ros w') - now (ros w) <= timeout
  | (Val false, w') => timeout < now (ros w') - now (ros w)
  | (Throw _, _) => False
  | (Undefined, w') => ok (ros w') = false
  | (Diverge, _) => True
  end.
Proof.
  unfold waitTransform.
  unfold bind at 1. unfold ask at 1. unfold bind at 1.
  match goal with
  | |- context [while_ok fuel ?body w] =>
      pose proof (while_ok_ends body fuel w) as Hends;
        destruct (while_ok fuel body w) as [[[b|]|e| |] w1]
  end; cbn.
  - destruct Hends as (w0 & _ & Hbody). unfold_monad.
    destruct (Z.ltb _ _) eqn:El in Hbody.
    + injection Hbody as <- <-. apply Z.ltb_lt. exact El.
    + destruct (canTransform _ _ _ _) eqn:Ec in Hbody; [|discriminate].
      injection Hbody as <- <-. split; [exact Ec | apply Z.ltb_ge; exact El].
  - exact Hends.
  - destruct Hends as (w0 & Hbody). unfold_monad.
    destruct (Z.ltb _ _) in Hbody; [discriminate|].
    destruct (canTransform _ _ _ _) in Hbody; discriminate.
  - destruct Hends as (w0 & Hbody). unfold_monad.
    destruct (Z.ltb _ _) in Hbody; [discriminate|].
    destruct (canTransform _ _ _ _) in Hbody; discriminate.
  - exact I.
Qed.

(** X16. The wait does not wait when it need not: with a negative
    timeout it gives up at once, even if the transform is there; with
    any other timeout and the transform there it says so at once.
    Neither way does it spin or sleep. *)
Theorem waitTransform_at_once target source stamp timeout w :
  ok (ros w) = true ->
  (1 <= fuel)%nat ->
  (timeout < 0 ->
   waitTransform spinOnce sleep fuel target source stamp timeout w
   = (Val false, w)) /\
  (0 <= timeout ->
   canTransform (tf_buffer (ros w)) target source stamp = true ->
   waitTransform spinOnce sleep fuel target source stamp timeout w
   = (Val true, w)).
Proof.
  intros Hok Hfuel. destruct fuel as [|n]; [lia|].
  unfold waitTransform. cbn [while_ok]. unfold_monad.
  rewrite Hok, Z.sub_diag. split.
  - intros Hneg.
    rewrite (proj2 (Z.ltb_lt _ _) Hneg). reflexivity.
  - intros Hpos Hc.
    rewrite (proj2 (Z.ltb_ge _ _) Hpos), Hc. reflexivity.
Qed.

Variable p0 : Params num.
Variable delta : Duration.
Hypothesis spinOnce_steady : steady p0 0 spinOnce.
Hypothesis delta_pos : 0 < delta.
Hypothesis fuel_pos : (1 <= fuel)%nat.
Hypothesis sleep_steady : steady p0 delta sleep.

(** X15. On a runtime that stays up the wait for a transform returns:
    [true] only with the transform available when it returns, and within
    the timeout; [false] only once the timeout has passed. *)
Theorem waitTransform_answers target source stamp timeout w :
  within_fuel fuel delta timeout ->
  up p0 w ->
  exists b w',
    waitTransform spinOnce sleep fuel target source stamp timeout w
    = (Val b, w') /\
    if b
    then canTransform (tf_buffer (ros w')) target source stamp = true /\
         now (ros w') - now (ros w) <= timeout
    else timeout < now (ros w') - now (ros w).
Proof.
  intros Hfuel Hup.
  pose proof (waitTransform_lively spinOnce sleep fuel p0 delta
                spinOnce_steady delta_pos fuel_pos sleep_steady
                target source stamp timeout w Hfuel Hup) as Hl.
  pose proof (waitTransform_ends target source stamp timeout w) as He.
  destruct (waitTransform spinOnce sleep fuel target source stamp timeout w)
    as [[b|e| |] w1]; try contradiction.
  exists b, w1. split; [reflexivity|]. destruct b; exact He.
Qed.

Hypothesis fuel_telemetry :
  within_fuel fuel delta (telemetry_transform_timeout p0).

Lemma getTelemetry_answers req res w :
  up p0 w ->
  exists r w',
    getTelemetry spinOnce sleep fuel req res w = (Val (true, r), w') /\
    nan_for_what_it_lacks p0 w' r /\
    echoes_what_is_fresh p0 res w w' r.
Proof.
  intros Hup.
  pose proof (getTelemetry_lively spinOnce sleep fuel p0 delta
                spinOnce_steady delta_pos fuel_pos sleep_steady
                fuel_telemetry req res w Hup) as Hl.
  pose proof (getTelemetry_results spinOnce sleep fuel req res w) as Hr.
  pose proof (getTelemetry_fields req res w) as Hf.
  destruct (getTelemetry spinOnce sleep fuel req res w)
    as [[[b r]|e| |] w1]; try contradiction.
  destruct Hr as (-> & _). rewrite (proj2 Hup) in Hf.
  exists r, w1. split; [reflexivity | exact Hf].
Qed.

(** X13. The telemetry service answers with NaN for what it lacks: the
    pose when the local position is stale or cannot be transformed, the
    velocity and the rates when the velocity is stale (the velocity
    alone when it cannot be transformed), the fix when it is stale, the
    voltages when the battery state is stale, and the cell voltage when
    the battery reports no cell. *)
Theorem telemetry_reports_nan_for_what_it_lacks req res w :
  up p0 w ->
  exists r w',
    getTelemetry spinOnce sleep fuel req res w = (Val (true, r), w') /\
    nan_for_what_it_lacks p0 w' r.
Proof.
  intros Hup. destruct (getTelemetry_answers req res w Hup)
    as (r & w' & H & Hn & _).
  exists r, w'. split; assumption.
Qed.

(** X14. The telemetry service echoes what is fresh: the autopilot state
    as it was at the request (the fields of the response it was handed
    stay when that state was stale), and the angular rates, the fix and
    the battery as they are at the answer; the cell voltage is that of
    the first cell. *)
Theorem telemetry_echoes_what_is_fresh req res w :
  up p0 w ->
  exists r w',
    getTelemetry spinOnce sleep fuel req res w = (Val (true, r), w') /\
    echoes_what_is_fresh p0 res w w' r.
Proof.
  intros Hup. destruct (getTelemetry_answers req res w Hup)
    as (r & w' & H & _ & He).
  exists r, w'. split; assumption.
Qed.

End Answers.

(** ** What the handlers leave alone *)

Section Keeps.
Context {num : Type} {A : Arith num} {L : Libs num} {G : Geodesic num}.
Variable spinOnce sleep : World num -> World num.
Variable fuel : nat.
Variable V : Type.
Variable view : World num -> V.

(** [m] leaves what [view] shows of the world as it is, however it
    ends. *)
Definition keeps {R : Type} (m : M num R) : Prop :=
  forall w, view (snd (m w)) = view w.

Lemma keeps_ret {R : Type} (a : R) : keeps (@ret num R a).
Proof. intros w. reflexivity. Qed.

Lemma keeps_throw {R : Type} e : keeps (@throw num R e).
Proof. intros w. reflexivity. Qed.

Lemma keeps_undefined {R : Type} : keeps (@undefined num R).
Proof. intros w. reflexivity. Qed.

Lemma keeps_get {R : Type} (f : Globals num -> R) : keeps (get f).
Proof. intros w. reflexivity. Qed.

Lemma keeps_ask {R : Type} (f : Ros num -> R) : keeps (ask f).
Proof. intros w. reflexivity. Qed.

Lemma keeps_bind {R S : Type} (m : M num S) (k : S -> M num R) :
  keeps m -> (forall a, keeps (k a)) -> keeps (bind m k).
Proof.
  intros Hm Hk w. unfold bind. specialize (Hm w).
  destruct (m w) as [[a|e| |] w1]; cbn [snd] in *; try exact Hm.
  rewrite (Hk a w1). exact Hm.
Qed.

Lemma keeps_modify (f : Globals num -> Globals num) :
  (forall w, view (upd_globals f w) = view w) -> keeps (modify f).
Proof. intros H w. exact (H w). Qed.

Lemma keeps_run (f : World num -> World num) :
  (forall w, view (f w) = view w) -> keeps (run f).
Proof. intros H w. exact (H w). Qed.

Lemma keeps_try_catch {R : Type} (m : M num R) (h : string -> M num R) :
  keeps m -> (forall e, keeps (h e)) -> keeps (try_catch m h).
Proof.
  intros Hm Hh w. unfold try_catch. specialize (Hm w).
  destruct (m w) as [[a|e| |] w1]; cbn [snd] in *; try exact Hm.
  rewrite (Hh e w1). exact Hm.
Qed.

Lemma keeps_while_ok {R : Type} (body : M num (option R)) (n : nat) :
  keeps body -> keeps (while_ok n body).
Proof.
  intros Hb. induction n as [|n IH]; cbn [while_ok].
  - intros w. reflexivity.
  - apply keeps_bind; [apply keeps_ask|]. intros [|]; [|apply keeps_ret].
    apply keeps_bind; [exact Hb|]. intros [v|]; [apply keeps_ret | exact IH].
Qed.

(** What the runtime does between the rounds of a loop is not the
    handler's doing: it is taken to leave the view alone. *)
Hypothesis spinOnce_keeps : forall w, view (spinOnce w) = view w.
Hypothesis sleep_keeps : forall w, view (sleep w) = view w.

Ltac keep_step :=
  lazymatch goal with
  | |- keeps (ret _) => apply keeps_ret
  | |- keeps (throw _) => apply keeps_throw
  | |- keeps undefined => apply keeps_undefined
  | |- keeps (get _) => apply keeps_get
  | |- keeps (ask _) => apply keeps_ask
  | |- keeps (run spinOnce) => apply keeps_run; exact spinOnce_keeps
  | |- keeps (run sleep) => apply keeps_run; exact sleep_keeps
  | |- keeps (if ?c then _ else _) => destruct c
  | |- keeps (match ?x with _ => _ end) => destruct x
  | |- keeps (try_catch _ _) => apply keeps_try_catch; [| intros]
  | |- keeps (while_ok _ _) => apply keeps_while_ok
  | |- keeps (bind _ _) => apply keeps_bind; [| intros]
  end.

Ltac keep := repeat (cbv beta iota zeta; keep_step).

(** X19. The telemetry service changes nothing: whatever one looks at
    in the world, if the runtime leaves it alone while the service waits
    for its transform, it is after the service as it was before. *)
Theorem getTelemetry_changes_nothing req res w :
  view (snd (getTelemetry spinOnce sleep fuel req res w)) = view w.
Proof.
  revert w. change (keeps (getTelemetry spinOnce sleep fuel req res)).
  unfold getTelemetry, waitTransform, TIMEOUT. keep.
Qed.

(** X17. [land] changes nothing but [busy]: it neither stops the
    publisher timer nor touches the setpoint. *)
Theorem land_changes_nothing_but_busy res w :
  (forall b w, view (upd_globals (upd_sp (set_busy b)) w) = view w) ->
  view (snd (land spinOnce sleep fuel res w)) = view w.
Proof.
  intros Hbusy. revert w. change (keeps (land spinOnce sleep fuel res)).
  unfold land, checkState, TIMEOUT, assign. keep.
  all: try (apply keeps_modify; intros; apply Hbusy).
Qed.

End Keeps.

(** ** What [land] answers *)

Section LandAnswers.
Context {num : Type} {A : Arith num} {L : Libs num} {G : Geodesic num}.
Variable spinOnce sleep : World num -> World num.
Variable fuel : nat.
Variable p0 : Params num.
Variable delta : Duration.
Hypothesis spinOnce_steady : steady p0 0 spinOnce.
Hypothesis delta_pos : 0 < delta.
Hypothesis fuel_pos : (1 <= fuel)%nat.
Hypothesis sleep_steady : steady p0 delta sleep.
Hypothesis fuel_land : within_fuel fuel delta (land_timeout p0).

(** X18. On a runtime that stays up [land] returns, with [busy]
    cleared, and it reports a success only with the autopilot in
    AUTO.LAND when it returns; every other answer is a failure that
    carries its message. *)
Theorem land_reports_success_only_in_auto_land (res : Response.t)
    (w : World num) :
  up p0 w ->
  exists r w',
    land spinOnce sleep fuel res w = (Val (true, r), w') /\
    busy (sp (globals w')) = false /\
    ((r = Response.with_success true res /\
      State.mode (state (telemetry (globals w'))) = "AUTO.LAND") \/
     exists what, r = Response.with_message what res).
Proof.
  intros Hup.
  pose proof (land_lively spinOnce sleep fuel p0 delta spinOnce_steady
                delta_pos fuel_pos sleep_steady fuel_land res w Hup) as Hl.
  pose proof (land_results spinOnce sleep fuel res w) as Hr.
  destruct (land spinOnce sleep fuel res w) as [[[b r]|e| |] w1];
    try contradiction.
  destruct Hr as (-> & Hb & Hr).
  exists r, w1. auto.
Qed.

End LandAnswers.

(** ** More of the publisher *)

Section Ticks.
Context {num : Type} {A : Arith num} {L : Libs num} {G : Geodesic num}.

Ltac unfold_monad :=
  unfold upd_position_msg, upd_position_raw_msg, upd_thrust_msg,
    upd_rates_msg, assign, when, publish_msg, lift_result, try_catch,
    bind, get, ask, modify, ret, throw, run in *.

(** What a tick does to the command: nothing, and it never fails. *)
Lemma publish_commanded (stamp : Time) (w : World num) :
  exists w', publish stamp w = (Val tt, w') /\ commanded w' = commanded w.
Proof.
  destruct w as [[p c s tl tm ps vel] snt r].
  destruct s as [ns spos spt sv svt rate speed b wa ty yt].
  unfold commanded, publish. unfold_monad. cbn.
  destruct ty; cbn.
  all: repeat (match goal with
               | |- context [transform_pose ?a ?b ?c ?d] =>
                   destruct (transform_pose a b c d)
               | |- context [transform_vector ?a ?b ?c ?d] =>
                   destruct (transform_vector a b c d)
               | |- context [String.eqb ?a ?b] => destruct (String.eqb a b)
               end; cbn).
  all: try (destruct wa; cbn).
  all: destruct yt; cbn.
  all: eexists; split; reflexivity.
Qed.

(** X20. A tick never fails, and it leaves the command as it is: the
    kind of setpoint, the yaw policy, the rate, the speed, the flags, the
    timer, the commanded target and the place of the start; so does a
    tick whose transform fails. *)
Theorem tick_keeps_the_command (stamp : Time) (w : World num) :
  exists w', publish stamp w = (Val tt, w') /\ commanded w' = commanded w.
Proof. exact (publish_commanded stamp w). Qed.

(** X21. A tick on a Velocity setpoint publishes one raw target, stamped
    with the tick, that carries the transformed velocity, the yaw of the
    transformed target and the yaw rate, with the type mask of a
    velocity target; it broadcasts no target frame. *)
Theorem velocity_tick (stamp : Time) (w : World num) :
  setpoint_type (sp (globals w)) = VELOCITY ->
  exists w' m,
    publish stamp w = (Val tt, w') /\
    sent w' = sent w ++ [position_raw_pub m] /\
    Header.stamp (PositionTarget.header m) = stamp /\
    velocity_target (setpoint_yaw_type (sp (globals w))) m /\
    PositionTarget.velocity m
      = Vector3Stamped.vector (setpoint_velocity_transformed (sp (globals w')))
    /\
    PositionTarget.yaw m
      = to_float (getYaw (Pose.orientation
                            (PoseStamped.pose
                               (setpoint_position_transformed
                                  (sp (globals w')))))) /\
    PositionTarget.yaw_rate m = setpoint_yaw_rate (sp (globals w)).
Proof.
  intros Hty.
  destruct w as [[p c s tl tm ps vel] snt r].
  destruct s as [ns spos spt sv svt rate speed b wa ty yt].
  cbn in Hty. subst ty.
  unfold publish. unfold_monad. cbn.
  destruct (transform_pose _ _ _ _) as [out|e]; cbn.
  1: destruct (transform_vector _ _ _ _) as [out'|e']; cbn.
  all: rewrite ?andb_false_r; cbn.
  all: do 2 eexists; split; [reflexivity|]; cbn.
  all: split; [reflexivity|].
  all: split; [reflexivity|].
  all: split; [| repeat split].
  all: unfold velocity_target; cbn; destruct yt; cbn; repeat split.
Qed.

(** X22. A tick on an Attitude setpoint publishes the transformed target
    pose on the attitude channel and then the thrust, stamped with the
    tick, on its own. *)
Theorem attitude_tick (stamp : Time) (w : World num) :
  setpoint_type (sp (globals w)) = ATTITUDE ->
  exists w',
    publish stamp w = (Val tt, w') /\
    sent w'
    = sent w
        ++ [attitude_pub (setpoint_position_transformed (sp (globals w')));
            thrust_pub
              {| Thrust.header :=
                   {| Header.stamp := stamp;
                      Header.frame_id :=
                        Header.frame_id
                          (Thrust.header (thrust_msg (containers (globals w))))
                   |};
                 Thrust.thrust :=
                   Thrust.thrust (thrust_msg (containers (globals w))) |}].
Proof.
  intros Hty.
  destruct w as [[p c s tl tm ps vel] snt r].
  destruct s as [ns spos spt sv svt rate speed b wa ty yt].
  cbn in Hty. subst ty.
  unfold publish. unfold_monad. cbn.
  destruct (transform_pose _ _ _ _) as [out|e]; cbn.
  all: rewrite ?andb_false_r; cbn.
  all: eexists; split; [reflexivity|]; cbn.
  all: rewrite <- ?app_assoc; reflexivity.
Qed.

End Ticks.

(** ** Telemetry callbacks and the idle node *)

Section Passive.
Context {num : Type} {A : Arith num} {L : Libs num} {G : Geodesic num}.
Variable advance : Ros num -> Ros num.
Variable fuel : nat.

Ltac unfold_monad :=
  unfold upd_position_msg, upd_position_raw_msg, upd_thrust_msg,
    upd_rates_msg, assign, when, publish_msg, lift_result, try_catch,
    bind, get, ask, modify, ret, throw, run in *.

(** X25. A local position message is stored and, unless the node was
    given an empty body frame id, answered with one broadcast of the body
    frame: stamped and framed like the message, at its position, level,
    turned by its yaw.  The setpoint is not touched. *)
Theorem body_frame_follows_the_local_position (pose : PoseStamped.t num)
    (w : World num) :
  let child := TransformStamped.child_frame_id (body (containers (globals w))) in
  exists w',
    handleLocalPosition pose w = (Val tt, w') /\
    local_position (telemetry (globals w')) = pose /\
    sp (globals w') = sp (globals w) /\
    sent w' = sent w ++ (if String.eqb child "" then []
                         else [sendTransform (body_frame_of child pose)]) /\
    (child <> "" -> body (containers (globals w')) = body_frame_of child pose).
Proof.
  intros child. subst child.
  unfold handleLocalPosition, publishBodyFrame. unfold_monad. cbn.
  destruct (String.eqb_spec
              (TransformStamped.child_frame_id (body (containers (globals w))))
              "") as [He|Hne]; cbn.
  - eexists. split; [reflexivity|]. cbn. rewrite app_nil_r.
    repeat (split; [reflexivity|]). intros H. contradiction.
  - eexists. split; [reflexivity|]. cbn.
    unfold body_frame_of.
    destruct pose as [[st fr] po]. cbn.
    repeat (split; [reflexivity|]). intros _. reflexivity.
Qed.

Lemma dispatch_idle (spinOnce : World num -> World num) (cb : Callback num)
    (w : World num) :
  passive cb = true -> idle w ->
  let w' := dispatch advance fuel spinOnce cb w in
  idle w' /\ setpoints (sent w') = setpoints (sent w).
Proof.
  unfold idle. intros Hp Hi.
  destruct cb; try discriminate Hp; cbn [dispatch];
    unfold after, handleMessage, handleLocalPosition, publishBodyFrame,
      publishSetpoint, publish; unfold_monad; cbn.
  1-5: split; [exact Hi | reflexivity].
  - destruct (String.eqb _ _); cbn; [split; [exact Hi | reflexivity]|].
    split; [exact Hi|]. unfold setpoints. rewrite filter_app. cbn.
    apply app_nil_r.
  - destruct (setpoint_timer (globals w)); [|split; [exact Hi | reflexivity]].
    rewrite Hi. cbn. split; [exact Hi | reflexivity].
Qed.

(** X23. Before any command is accepted the node publishes no setpoint:
    whatever telemetry arrives and however often the timer fires, the
    kind of setpoint stays NONE and no setpoint goes out. *)
Theorem idle_node_publishes_no_setpoint (depth : nat) (w : World num) :
  idle w ->
  forallb passive (queue (ros w)) = true ->
  let w' := ros_spinOnce advance fuel depth w in
  idle w' /\ setpoints (sent w') = setpoints (sent w).
Proof.
  intros Hi Hq. destruct depth as [|d]; cbn [ros_spinOnce].
  - split; [exact Hi | reflexivity].
  - assert (H : forall l w0,
               forallb passive l = true -> idle w0 ->
               let w1 := fold_left
                           (fun w cb =>
                              dispatch advance fuel
                                (ros_spinOnce advance fuel d) cb w) l w0 in
               idle w1 /\ setpoints (sent w1) = setpoints (sent w0)).
    { induction l as [|cb l IH]; intros w0 Hl Hw0; cbn.
      - split; [exact Hw0 | reflexivity].
      - cbn in Hl. apply andb_true_iff in Hl. destruct Hl as [Hcb Hl].
        destruct (dispatch_idle (ros_spinOnce advance fuel d) cb w0 Hcb Hw0)
          as [Hi1 Hs1].
        destruct (IH _ Hl Hi1) as [Hi2 Hs2].
        split; [exact Hi2 | rewrite Hs2; exact Hs1]. }
    exact (H (queue (ros w)) (clear_queue w) Hq Hi).
Qed.

End Passive.

(** ** A command that is accepted *)

Section Accept.
Context {num : Type} {A : Arith num} {L : Libs num} {G : Geodesic num}.
Variable spinOnce sleep : World num -> World num.
Variable fuel : nat.

Ltac unfold_monad :=
  unfold upd_position_msg, upd_position_raw_msg, upd_thrust_msg,
    upd_rates_msg, assign, when, publish_msg, lift_result, try_catch,
    bind, get, ask, modify, ret, throw, run in *.

Ltac open_world w :=
  destruct w as [[?p ?c [?ns ?spos ?spt ?sv ?svt ?rate ?speed ?b ?wa ?ty ?yt]
                    [[?sth ?conn ?armed ?mode] ?stx ?lp ?v ?gp ?bat]
                    ?tm ?ps ?vel] ?snt ?r];
  cbn in *.

Lemma waitTransform_now target source stamp timeout w :
  ok (ros w) = true -> (1 <= fuel)%nat -> 0 <= timeout ->
  canTransform (tf_buffer (ros w)) target source stamp = true ->
  waitTransform spinOnce sleep fuel target source stamp timeout w
  = (Val true, w).
Proof.
  intros Hok Hfuel Hpos Hc. destruct fuel as [|n]; [lia|].
  unfold waitTransform. cbn [while_ok]. unfold_monad.
  rewrite Hok, Z.sub_diag.
  rewrite (proj2 (Z.ltb_ge _ _) Hpos), Hc. reflexivity.
Qed.

Lemma offboardAndArm_ready w :
  State.mode (state (telemetry (globals w))) = "OFFBOARD" ->
  State.armed (state (telemetry (globals w))) = true ->
  offboardAndArm spinOnce sleep fuel w = (Val tt, w).
Proof.
  intros Hm Ha. unfold offboardAndArm. unfold_monad.
  rewrite Hm. cbn. rewrite Ha. reflexivity.
Qed.

Lemma publish_position_kept (stamp : Time) (w : World num) :
  has_position (setpoint_type (sp (globals w))) = true ->
  exists w' new m,
    publish stamp w = (Val tt, w') /\
    sent w' = sent w ++ new /\
    setpoints new = [m] /\
    commanded w' = commanded w.
Proof.
  intros Hty.
  destruct (publish_position_setpoint stamp w Hty)
    as (w1 & new & m & E1 & S1 & F1 & _).
  destruct (publish_commanded stamp w) as (w2 & E2 & K2).
  rewrite E1 in E2. injection E2 as <-.
  exists w1, new, m. auto.
Qed.

(** X26. A [set_position] command on a fresh, connected autopilot in
    OFFBOARD and armed, with the transforms at hand, is accepted: the
    setpoint is a Position setpoint whose target is the transform, into
    the reference frame, of the pose at the commanded point in the
    commanded frame (the local frame for an empty id); a NaN yaw selects
    the yaw-rate policy with the commanded rate, an infinite positive yaw
    the facing-travel-direction policy, any other yaw the absolute-yaw
    policy, both with the rate 0; the timer runs, one setpoint has been
    published, and [busy] and [wait_armed] are clear. *)
Theorem set_position_is_accepted (req : SetPosition.Request num)
    (w : World num) :
  let p := params (globals w) in
  let tf := tf_buffer (ros w) in
  let frame := frame_of p (SetPosition.frame_id req) in
  let ref := reference_of p (SetPosition.frame_id req) in
  let yaw := SetPosition.yaw req in
  let yaw_rate := SetPosition.yaw_rate req in
  busy (sp (globals w)) = false ->
  state_fresh w ->
  State.mode (state (telemetry (globals w))) = "OFFBOARD" ->
  State.armed (state (telemetry (globals w))) = true ->
  ok (ros w) = true -> (1 <= fuel)%nat ->
  0 <= transform_timeout p ->
  canTransform tf ref frame (now (ros w)) = true ->
  canTransform tf (local_frame p) ref (now (ros w)) = true ->
  (forall ps, exists out, transform_pose tf ps ref 0 = Ok out) ->
  neqb yaw_rate zero && negb (std_isnan yaw) = false ->
  std_isnan yaw_rate && std_isnan yaw = false ->
  exists w',
    setPosition spinOnce sleep fuel req Response.default w
      = (Val (true, {| Response.success := true;
                       Response.message := "" |}), w') /\
    setpoint_type (sp (globals w')) = POSITION /\
    setpoint_yaw_type (sp (globals w')) = policy_of yaw /\
    setpoint_yaw_rate (sp (globals w'))
      = (if std_isnan yaw then yaw_rate else zero) /\
    setpoint_timer (globals w') = true /\
    busy (sp (globals w')) = false /\
    wait_armed (sp (globals w')) = false /\
    (exists m, setpoints (skipn (List.length (sent w)) (sent w')) = [m]) /\
    exists ps out,
      transform_pose tf ps ref 0 = Ok out /\
      PoseStamped.pose (setpoint_position (sp (globals w')))
        = PoseStamped.pose out /\
      Header.frame_id (PoseStamped.header (setpoint_position (sp (globals w'))))
        = Header.frame_id (PoseStamped.header out) /\
      Pose.position (PoseStamped.pose ps)
        = {| Point.x := SetPosition.x req; Point.y := SetPosition.y req;
             Point.z := SetPosition.z req |} /\
      PoseStamped.header ps
        = {| Header.stamp := now (ros w); Header.frame_id := frame |}.
Proof.
  intros p tf frame ref yaw yaw_rate Hb [Hf Hc] Hm Ha Hok Hfuel Ht Hc1 Hc2
    Htf Hy1 Hy2.
  subst p tf frame ref yaw yaw_rate.
  unfold frame_of, reference_of, policy_of in *.
  unfold setPosition, serve, checkState, TIMEOUT.
  open_world w. subst.
  unfold_monad. cbn -[waitTransform publish offboardAndArm].
  rewrite (fresh_not_late _ _ _ Hf). cbn -[waitTransform publish offboardAndArm].
  rewrite Hy1. cbn -[waitTransform publish offboardAndArm].
  rewrite Hy2. cbn -[waitTransform publish offboardAndArm].
  rewrite waitTransform_now by assumption.
  cbn -[waitTransform publish offboardAndArm].
  rewrite waitTransform_now by assumption.
  cbn -[waitTransform publish offboardAndArm].
  destruct (std_isnan (SetPosition.yaw req)) eqn:En;
    [| destruct (std_isinf (SetPosition.yaw req)
                 && gtb (SetPosition.yaw req) zero) eqn:Ei ];
    cbn -[waitTransform publish offboardAndArm].
  all: match goal with
       | |- context [transform_pose ?t ?a ?f 0] =>
           destruct (Htf a) as [out E]; unfold frame_of in E; rewrite E
       end.
  all: cbn -[waitTransform publish offboardAndArm].
  all: match goal with
       | |- context [publish ?t ?W] =>
           destruct (publish_position_kept t W eq_refl)
             as (W' & new & m & Ep & Es & Em & Ek); rewrite Ep
       end.
  all: cbn -[waitTransform publish offboardAndArm].
  all: unfold commanded in Ek; cbn in Ek.
  all: injection Ek; intros.
  all: destruct (SetPosition.auto_arm req);
    cbn -[waitTransform publish offboardAndArm].
  all: try (rewrite offboardAndArm_ready;
            [| cbn; match goal with
                    | H : telemetry (globals _) = _ |- _ => rewrite H
                    end; reflexivity ..]).
  all: cbn -[waitTransform publish offboardAndArm].
  all: repeat match goal with
         | H : telemetry (globals _) = _ |- _ => rewrite H
         end.
  all: cbn -[waitTransform publish offboardAndArm].
  all: eexists; split; [reflexivity|].
  all: cbn.
  all: rewrite ?Es; cbn.
  all: rewrite ?skipn_sent.
  all: repeat lazymatch goal with
         | |- _ /\ _ => split; [first [assumption | reflexivity | eauto]|]
         end.
  all: match goal with
       | H : transform_pose _ ?a _ 0 = Ok ?o |- _ => exists a, o
       end.
  all: unfold frame_of.
  all: repeat lazymatch goal with
         | |- _ /\ _ => split; [first [assumption | reflexivity]|]
         end.
  all: reflexivity.
Qed.

(** X29. A [navigate] command on a fresh, connected autopilot in
    OFFBOARD and armed, with a fresh local position and the transforms
    at hand, is accepted: the setpoint is a Navigate setpoint that starts
    at the local position, at the commanded speed, the default speed
    standing in for a speed of 0 (a speed that is neither below 0 nor 0,
    NaN included, is taken as it is); the yaw selects the policy as for
    [set_position]; the timer runs, one setpoint has been published, and
    [busy] and [wait_armed] are clear. *)
Theorem navigate_is_accepted (req : Navigate.Request num) (w : World num) :
  let p := params (globals w) in
  let tf := tf_buffer (ros w) in
  let frame := frame_of p (Navigate.frame_id req) in
  let ref := reference_of p (Navigate.frame_id req) in
  let yaw := Navigate.yaw req in
  let yaw_rate := Navigate.yaw_rate req in
  let lp := local_position (telemetry (globals w)) in
  busy (sp (globals w)) = false ->
  state_fresh w ->
  position_fresh w ->
  State.mode (state (telemetry (globals w))) = "OFFBOARD" ->
  State.armed (state (telemetry (globals w))) = true ->
  ok (ros w) = true -> (1 <= fuel)%nat ->
  0 <= transform_timeout p ->
  canTransform tf ref frame (now (ros w)) = true ->
  canTransform tf (local_frame p) ref (now (ros w)) = true ->
  (forall ps, exists out, transform_pose tf ps ref 0 = Ok out) ->
  ltb (Navigate.speed req) zero = false ->
  neqb yaw_rate zero && negb (std_isnan yaw) = false ->
  std_isnan yaw_rate && std_isnan yaw = false ->
  exists w',
    navigate spinOnce sleep fuel req Response.default w
      = (Val (true, {| Response.success := true;
                       Response.message := "" |}), w') /\
    setpoint_type (sp (globals w')) = NAVIGATE /\
    nav_speed (sp (globals w'))
      = (if eqb (Navigate.speed req) zero then default_speed p
         else Navigate.speed req) /\
    PoseStamped.pose (nav_start (sp (globals w'))) = PoseStamped.pose lp /\
    setpoint_yaw_type (sp (globals w')) = policy_of yaw /\
    setpoint_yaw_rate (sp (globals w'))
      = (if std_isnan yaw then yaw_rate else zero) /\
    setpoint_timer (globals w') = true /\
    busy (sp (globals w')) = false /\
    wait_armed (sp (globals w')) = false /\
    exists m, setpoints (skipn (List.length (sent w)) (sent w')) = [m].
Proof.
  intros p tf frame ref yaw yaw_rate lp0 Hb [Hf Hc] Hp Hm Ha Hok Hfuel Ht
    Hc1 Hc2 Htf Hs Hy1 Hy2.
  subst p tf frame ref yaw yaw_rate lp0.
  unfold frame_of, reference_of, policy_of, position_fresh in *.
  unfold navigate, serve, checkState, TIMEOUT.
  open_world w. subst.
  unfold_monad. cbn -[waitTransform publish offboardAndArm].
  rewrite (fresh_not_late _ _ _ Hf).
  cbn -[waitTransform publish offboardAndArm].
  rewrite (fresh_not_late _ _ _ Hp).
  cbn -[waitTransform publish offboardAndArm].
  rewrite Hs. cbn -[waitTransform publish offboardAndArm].
  destruct (eqb (Navigate.speed req) zero);
    cbn -[waitTransform publish offboardAndArm].
  all: rewrite Hy1; cbn -[waitTransform publish offboardAndArm].
  all: rewrite Hy2; cbn -[waitTransform publish offboardAndArm].
  all: rewrite waitTransform_now by assumption.
  all: cbn -[waitTransform publish offboardAndArm].
  all: rewrite waitTransform_now by assumption.
  all: cbn -[waitTransform publish offboardAndArm].
  all: destruct (std_isnan (Navigate.yaw req)) eqn:En;
    [| destruct (std_isinf (Navigate.yaw req)
                 && gtb (Navigate.yaw req) zero) eqn:Ei ];
    cbn -[waitTransform publish offboardAndArm].
  all: match goal with
       | |- context [transform_pose ?t ?a ?f 0] =>
           destruct (Htf a) as [out E]; unfold frame_of in E; rewrite E
       end.
  all: cbn -[waitTransform publish offboardAndArm].
  all: match goal with
       | |- context [publish ?t ?W] =>
           destruct (publish_position_kept t W eq_refl)
             as (W' & new & m & Ep & Es & Em & Ek); rewrite Ep
       end.
  all: cbn -[waitTransform publish offboardAndArm].
  all: unfold commanded in Ek; cbn in Ek.
  all: injection Ek; intros.
  all: destruct (Navigate.auto_arm req);
    cbn -[waitTransform publish offboardAndArm].
  all: try (rewrite offboardAndArm_ready;
            [| cbn; match goal with
                    | H : telemetry (globals _) = _ |- _ => rewrite H
                    end; reflexivity ..]).
  all: cbn -[waitTransform publish offboardAndArm].
  all: repeat match goal with
         | H : telemetry (globals _) = _ |- _ => rewrite H
         end.
  all: cbn -[waitTransform publish offboardAndArm].
  all: eexists; split; [reflexivity|].
  all: cbn.
  all: rewrite ?Es; cbn.
  all: rewrite ?skipn_sent.
  all: repeat lazymatch goal with
         | |- _ /\ _ => split; [first [assumption | reflexivity | eauto]|]
         end.
  all: eauto.
Qed.
End Accept.

(** ** Switching to OFFBOARD and arming *)

Section Arming.
Context {num : Type} {A : Arith num} {L : Libs num} {G : Geodesic num}.
Variable spinOnce sleep : World num -> World num.
Variable fuel : nat.

Ltac unfold_monad :=
  unfold upd_position_msg, upd_position_raw_msg, upd_thrust_msg,
    upd_rates_msg, assign, when, publish_msg, lift_result, try_catch,
    bind, get, ask, modify, ret, throw, run in *.

(** X27. [offboardAndArm] asks for OFFBOARD first and for arming only
    once the autopilot shows OFFBOARD.  It does not look at [mode_sent],
    the answer of the mode request.  With an autopilot that shows
    OFFBOARD at the first spin and armed at the next one it returns
    after these two spins, without sleeping. *)
Theorem offboardAndArm_switches_then_arms (w : World num) (sent_ : bool) :
  let w1 := spinOnce w in
  let w2 := spinOnce w1 in
  (1 <= fuel)%nat ->
  String.eqb (State.mode (state (telemetry (globals w)))) "OFFBOARD" = false ->
  set_mode_call (ros w) "OFFBOARD" = Some sent_ ->
  ok (ros w) = true ->
  State.mode (state (telemetry (globals w1))) = "OFFBOARD" ->
  State.armed (state (telemetry (globals w1))) = false ->
  arming_call (ros w1) true = true ->
  ok (ros w1) = true ->
  State.armed (state (telemetry (globals w2))) = true ->
  offboardAndArm spinOnce sleep fuel w = (Val tt, w2).
Proof.
  intros w1 w2 Hfuel Hm Hs Hok Hm1 Ha1 Hc1 Hok1 Ha2.
  destruct fuel as [|n]; try lia.
  unfold offboardAndArm. cbn [while_ok]. unfold_monad.
  rewrite Hm. cbn [negb]. rewrite Hs, Hok.
  fold w1. rewrite Hm1. cbn.
  rewrite Ha1. cbn [negb]. rewrite Hc1. cbn [negb]. rewrite Hok1.
  fold w2. rewrite Ha2. reflexivity.
Qed.

(** X28. When the autopilot has not switched by [offboard_timeout] the
    wait ends with "OFFBOARD timed out", followed by the latest status
    text if, and only if, that text is later than the start of the
    wait. *)
Theorem offboard_timeout_report (w : World num) (sent_ : bool) :
  let w1 := spinOnce w in
  let stx := statustext (telemetry (globals w1)) in
  (1 <= fuel)%nat ->
  String.eqb (State.mode (state (telemetry (globals w)))) "OFFBOARD" = false ->
  set_mode_call (ros w) "OFFBOARD" = Some sent_ ->
  ok (ros w) = true ->
  String.eqb (State.mode (state (telemetry (globals w1)))) "OFFBOARD"
    = false ->
  offboard_timeout (params (globals w1)) < now (ros w1) - now (ros w) ->
  offboardAndArm spinOnce sleep fuel w
  = (Throw (if Z.ltb (now (ros w)) (Header.stamp (StatusText.header stx))
            then "OFFBOARD timed out" ++ ": " ++ StatusText.text stx
            else "OFFBOARD timed out"),
     w1).
Proof.
  intros w1 stx Hfuel Hm Hs Hok Hm1 Hlate.
  destruct fuel as [|n]; try lia.
  unfold offboardAndArm, timeout_report. cbn [while_ok]. unfold_monad.
  rewrite Hm. cbn [negb]. rewrite Hs, Hok.
  fold w1. rewrite Hm1.
  rewrite (proj2 (Z.ltb_lt _ _) Hlate).
  fold stx. reflexivity.
Qed.

End Arming.

(** ** The interpolator and the projection in rounding-free arithmetic *)

Section InIdeal.
Import Ideal.
Local Open Scope R_scope.

Lemma Rltb_true (a b : R) : a < b -> Rltb a b = true.
Proof.
  intros; unfold Rltb; destruct (Rlt_dec a b); [reflexivity | contradiction].
Qed.

Lemma Rltb_false (a b : R) : ~ a < b -> Rltb a b = false.
Proof.
  intros; unfold Rltb; destruct (Rlt_dec a b); [contradiction | reflexivity].
Qed.

Lemma Reqb_true (a b : R) : a = b -> Reqb a b = true.
Proof.
  intros; unfold Reqb; destruct (Req_dec_T a b); [reflexivity | contradiction].
Qed.

Lemma Reqb_false (a b : R) : a <> b -> Reqb a b = false.
Proof.
  intros; unfold Reqb; destruct (Req_dec_T a b); [contradiction | reflexivity].
Qed.

Lemma sum_of_squares_not_neg (x y z : R) : ~ x * x + y * y + z * z < 0.
Proof.
  pose proof (Rle_0_sqr x); pose proof (Rle_0_sqr y); pose proof (Rle_0_sqr z).
  unfold Rsqr in *; lra.
Qed.

Lemma getDistance_finite (a b c a' b' c' : R) :
  getDistance (pt a b c) (pt a' b' c') = XFin (dist a b c a' b' c').
Proof.
  unfold getDistance, hypot, pt, dist; cbn.
  rewrite Rltb_false by apply sum_of_squares_not_neg.
  do 2 f_equal. ring.
Qed.

Lemma norm_finite (a b c a' b' c' : R) :
  norm (pt a b c) (pt a' b' c') = XFin (dist a b c a' b' c').
Proof.
  unfold norm, pt, dist; cbn.
  rewrite Rltb_false by apply sum_of_squares_not_neg.
  reflexivity.
Qed.

Lemma elapsed_nonneg (t0 t : Time) : (t0 <= t)%Z -> 0 <= elapsed t0 t.
Proof.
  intros H. unfold elapsed.
  apply Rmult_le_pos; [apply IZR_le; lia | lra].
Qed.

(** What the code emits on a segment with a length: there is no lower
    clamp, [u] is the minimum of the elapsed fraction and 1. *)
Lemma getNavigateSetpoint_finite (stamp : Time) (v : R) (s : Setpoint xreal)
    (a b c a' b' c' : R) :
  wait_armed s = false ->
  start_point s = pt a b c ->
  target_point s = pt a' b' c' ->
  0 < v -> 0 < dist a b c a' b' c' ->
  let u := Rmin (elapsed (start_stamp s) stamp / (dist a b c a' b' c' / v)) 1 in
  getNavigateSetpoint stamp (XFin v) s
  = (pt (a + (a' - a) * u) (b + (b' - b) * u) (c + (c' - c) * u), s).
Proof.
  intros Hw Hs Ht Hv Hd u.
  unfold getNavigateSetpoint. rewrite Hw.
  unfold start_point, target_point, start_stamp in *.
  rewrite Hs, Ht. rewrite getDistance_finite.
  set (d := dist a b c a' b' c') in *.
  cbn. rewrite (Reqb_false v 0) by lra.
  assert (Hdv : 0 < d / v) by (apply Rdiv_lt_0_compat; assumption).
  rewrite (Reqb_false (d / v) 0) by lra.
  unfold std_min. cbn.
  fold (elapsed (Header.stamp (PoseStamped.header (nav_start s))) stamp).
  set (e := elapsed _ _ / (d / v)) in *.
  unfold Rltb. destruct (Rlt_dec 1 e) as [H1|H1]; cbn.
  - replace u with 1 by (unfold u, Rmin; destruct (Rle_dec e 1); lra).
    unfold pt. f_equal.
  - replace u with e by (unfold u, Rmin; destruct (Rle_dec e 1); lra).
    unfold pt. f_equal.
Qed.

(** What the specification's formula gives there. *)
Lemma navigate_setpoint_spec_finite (stamp : Time) (v : R)
    (s : Setpoint xreal) (a b c a' b' c' : R) :
  start_point s = pt a b c ->
  target_point s = pt a' b' c' ->
  0 < v -> 0 < dist a b c a' b' c' ->
  let u := Rmin (Rmax (elapsed (start_stamp s) stamp
                       / (dist a b c a' b' c' / v)) 0) 1 in
  navigate_setpoint_spec stamp (nav_start s) (target_point s) (XFin v)
  = pt (a + u * (a' - a)) (b + u * (b' - b)) (c + u * (c' - c)).
Proof.
  intros Hs Ht Hv Hd u.
  unfold navigate_setpoint_spec, interpolation_parameter.
  unfold start_point, target_point, start_stamp in *.
  rewrite Hs, Ht. rewrite norm_finite.
  set (d := dist a b c a' b' c') in *.
  cbn. rewrite (Reqb_false v 0) by lra.
  assert (Hdv : 0 < d / v) by (apply Rdiv_lt_0_compat; assumption).
  rewrite (Reqb_false (d / v) 0) by lra.
  unfold clamp. cbn.
  fold (elapsed (Header.stamp (PoseStamped.header (nav_start s))) stamp).
  set (e := elapsed _ _ / (d / v)) in *.
  unfold Rltb. destruct (Rlt_dec e 0) as [H0|H0]; cbn.
  - replace u with 0
      by (unfold u, Rmin, Rmax; destruct (Rle_dec e 0);
          destruct (Rle_dec _ 1); lra).
    unfold pt. f_equal.
  - destruct (Rlt_dec 1 e) as [H1|H1]; cbn.
    + replace u with 1
        by (unfold u, Rmin, Rmax; destruct (Rle_dec e 0);
            destruct (Rle_dec _ 1); lra).
      unfold pt. f_equal.
    + replace u with e
        by (unfold u, Rmin, Rmax; destruct (Rle_dec e 0);
            destruct (Rle_dec _ 1); lra).
      unfold pt. f_equal.
Qed.

(** From the stamp of [nav_start] on, the interpolation is the one of
    the specification: in exact arithmetic, on a tick at a time [t] that
    is not before the stamp of [nav_start], with a distance [d > 0] and a
    finite speed [> 0], the emitted position is [start + u (target - start)]
    with [u = clamp ((t - start.timestamp) / (d / speed), 0, 1)]; at
    [t = start.timestamp] it is [nav_start] and from
    [start.timestamp + d / speed] on it is the target. *)
Theorem navigate_interpolation (stamp : Time) (v : R) (s : Setpoint xreal)
    (a b c a' b' c' : R) :
  wait_armed s = false ->
  start_point s = pt a b c ->
  target_point s = pt a' b' c' ->
  0 < v -> 0 < dist a b c a' b' c' ->
  (start_stamp s <= stamp)%Z ->
  let emitted := fst (getNavigateSetpoint stamp (XFin v) s) in
  emitted
    = navigate_setpoint_spec stamp (nav_start s) (target_point s) (XFin v)
  /\ (stamp = start_stamp s -> emitted = start_point s)
  /\ (dist a b c a' b' c' / v <= elapsed (start_stamp s) stamp ->
      emitted = target_point s).
Proof.
  intros Hw Hs Ht Hv Hd Hle emitted. subst emitted.
  rewrite (getNavigateSetpoint_finite stamp v s a b c a' b' c') by assumption.
  rewrite (navigate_setpoint_spec_finite stamp v s a b c a' b' c')
    by assumption.
  cbn [fst]. rewrite Hs, Ht.
  set (d := dist a b c a' b' c') in *.
  assert (Hdv : 0 < d / v) by (apply Rdiv_lt_0_compat; assumption).
  pose proof (elapsed_nonneg _ _ Hle) as He.
  set (e := elapsed (start_stamp s) stamp) in *.
  assert (Hq : 0 <= e / (d / v)).
  { apply Rmult_le_pos; [exact He|]. left. apply Rinv_0_lt_compat. exact Hdv. }
  repeat split.
  - rewrite (Rmax_left _ 0) by exact Hq.
    unfold pt; f_equal; f_equal; ring.
  - intros ->. subst e. unfold elapsed. rewrite Z.sub_diag.
    replace (0 / 1000000000 / (d / v)) with 0 by (unfold Rdiv; ring).
    rewrite Rmin_left by lra. unfold pt; f_equal; f_equal; ring.
  - intros Hge.
    assert (1 <= e / (d / v)).
    { apply (Rmult_le_reg_r (d / v)); [exact Hdv|].
      unfold Rdiv at 2. rewrite Rmult_assoc, Rinv_l by lra. lra. }
    rewrite Rmin_right by assumption. unfold pt; f_equal; f_equal; ring.
Qed.

(** X4. While [wait_armed] is set and the segment has a length, a tick
    moves the stamp of [nav_start] to its own time and emits [nav_start]. *)
Lemma gating_holds_position (stamp : Time) (v : R) (s : Setpoint xreal)
    (a b c a' b' c' : R) :
  wait_armed s = true ->
  start_point s = pt a b c ->
  target_point s = pt a' b' c' ->
  0 < v -> 0 < dist a b c a' b' c' ->
  getNavigateSetpoint stamp (XFin v) s
  = (start_point s,
     set_nav_start (PoseStamped.with_stamp stamp (nav_start s)) s).
Proof.
  intros Hw Hs Ht Hv Hd.
  unfold getNavigateSetpoint. rewrite Hw.
  unfold start_point, target_point in *.
  cbn [nav_start set_nav_start setpoint_position_transformed
       PoseStamped.with_stamp PoseStamped.with_header PoseStamped.pose
       PoseStamped.header Header.with_stamp Header.stamp].
  rewrite Hs, Ht, getDistance_finite, Z.sub_diag.
  set (d := dist a b c a' b' c') in *.
  cbn. rewrite (Reqb_false v 0) by lra.
  assert (Hdv : 0 < d / v) by (apply Rdiv_lt_0_compat; assumption).
  rewrite (Reqb_false (d / v) 0) by lra.
  unfold std_min. cbn.
  replace (0 / 1000000000 / (d / v)) with 0 by (unfold Rdiv; ring).
  rewrite Rltb_false by lra. cbn.
  f_equal. unfold pt. f_equal; f_equal; ring.
Qed.

(** X5. On a segment of no length, a tick after the stamp of [nav_start]
    emits the target. *)
Lemma zero_length_after_start (stamp : Time) (v : R) (s : Setpoint xreal)
    (a b c : R) :
  wait_armed s = false ->
  start_point s = pt a b c ->
  target_point s = pt a b c ->
  0 < v ->
  (start_stamp s < stamp)%Z ->
  fst (getNavigateSetpoint stamp (XFin v) s) = target_point s.
Proof.
  intros Hw Hs Ht Hv Hlt.
  unfold getNavigateSetpoint. rewrite Hw.
  unfold start_point, target_point, start_stamp in *.
  rewrite Hs, Ht, getDistance_finite.
  unfold dist.
  replace ((a - a) * (a - a) + (b - b) * (b - b) + (c - c) * (c - c))
    with 0 by ring.
  rewrite sqrt_0.
  cbn. rewrite (Reqb_false v 0) by lra.
  replace (0 / v) with 0 by (unfold Rdiv; ring).
  rewrite Reqb_true by reflexivity.
  assert (He : 0 < IZR (stamp - Header.stamp (PoseStamped.header (nav_start s)))
                   / 1000000000).
  { apply Rdiv_lt_0_compat; [apply IZR_lt; lia | lra]. }
  rewrite Reqb_false by lra. rewrite Rltb_false by lra.
  unfold std_min. cbn. unfold pt. f_equal; f_equal; ring.
Qed.

Lemma xadd_zero (x : xreal) : xadd x (XFin 0) = x.
Proof. destruct x; cbn; [reflexivity | reflexivity | f_equal; ring]. Qed.

(** What [globalToLocal] returns when the lookup succeeds. *)
Lemma globalToLocal_returns {G : Geodesic xreal} (lat lon : xreal)
    (w : World xreal) (local : TransformStamped.t xreal) (d az1 az : xreal) :
  let fix_ := global_position (telemetry (globals w)) in
  let p := params (globals w) in
  let tr := Transform.translation (TransformStamped.transform local) in
  let rad := (az * M_PI / of_int 180)%num in
  lookupTransform (tf_buffer (ros w)) (local_frame p) (fcu_frame p)
    (Header.stamp (NavSatFix.header fix_)) = Ok local ->
  Geodesic_Inverse (NavSatFix.latitude fix_) (NavSatFix.longitude fix_)
    lat lon = (d, az1, az) ->
  globalToLocal lat lon w
  = (Val {| PoseStamped.header :=
              {| Header.stamp := Header.stamp (NavSatFix.header fix_);
                 Header.frame_id := local_frame p |};
            PoseStamped.pose :=
              {| Pose.position :=
                   {| Point.x := (Vector3.x tr + d * std_sin rad)%num;
                      Point.y := (Vector3.y tr + d * std_cos rad)%num;
                      Point.z := XFin 0 |};
                 Pose.orientation :=
                   {| Quaternion.x := XFin 0; Quaternion.y := XFin 0;
                      Quaternion.z := XFin 0; Quaternion.w := XFin 1 |} |} |},
     w).
Proof.
  intros fix_ p tr rad Hl Hg.
  unfold globalToLocal, bind, get, ask, lift_result, ret.
  fold fix_. rewrite Hg. fold p. rewrite Hl. reflexivity.
Qed.

Lemma degrees (a : R) : (XFin a * M_PI / of_int 180)%num = XFin (a * PI / 180).
Proof. cbn. rewrite (Reqb_false 180 0) by lra. reflexivity. Qed.

(** C8. [globalToLocal] takes, of the two azimuths that the inverse
    solver returns, the one at the target end: with [d], [a1] and [a2]
    the distance, the azimuth at the fix and the azimuth at the target,
    the pose is at [(local.x + d sin a2, local.y + d cos a2, 0)], and
    whenever the two azimuths point in different directions and the
    target is not the fix itself, that is not the point
    [(local.x + d sin a1, local.y + d cos a1, 0)] that lies at the
    distance [d] in the direction from the fix to the target. *)
Theorem projection_takes_the_azimuth_at_the_target {G : Geodesic xreal}
    (lat lon : xreal) (w : World xreal) (local : TransformStamped.t xreal)
    (tx ty tz d a1 a2 : R) :
  let fix_ := global_position (telemetry (globals w)) in
  let p := params (globals w) in
  let towards (a : R) := pt (tx + d * sin (a * PI / 180))
                            (ty + d * cos (a * PI / 180)) 0 in
  lookupTransform (tf_buffer (ros w)) (local_frame p) (fcu_frame p)
    (Header.stamp (NavSatFix.header fix_)) = Ok local ->
  Transform.translation (TransformStamped.transform local)
    = {| Vector3.x := XFin tx; Vector3.y := XFin ty; Vector3.z := XFin tz |} ->
  Geodesic_Inverse (NavSatFix.latitude fix_) (NavSatFix.longitude fix_)
    lat lon = (XFin d, XFin a1, XFin a2) ->
  exists pose,
    globalToLocal lat lon w = (Val pose, w) /\
    Pose.position (PoseStamped.pose pose) = towards a2 /\
    (d <> 0 ->
     sin (a1 * PI / 180) <> sin (a2 * PI / 180) \/
     cos (a1 * PI / 180) <> cos (a2 * PI / 180) ->
     Pose.position (PoseStamped.pose pose) <> towards a1).
Proof.
  intros fix_ p towards Hl Ht Hg.
  eexists. split; [exact (globalToLocal_returns lat lon w local _ _ _ Hl Hg)|].
  cbn [PoseStamped.pose Pose.position]. rewrite Ht, degrees.
  cbn [Vector3.x Vector3.y].
  assert (E : {| Point.x := (XFin tx + XFin d * std_sin (XFin (a2 * PI / 180)))%num;
                 Point.y := (XFin ty + XFin d * std_cos (XFin (a2 * PI / 180)))%num;
                 Point.z := XFin 0 |} = towards a2) by reflexivity.
  rewrite E. split; [reflexivity|].
  intros Hd Hne Heq. unfold towards, pt in Heq.
  injection Heq as Hx Hy.
  destruct Hne as [Hs | Hc]; [apply Hs | apply Hc].
  - apply (Rmult_eq_reg_l d); [lra | exact Hd].
  - apply (Rmult_eq_reg_l d); [lra | exact Hd].
Qed.

(** With a solver that finds no distance between a point and itself,
    projecting the fix's own coordinates gives no offset: the pose is at
    [(local.x, local.y, 0)]. *)
Lemma own_fix_projects_to_no_offset {G : Geodesic xreal} (w : World xreal)
    (local : TransformStamped.t xreal) :
  let fix_ := global_position (telemetry (globals w)) in
  let p := params (globals w) in
  let tr := Transform.translation (TransformStamped.transform local) in
  lookupTransform (tf_buffer (ros w)) (local_frame p) (fcu_frame p)
    (Header.stamp (NavSatFix.header fix_)) = Ok local ->
  (exists a1 a2 : R,
     Geodesic_Inverse (NavSatFix.latitude fix_) (NavSatFix.longitude fix_)
       (NavSatFix.latitude fix_) (NavSatFix.longitude fix_)
     = (XFin 0, XFin a1, XFin a2)) ->
  exists pose,
    globalToLocal (NavSatFix.latitude fix_) (NavSatFix.longitude fix_) w
      = (Val pose, w) /\
    PoseStamped.header pose
      = {| Header.stamp := Header.stamp (NavSatFix.header fix_);
           Header.frame_id := local_frame p |} /\
    Pose.position (PoseStamped.pose pose)
      = {| Point.x := Vector3.x tr; Point.y := Vector3.y tr;
           Point.z := XFin 0 |} /\
    Pose.orientation (PoseStamped.pose pose)
      = {| Quaternion.x := XFin 0; Quaternion.y := XFin 0;
           Quaternion.z := XFin 0; Quaternion.w := XFin 1 |}.
Proof.
  intros fix_ p tr Hl (a1 & a2 & Hg).
  eexists. split; [exact (globalToLocal_returns _ _ w local _ _ _ Hl Hg)|].
  cbn [PoseStamped.header PoseStamped.pose Pose.position Pose.orientation].
  split; [reflexivity|]. split; [|reflexivity].
  rewrite degrees. fold tr. cbn [std_sin std_cos libs xsin xcos mul add arith xmul].
  rewrite !Rmult_0_l, !xadd_zero. reflexivity.
Qed.

(** The solver of the examples finds no distance between a point and
    itself. *)
Lemma flat_inverse_coincident (lat lon : R) :
  flat_inverse (XFin lat) (XFin lon) (XFin lat) (XFin lon)
  = (XFin 0, XFin 0, XFin 0).
Proof.
  unfold flat_inverse. cbn.
  rewrite (Reqb_false 2 0) by lra. cbn.
  replace (lon + - lon) with 0 by ring.
  replace (lat + - lat) with 0 by ring.
  rewrite !Rmult_0_l.
  replace (0 * 0 + 0 * 0) with 0 by ring.
  rewrite Rltb_false by lra.
  replace (0 + 0) with 0 by ring.
  rewrite sqrt_0, Rmult_0_r.
  unfold Ratan2. rewrite !Rltb_false by lra.
  assert (Hpi : PI / 180 <> 0) by (pose proof PI_RGT_0; lra).
  rewrite (Reqb_false _ 0 Hpi).
  replace (0 / (PI / 180)) with 0 by (unfold Rdiv; ring).
  reflexivity.
Qed.

(** [std::to_string] on a tie, and on a value with no fraction. *)
Lemma scaled_parts (r : R) (z : Z) (f : R) :
  0 <= f < 1 -> Rabs r * 1000000 = IZR z + f ->
  Int_part (Rabs r * 1000000) = z /\ frac_part (Rabs r * 1000000) = f.
Proof.
  intros Hf E.
  destruct (Int_part_frac_part_spec _ _ _ Hf E) as [-> ->]. split; reflexivity.
Qed.

Example to_string_rounds_ties_to_even :
  xto_string (XFin (- (1 / 128))) = "-0.007812" /\
  xto_string (XFin (3 / 128)) = "0.023438" /\
  xto_string (XFin (-1)) = "-1.000000".
Proof.
  unfold xto_string.
  assert (A : Rabs (- (1 / 128)) * 1000000 = IZR 7812 + / 2).
  { rewrite Rabs_left by lra. lra. }
  assert (B : Rabs (3 / 128) * 1000000 = IZR 23437 + / 2).
  { rewrite Rabs_pos_eq by lra. lra. }
  assert (C : Rabs (-1) * 1000000 = IZR 1000000 + 0).
  { rewrite Rabs_left by lra. lra. }
  destruct (scaled_parts _ 7812 (/ 2) ltac:(lra) A) as [-> ->].
  destruct (scaled_parts _ 23437 (/ 2) ltac:(lra) B) as [-> ->].
  destruct (scaled_parts _ 1000000 0 ltac:(lra) C) as [-> ->].
  rewrite !(Rltb_false (/ 2) (/ 2)) by lra.
  rewrite (Rltb_true 0 (/ 2)) by lra.
  rewrite (Rltb_true (- (1 / 128)) 0) by lra.
  rewrite (Rltb_false (3 / 128) 0) by lra.
  rewrite (Rltb_true (-1) 0) by lra.
  repeat split; reflexivity.
Qed.

End InIdeal.

(** ** The speed of the navigation setpoint *)

Section Speed.
Import Ideal.
Local Open Scope R_scope.

(** X24. The navigation setpoint moves at the commanded speed: in exact
    arithmetic, on a segment with a length and until its end is reached,
    the emitted position is at the distance [speed * elapsed] from the
    start. *)
Theorem navigate_moves_at_the_commanded_speed (stamp : Time) (v : R)
    (s : Setpoint xreal) (a b c a' b' c' : R) :
  wait_armed s = false ->
  start_point s = pt a b c ->
  target_point s = pt a' b' c' ->
  0 < v -> 0 < dist a b c a' b' c' ->
  (start_stamp s <= stamp)%Z ->
  elapsed (start_stamp s) stamp <= dist a b c a' b' c' / v ->
  exists x y z,
    fst (getNavigateSetpoint stamp (XFin v) s) = pt x y z /\
    dist a b c x y z = v * elapsed (start_stamp s) stamp.
Proof.
  intros Hw Hs Ht Hv Hd Hle Hend.
  rewrite (getNavigateSetpoint_finite stamp v s a b c a' b' c') by assumption.
  cbn [fst].
  set (d := dist a b c a' b' c') in *.
  pose proof (elapsed_nonneg _ _ Hle) as He.
  set (e := elapsed (start_stamp s) stamp) in *.
  assert (Hdv : 0 < d / v) by (apply Rdiv_lt_0_compat; assumption).
  assert (Hu : e / (d / v) <= 1).
  { apply (Rmult_le_reg_r (d / v)); [exact Hdv|].
    unfold Rdiv at 1. rewrite Rmult_assoc, Rinv_l by lra. lra. }
  rewrite Rmin_left by exact Hu.
  set (u := e / (d / v)).
  assert (Hu0 : 0 <= u).
  { unfold u. apply Rmult_le_pos; [exact He|].
    left. apply Rinv_0_lt_compat. exact Hdv. }
  do 3 eexists. split; [reflexivity|].
  unfold dist.
  replace ((a + (a' - a) * u - a) * (a + (a' - a) * u - a)
           + (b + (b' - b) * u - b) * (b + (b' - b) * u - b)
           + (c + (c' - c) * u - c) * (c + (c' - c) * u - c))
    with (Rsqr u * ((a' - a) * (a' - a) + (b' - b) * (b' - b)
                    + (c' - c) * (c' - c)))
    by (unfold Rsqr; ring).
  rewrite sqrt_mult_alt by apply Rle_0_sqr.
  rewrite sqrt_Rsqr by exact Hu0.
  fold (dist a b c a' b' c'). fold d.
  unfold u. field. split; lra.
Qed.

End Speed.

(** ** The interpolator in IEEE arithmetic *)

Section InIEEE.
Import IEEE.

Lemma mul_nan (x : spec_float) : SFmul 53 1024 x S754_nan = S754_nan.
Proof. destruct x; reflexivity. Qed.

Lemma add_nan (x : spec_float) : SFadd 53 1024 x S754_nan = S754_nan.
Proof. destruct x; reflexivity. Qed.

(** A zero distance divided by any speed is a zero or NaN. *)
Lemma divf_zero (d speed : spec_float) :
  is_zero d = true ->
  is_zero (divf d speed) = true \/ divf d speed = S754_nan.
Proof.
  destruct d; try discriminate. intros _.
  destruct speed; cbn; auto.
Qed.

(** No time elapsed, divided by such a duration, is NaN, and it stays
    NaN through [std::min] and the narrowing. *)
Lemma passed_nan (time : spec_float) :
  is_zero time = true \/ time = S754_nan ->
  to_float (std_min (div (toSec 0) time) one) = S754_nan.
Proof.
  intros [H| ->].
  - destruct time; try discriminate. destruct s; reflexivity.
  - reflexivity.
Qed.

Lemma getNavigateSetpoint_nan (stamp : Time) (speed : spec_float)
    (s : Setpoint spec_float) :
  is_zero (getDistance (start_point s) (target_point s)) = true ->
  (if wait_armed s then True else stamp = start_stamp s) ->
  fst (getNavigateSetpoint stamp speed s) = all_nan.
Proof.
  intros Hd Ht.
  unfold getNavigateSetpoint, start_point, target_point, start_stamp in *.
  destruct (wait_armed s).
  - cbn -[getDistance divf to_float std_min div toSec mul add sub one].
    rewrite Z.sub_diag.
    rewrite passed_nan by (apply divf_zero; exact Hd).
    cbn [mul add arith]. rewrite !mul_nan, !add_nan. reflexivity.
  - cbn -[getDistance divf to_float std_min div toSec mul add sub one].
    rewrite Ht, Z.sub_diag.
    rewrite passed_nan by (apply divf_zero; exact Hd).
    cbn [mul add arith]. rewrite !mul_nan, !add_nan. reflexivity.
Qed.

Lemma sub_same (x : spec_float) :
  is_number x = true -> SFsub 53 1024 x x = S754_zero false.
Proof.
  destruct x as [s|s| |s m e]; try discriminate; intros _.
  - destruct s; reflexivity.
  - unfold SFsub. rewrite Z.sub_diag. reflexivity.
Qed.

Lemma getDistance_same (p : Point.t spec_float) :
  is_number (Point.x p) = true -> is_number (Point.y p) = true ->
  is_number (Point.z p) = true ->
  getDistance p p = S754_zero false.
Proof.
  intros Hx Hy Hz. unfold getDistance, hypot. cbn [sub mul add arith].
  rewrite !sub_same by assumption. reflexivity.
Qed.

(** C5. A navigation to the point where it starts, while [wait_armed] is
    set: each tick does move the stamp of [nav_start] to its own time,
    but the interpolation parameter is then 0 / 0, and the emitted
    position is NaN in every coordinate instead of [nav_start], whatever
    the speed. *)
Theorem gating_emits_nan_on_zero_length_segment (stamp : Time)
    (speed : spec_float) (s : Setpoint spec_float) :
  wait_armed s = true ->
  target_point s = start_point s ->
  is_number (Point.x (start_point s)) = true ->
  is_number (Point.y (start_point s)) = true ->
  is_number (Point.z (start_point s)) = true ->
  fst (getNavigateSetpoint stamp speed s) = all_nan /\
  start_stamp (snd (getNavigateSetpoint stamp speed s)) = stamp.
Proof.
  intros Hw Ht Hx Hy Hz. split.
  - apply getNavigateSetpoint_nan.
    + rewrite Ht, getDistance_same by assumption. reflexivity.
    + rewrite Hw. exact I.
  - unfold getNavigateSetpoint. rewrite Hw. reflexivity.
Qed.

(** C6. A navigation to the point where it starts, on the tick whose
    time is the stamp of [nav_start]: the distance is 0, the interpolation
    parameter is 0 / 0, and the emitted position is NaN in every
    coordinate instead of the target, whatever the speed. *)
Theorem nan_at_start_of_zero_length_segment (speed : spec_float)
    (s : Setpoint spec_float) :
  wait_armed s = false ->
  target_point s = start_point s ->
  is_number (Point.x (start_point s)) = true ->
  is_number (Point.y (start_point s)) = true ->
  is_number (Point.z (start_point s)) = true ->
  fst (getNavigateSetpoint (start_stamp s) speed s) = all_nan.
Proof.
  intros Hw Ht Hx Hy Hz.
  apply getNavigateSetpoint_nan.
  - rewrite Ht, getDistance_same by assumption. reflexivity.
  - rewrite Hw. reflexivity.
Qed.

(** X6. Scenario "simple navigate" of the specification: from the origin to
    (2, 0, 0) at 1 m/s, with [nav_start] stamped 10 s. *)
Example simple_navigate :
  map (fun t => fst (getNavigateSetpoint (seconds t) (of_Z 1)
                       Examples.two_metres_ieee))
      [10; 11; 12; 13]
  = [pt 0 0 0; pt 1 0 0; pt 2 0 0; pt 2 0 0].
Proof. vm_compute. reflexivity. Qed.

(** C2. The interpolation is not clamped below.  One second before the
    stamp of [nav_start], on the segment of 2 m at 1 m/s, the clamped
    parameter is 0 and the formula of the specification gives the start,
    while the code, which bounds [passed] by [std::min] only, emits the
    point one metre behind the start. *)
Lemma no_lower_clamp_before_start :
  let s := Examples.two_metres_ieee in
  let t := seconds 9 in
  let speed := of_Z 1 in
  ltb zero (getDistance (start_point s) (target_point s)) = true /\
  ltb zero speed = true /\
  navigate_setpoint_spec t (nav_start s) (target_point s) speed = pt 0 0 0 /\
  fst (getNavigateSetpoint t speed s) = pt (-1) 0 0 /\
  fst (getNavigateSetpoint t speed s)
    <> navigate_setpoint_spec t (nav_start s) (target_point s) speed.
Proof.
  vm_compute. repeat split; discriminate.
Qed.

(** A navigation that takes no time: with a duration of zero, or NaN,
    the tick at the stamp of [nav_start], and every tick while
    [wait_armed] is set, emits NaN in every coordinate. *)
Lemma getNavigateSetpoint_no_duration (stamp : Time) (speed : spec_float)
    (s : Setpoint spec_float) :
  let time := divf (getDistance (start_point s) (target_point s)) speed in
  is_zero time = true \/ time = S754_nan ->
  (if wait_armed s then True else stamp = start_stamp s) ->
  fst (getNavigateSetpoint stamp speed s) = all_nan.
Proof.
  intros time Hd Ht. subst time.
  unfold getNavigateSetpoint, start_point, target_point, start_stamp in *.
  destruct (wait_armed s).
  - cbn -[getDistance divf to_float std_min div toSec mul add sub one].
    rewrite Z.sub_diag.
    rewrite passed_nan by exact Hd.
    cbn [mul add arith]. rewrite !mul_nan, !add_nan. reflexivity.
  - cbn -[getDistance divf to_float std_min div toSec mul add sub one].
    rewrite Ht, Z.sub_diag.
    rewrite passed_nan by exact Hd.
    cbn [mul add arith]. rewrite !mul_nan, !add_nan. reflexivity.
Qed.

(** An infinite speed is a speed above 0 that passes the checks of
    [serve]; the segment, whatever its length, then takes no time, and
    the tick at the stamp of [nav_start] emits NaN in every coordinate
    where the start is due. *)
Lemma infinite_speed_gives_nan_at_start (s : Setpoint spec_float) :
  let speed := S754_infinity false in
  wait_armed s = false ->
  is_number (getDistance (start_point s) (target_point s)) = true ->
  ltb zero speed = true /\ ltb speed zero = false /\ eqb speed zero = false /\
  fst (getNavigateSetpoint (start_stamp s) speed s) = all_nan.
Proof.
  intros speed Hw Hn.
  split; [reflexivity|]. split; [reflexivity|]. split; [reflexivity|].
  apply getNavigateSetpoint_no_duration.
  - left. cbn [divf arith].
    destruct (getDistance (start_point s) (target_point s));
      try discriminate; reflexivity.
  - rewrite Hw. reflexivity.
Qed.

Example infinite_speed_on_two_metres :
  fst (getNavigateSetpoint (seconds 10) (S754_infinity false)
         Examples.two_metres_ieee) = all_nan.
Proof.
  apply (infinite_speed_gives_nan_at_start Examples.two_metres_ieee);
    reflexivity.
Qed.

Lemma div_by_nan (prec emax : Z) (x : spec_float) :
  SFdiv prec emax x S754_nan = S754_nan.
Proof. destruct x; reflexivity. Qed.

(** X30. A NaN speed is not caught by the checks of [navigate], which
    ask for a speed that is neither below 0 nor 0; with it every tick
    emits NaN in every coordinate, whatever the segment and the time. *)
Theorem nan_speed_gives_nan_setpoints (stamp : Time)
    (s : Setpoint spec_float) :
  ltb S754_nan zero = false /\
  eqb S754_nan zero = false /\
  fst (getNavigateSetpoint stamp S754_nan s) = all_nan.
Proof.
  split; [reflexivity|]. split; [reflexivity|].
  unfold getNavigateSetpoint.
  cbn -[getDistance to_float std_min toSec mul add sub one SFdiv double].
  rewrite (div_by_nan 24 128).
  change (double S754_nan) with S754_nan.
  rewrite (div_by_nan 53 1024).
  change (to_float (std_min S754_nan one)) with S754_nan.
  cbn [mul add arith]. rewrite !mul_nan, !add_nan. reflexivity.
Qed.

End InIEEE.

(** ** The theorems at work

    Each theorem with hypotheses, applied to one of the worlds of
    [Examples]; the runtime is the node's own [ros_spinOnce] with a clock
    that gains 100 ms at each [r.sleep()]. *)

Section AtWork.
Import Examples.
Local Open Scope R_scope.

Lemma grounded_fresh : state_fresh grounded.
Proof. unfold state_fresh. cbn. split; [lia | reflexivity]. Defined.

Lemma flying_fresh : state_fresh flying.
Proof. unfold state_fresh. cbn. split; [lia | reflexivity]. Defined.

Lemma busy_command_is_rejected_at_work :
  busy (sp (globals grounded_busy)) = true /\
  exists w',
    handler (ros_spinOnce tick 30 1) (r_sleep tick) 30
      (cmd_set_position hold_at_1m) Response.default grounded_busy
    = (Val (true, {| Response.success := false;
                     Response.message := "Busy" |}), w') /\
    setpoint_unchanged (sp (globals grounded_busy)) (sp (globals w')).
Proof.
  split; [reflexivity|].
  destruct (busy_command_is_rejected (ros_spinOnce tick 30 1) (r_sleep tick)
              30 (cmd_set_position hold_at_1m) grounded_busy eq_refl)
    as (w' & H & U & _).
  exists w'. split; assumption.
Defined.

Lemma auto_arm_failure_at_work :
  exists w',
    setRates (ros_spinOnce tick 30 1) (r_sleep tick) 30 (spin_up true)
      Response.default grounded
    = (Val (true, {| Response.success := false;
                     Response.message :=
                       "Error calling set_mode service" |}), w') /\
    setpoint_timer (globals grounded) = false /\
    setpoint_timer (globals w') = true /\
    wait_armed (sp (globals w')) = true.
Proof.
  destruct (auto_arm_failure_leaves_timer_running (ros_spinOnce tick 30 1)
              (r_sleep tick) 30 (spin_up true) grounded
              eq_refl eq_refl grounded_fresh eq_refl eq_refl eq_refl)
    as (w' & H & _ & _ & T & W).
  exists w'. repeat split; assumption.
Defined.

Lemma manual_failure_at_work :
  exists w',
    setRates (ros_spinOnce tick 30 1) (r_sleep tick) 30 (spin_up false)
      Response.default grounded
    = (Val (true, {| Response.success := false;
                     Response.message :=
                       "Copter is not in OFFBOARD mode, use auto_arm?" |}),
       w') /\
    setpoint_timer (globals w') = false.
Proof.
  destruct (manual_failure_stops_the_timer (ros_spinOnce tick 30 1)
              (r_sleep tick) 30 (spin_up false) grounded
              eq_refl grounded_fresh eq_refl eq_refl)
    as (w' & H & _ & T).
  exists w'. split; assumption.
Defined.

Lemma land_without_result_at_work :
  fst (land (ros_spinOnce interrupted 30 1) (r_sleep interrupted) 30
         Response.default flying)
  = Undefined.
Proof.
  rewrite (land_without_result_on_shutdown (ros_spinOnce interrupted 30 1)
             (r_sleep interrupted) 30 Response.default flying).
  - reflexivity.
  - lia.
  - reflexivity.
  - exact flying_fresh.
  - reflexivity.
  - reflexivity.
  - reflexivity.
  - cbn. lia.
  - reflexivity.
  - reflexivity.
Defined.

Lemma yaw_rate_channel_at_work :
  exists w',
    ticks [seconds 101; seconds 102] holding_with_yaw_rate = (Val tt, w') /\
    Forall2 (fun t m => yaw_rate_target t (Ideal.XFin (1 / 2)) m)
      [seconds 101; seconds 102]
      (setpoints (emitted (ticks [seconds 101; seconds 102])
                    holding_with_yaw_rate)).
Proof.
  exact (yaw_policy_selects_the_channel [seconds 101; seconds 102]
           holding_with_yaw_rate eq_refl).
Defined.

Lemma set_rates_at_work :
  exists w',
    setRates (ros_spinOnce tick 30 1) (r_sleep tick) 30 (spin_up false)
      Response.default flying
    = (Val (true, {| Response.success := true; Response.message := "" |}),
       w') /\
    sent w' = [rates_target flying (spin_up false) (seconds 100)].
Proof.
  destruct (set_rates_needs_no_transform (ros_spinOnce tick 30 1)
              (r_sleep tick) 30 (spin_up false) flying
              eq_refl flying_fresh eq_refl eq_refl)
    as (w' & H & _ & _ & _ & S & _).
  exists w'. split; assumption.
Defined.

Lemma two_metres_has_length : 0 < Ideal.dist 0 0 0 2 0 0.
Proof. unfold Ideal.dist. apply sqrt_lt_R0. lra. Defined.

Lemma navigate_interpolation_at_work :
  fst (getNavigateSetpoint (seconds 13) (Ideal.XFin 1) two_metres)
  = Ideal.pt 2 0 0.
Proof.
  destruct (navigate_interpolation (seconds 13) 1 two_metres 0 0 0 2 0 0
              eq_refl eq_refl eq_refl Rlt_0_1 two_metres_has_length)
    as (_ & _ & H).
  - cbn. lia.
  - apply H. unfold Ideal.dist, Ideal.elapsed. cbn.
    replace ((2 - 0) * (2 - 0) + (0 - 0) * (0 - 0) + (0 - 0) * (0 - 0))
      with (Rsqr 2) by (unfold Rsqr; ring).
    rewrite sqrt_Rsqr by lra. lra.
Defined.

Lemma gating_nan_at_work :
  fst (getNavigateSetpoint (seconds 12) (IEEE.of_Z 1) (on_the_spot true))
  = IEEE.all_nan.
Proof.
  exact (proj1 (gating_emits_nan_on_zero_length_segment (seconds 12)
                  (IEEE.of_Z 1) (on_the_spot true)
                  eq_refl eq_refl eq_refl eq_refl eq_refl)).
Defined.

Lemma nan_at_start_at_work :
  fst (getNavigateSetpoint (seconds 10) (IEEE.of_Z 1) (on_the_spot false))
  = IEEE.all_nan.
Proof.
  exact (nan_at_start_of_zero_length_segment (IEEE.of_Z 1)
           (on_the_spot false) eq_refl eq_refl eq_refl eq_refl eq_refl).
Defined.

Lemma tick_moves_on (r : Ros Ideal.xreal) :
  ok r = true ->
  ok (tick r) = true /\ (now r + millis 100 <= now (tick r))%Z.
Proof. intros H. split; [exact H | cbn; lia]. Qed.

(** The node's runtime with 100 rounds of 100 ms for each loop stays up
    under the default timeouts. *)
Lemma spinOnce_stays_up :
  steady (@default_params Ideal.xreal _) 0%Z (ros_spinOnce tick 100 1).
Proof.
  apply ros_spinOnce_steady with (delta := millis 100);
    first [exact tick_moves_on | reflexivity | lia].
Qed.

Lemma sleep_moves_on :
  steady (@default_params Ideal.xreal _) (millis 100) (r_sleep tick).
Proof. apply r_sleep_steady. exact tick_moves_on. Qed.

Lemma telemetry_frame_at_work :
  exists r w',
    getTelemetry (ros_spinOnce tick 100 1) (r_sleep tick) 100
      {| GetTelemetry.Request.frame_id := "" |}
      GetTelemetry_Response_default flying_in_map
    = (Val (true, r), w') /\
    GetTelemetry.Response.frame_id r = "map".
Proof.
  destruct (telemetry_frame_is_the_frame_used
              (ros_spinOnce tick 100 1) (r_sleep tick) 100
              default_params (millis 100)
              spinOnce_stays_up eq_refl (le_n_S _ _ (Nat.le_0_l 99))
              sleep_moves_on eq_refl
              {| GetTelemetry.Request.frame_id := "" |}
              GetTelemetry_Response_default flying_in_map
              (conj eq_refl eq_refl))
    as (r & w' & H & Hf & _).
  exists r, w'. split; [exact H | exact (Hf eq_refl)].
Defined.

Lemma command_returns_at_work :
  exists r w',
    handler (ros_spinOnce tick 100 1) (r_sleep tick) 100
      (cmd_set_rates (spin_up true)) Response.default willing
    = (Val (true, r), w') /\
    busy (sp (globals w')) = false.
Proof.
  destruct (command_returns_a_response
              (ros_spinOnce tick 100 1) (r_sleep tick) 100
              default_params (millis 100)
              spinOnce_stays_up eq_refl (le_n_S _ _ (Nat.le_0_l 99))
              sleep_moves_on eq_refl eq_refl eq_refl eq_refl
              (cmd_set_rates (spin_up true)) Response.default willing
              (conj eq_refl eq_refl))
    as (r & w' & H & Hb & _).
  exists r, w'. split; assumption.
Defined.

Lemma busy_rejection_at_work :
  busy (sp (globals (snd (handler (ros_spinOnce tick 30 1) (r_sleep tick) 30
                            (cmd_set_position hold_at_1m) Response.default
                            grounded_busy))))
  = false.
Proof.
  exact (busy_rejection_clears_busy (ros_spinOnce tick 30 1) (r_sleep tick)
           30 (cmd_set_position hold_at_1m) Response.default grounded_busy
           eq_refl).
Defined.

(** X3. Three commands.  [set_rates] with [auto_arm] is polling for the
    OFFBOARD mode when a [set_position] and a second [set_rates] are
    served by its [ros::spinOnce()].  The first of them is rejected as
    "Busy", and its rejection clears [busy]; the second is then taken up
    while the first command is still in flight: it replaces the body
    rates and, failing for its own reasons, stops the publisher timer. *)
Example busy_guard_is_lost_after_a_rejection :
  let run := setRates (ros_spinOnce tick 40 1) (r_sleep tick) 40
               (spin_up true) Response.default crowded in
  fst run = Val (true, {| Response.success := false;
                          Response.message := "OFFBOARD timed out" |}) /\
  map Response.message (responses (sent (snd run)))
    = ["Busy"; "Copter is not in OFFBOARD mode, use auto_arm?"] /\
  Twist.angular
    (TwistStamped.twist (rates_msg (containers (globals (snd run)))))
    = {| Vector3.x := SetRates.roll_rate roll_over;
         Vector3.y := SetRates.pitch_rate roll_over;
         Vector3.z := SetRates.yaw_rate roll_over |} /\
  setpoint_timer (globals (snd run)) = false.
Proof. lazy. repeat split. Qed.

Lemma set_rates_blind_at_work :
  setRates (ros_spinOnce tick 40 0) (r_sleep tick) 40 (spin_up true)
    Response.default (with_tf identity_tf willing)
  = (Val (true, {| Response.success := false;
                   Response.message := "OFFBOARD timed out" |}),
     with_tf identity_tf
       (snd (setRates (ros_spinOnce tick 40 0) (r_sleep tick) 40
               (spin_up true) Response.default willing))).
Proof.
  exact (setRates_blind (ros_spinOnce tick 40 0) (r_sleep tick) 40
           (fun _ _ => eq_refl) (fun _ _ => eq_refl)
           (spin_up true) Response.default willing identity_tf).
Defined.

Lemma gating_at_work :
  let s := navigation (seconds 10) (Ideal.pt 0 0 0) (Ideal.pt 2 0 0) true in
  getNavigateSetpoint (seconds 12) (Ideal.XFin 1) s
  = (Ideal.pt 0 0 0,
     set_nav_start (PoseStamped.with_stamp (seconds 12) (nav_start s)) s).
Proof.
  exact (gating_holds_position (seconds 12) 1
           (navigation (seconds 10) (Ideal.pt 0 0 0) (Ideal.pt 2 0 0) true)
           0 0 0 2 0 0 eq_refl eq_refl eq_refl Rlt_0_1 two_metres_has_length).
Defined.

Lemma zero_length_at_work :
  fst (getNavigateSetpoint (seconds 11) (Ideal.XFin 1)
         (navigation (seconds 10) (Ideal.pt 3 4 5) (Ideal.pt 3 4 5) false))
  = Ideal.pt 3 4 5.
Proof.
  exact (zero_length_after_start (seconds 11) 1
           (navigation (seconds 10) (Ideal.pt 3 4 5) (Ideal.pt 3 4 5) false)
           3 4 5 eq_refl eq_refl eq_refl Rlt_0_1 eq_refl).
Defined.

Lemma unready_at_work :
  fst (handler (ros_spinOnce tick 30 1) (r_sleep tick) 30
         (cmd_set_position hold_at_1m) Response.default out_of_touch)
  = Val (true, {| Response.success := false;
                  Response.message :=
                    "State timeout, check mavros settings" |}).
Proof.
  rewrite (unready_autopilot_rejects_every_command
             (ros_spinOnce tick 30 1) (r_sleep tick) 30
             (cmd_set_position hold_at_1m) Response.default out_of_touch
             eq_refl).
  - reflexivity.
  - intros [H _]. cbn in H. lia.
Defined.

Lemma hovering_fresh : state_fresh hovering.
Proof. unfold state_fresh. cbn. split; [lia | reflexivity]. Defined.

Lemma hovering_position_fresh : position_fresh hovering.
Proof. unfold position_fresh. cbn. lia. Defined.

Lemma no_local_position_at_work :
  fst (navigate (ros_spinOnce tick 30 1) (r_sleep tick) 30
         (go_east (Ideal.XFin 1) (Ideal.XFin 0) (Ideal.XFin 0))
         Response.default flying)
  = Val (true, {| Response.success := false;
                  Response.message := "No local position, check settings" |}).
Proof.
  unfold navigate.
  rewrite (navigate_needs_a_local_position (ros_spinOnce tick 30 1)
             (r_sleep tick) 30 NAVIGATE).
  - reflexivity.
  - reflexivity.
  - reflexivity.
  - exact flying_fresh.
  - unfold position_fresh. cbn. lia.
Defined.

Lemma negative_speed_at_work :
  fst (navigate (ros_spinOnce tick 30 1) (r_sleep tick) 30
         (go_east (Ideal.XFin (-1)) (Ideal.XFin 0) (Ideal.XFin 0))
         Response.default hovering)
  = Val (true,
         {| Response.success := false;
            Response.message :=
              "Navigate speed must be positive, "
                ++ std_to_string (Ideal.XFin (-1)) ++ " passed" |}).
Proof.
  unfold navigate.
  rewrite (negative_speed_is_rejected (ros_spinOnce tick 30 1)
             (r_sleep tick) 30 NAVIGATE).
  - reflexivity.
  - reflexivity.
  - reflexivity.
  - exact hovering_fresh.
  - exact hovering_position_fresh.
  - apply Rltb_true. lra.
Defined.

Lemma yaw_check_at_work :
  fst (setPosition (ros_spinOnce tick 30 1) (r_sleep tick) 30
         {| SetPosition.x := Ideal.XFin 0; SetPosition.y := Ideal.XFin 0;
            SetPosition.z := Ideal.XFin 1; SetPosition.yaw := Ideal.XNaN;
            SetPosition.yaw_rate := Ideal.XNaN;
            SetPosition.frame_id := "body"; SetPosition.auto_arm := false |}
         Response.default flying)
  = Val (true, {| Response.success := false;
                  Response.message :=
                    "Both yaw and yaw_rate cannot be NaN" |}).
Proof.
  unfold setPosition.
  rewrite (yaw_and_yaw_rate_are_checked (ros_spinOnce tick 30 1)
             (r_sleep tick) 30 POSITION)
    with (what := "Both yaw and yaw_rate cannot be NaN").
  - reflexivity.
  - reflexivity.
  - reflexivity.
  - exact flying_fresh.
  - discriminate.
  - right. repeat split.
Defined.

Lemma telemetry_nan_at_work :
  exists r w',
    getTelemetry (ros_spinOnce tick 100 1) (r_sleep tick) 100
      {| GetTelemetry.Request.frame_id := "" |}
      GetTelemetry_Response_default flying_in_map
    = (Val (true, r), w') /\
    nan_for_what_it_lacks default_params w' r.
Proof.
  exact (telemetry_reports_nan_for_what_it_lacks
           (ros_spinOnce tick 100 1) (r_sleep tick) 100
           default_params (millis 100)
           spinOnce_stays_up eq_refl (le_n_S _ _ (Nat.le_0_l 99))
           sleep_moves_on eq_refl
           {| GetTelemetry.Request.frame_id := "" |}
           GetTelemetry_Response_default flying_in_map
           (conj eq_refl eq_refl)).
Defined.

Lemma telemetry_echo_at_work :
  exists r w',
    getTelemetry (ros_spinOnce tick 100 1) (r_sleep tick) 100
      {| GetTelemetry.Request.frame_id := "" |}
      GetTelemetry_Response_default flying_in_map
    = (Val (true, r), w') /\
    echoes_what_is_fresh default_params GetTelemetry_Response_default
      flying_in_map w' r.
Proof.
  exact (telemetry_echoes_what_is_fresh
           (ros_spinOnce tick 100 1) (r_sleep tick) 100
           default_params (millis 100)
           spinOnce_stays_up eq_refl (le_n_S _ _ (Nat.le_0_l 99))
           sleep_moves_on eq_refl
           {| GetTelemetry.Request.frame_id := "" |}
           GetTelemetry_Response_default flying_in_map
           (conj eq_refl eq_refl)).
Defined.

Lemma wait_answers_at_work :
  exists b w',
    waitTransform (ros_spinOnce tick 100 1) (r_sleep tick) 100
      "map" "aruco_map" (seconds 100) (millis 500) flying
    = (Val b, w') /\
    if b
    then canTransform (tf_buffer (ros w')) "map" "aruco_map" (seconds 100)
         = true /\
         (now (ros w') - now (ros flying) <= millis 500)%Z
    else (millis 500 < now (ros w') - now (ros flying))%Z.
Proof.
  exact (waitTransform_answers
           (ros_spinOnce tick 100 1) (r_sleep tick) 100
           default_params (millis 100)
           spinOnce_stays_up eq_refl (le_n_S _ _ (Nat.le_0_l 99))
           sleep_moves_on
           "map" "aruco_map" (seconds 100) (millis 500) flying
           eq_refl (conj eq_refl eq_refl)).
Defined.

Lemma wait_at_once_at_work :
  waitTransform (ros_spinOnce tick 30 1) (r_sleep tick) 30
    "map" "body" (seconds 100) (millis 500) flying_in_map
  = (Val true, flying_in_map).
Proof.
  apply (waitTransform_at_once (ros_spinOnce tick 30 1) (r_sleep tick) 30
           "map" "body" (seconds 100) (millis 500) flying_in_map
           eq_refl (le_n_S _ _ (Nat.le_0_l 29))).
  - cbn. lia.
  - reflexivity.
Defined.

Lemma telemetry_changes_nothing_at_work :
  let after_it :=
    snd (getTelemetry (ros_spinOnce tick 30 0) (r_sleep tick) 30
           {| GetTelemetry.Request.frame_id := "aruco_map" |}
           GetTelemetry_Response_default flying) in
  (globals after_it, sent after_it) = (globals flying, sent flying).
Proof.
  exact (getTelemetry_changes_nothing (ros_spinOnce tick 30 0)
           (r_sleep tick) 30 _ (fun w => (globals w, sent w))
           (fun _ => eq_refl) (fun _ => eq_refl)
           {| GetTelemetry.Request.frame_id := "aruco_map" |}
           GetTelemetry_Response_default flying).
Defined.

Lemma land_changes_nothing_at_work :
  let view := fun w : World Ideal.xreal =>
    (set_busy false (sp (globals w)), setpoint_timer (globals w), sent w) in
  view (snd (land (ros_spinOnce tick 40 0) (r_sleep tick) 40
               Response.default holding_with_yaw_rate))
  = view holding_with_yaw_rate.
Proof.
  exact (land_changes_nothing_but_busy (ros_spinOnce tick 40 0)
           (r_sleep tick) 40 _
           (fun w => (set_busy false (sp (globals w)),
                      setpoint_timer (globals w), sent w))
           (fun _ => eq_refl) (fun _ => eq_refl)
           Response.default holding_with_yaw_rate (fun _ _ => eq_refl)).
Defined.

Lemma land_answer_at_work :
  exists r w',
    land (ros_spinOnce tick 100 1) (r_sleep tick) 100 Response.default flying
    = (Val (true, r), w') /\
    busy (sp (globals w')) = false.
Proof.
  destruct (land_reports_success_only_in_auto_land
              (ros_spinOnce tick 100 1) (r_sleep tick) 100
              default_params (millis 100)
              spinOnce_stays_up eq_refl (le_n_S _ _ (Nat.le_0_l 99))
              sleep_moves_on eq_refl Response.default flying
              (conj eq_refl eq_refl))
    as (r & w' & H & Hb & _).
  exists r, w'. split; assumption.
Defined.

Lemma velocity_tick_at_work :
  exists w' m,
    publish (seconds 101) cruising = (Val tt, w') /\
    sent w' = [position_raw_pub m] /\
    velocity_target YAW m.
Proof.
  destruct (velocity_tick (seconds 101) cruising eq_refl)
    as (w' & m & H & S & _ & T & _).
  exists w', m. split; [exact H|]. split; [exact S | exact T].
Defined.

Lemma attitude_tick_at_work :
  exists w' pose thrust,
    publish (seconds 101) leaning = (Val tt, w') /\
    sent w' = [attitude_pub pose; thrust_pub thrust] /\
    Header.stamp (Thrust.header thrust) = seconds 101.
Proof.
  destruct (attitude_tick (seconds 101) leaning eq_refl) as (w' & H & S).
  exists w'. do 2 eexists. split; [exact H|]. split; [exact S | reflexivity].
Defined.

Lemma idle_at_work :
  setpoints
    (sent (ros_spinOnce tick 30 1
             (due [local_position_sub (one_metre_up (seconds 100));
                   timer_event (seconds 100)] grounded)))
  = [].
Proof.
  exact (proj2 (idle_node_publishes_no_setpoint tick 30 1
                  (due [local_position_sub (one_metre_up (seconds 100));
                        timer_event (seconds 100)] grounded)
                  eq_refl eq_refl)).
Defined.

Lemma commanded_speed_at_work :
  exists x y z,
    fst (getNavigateSetpoint (seconds 11) (Ideal.XFin 1) two_metres)
    = Ideal.pt x y z /\
    Ideal.dist 0 0 0 x y z = 1 * Ideal.elapsed (seconds 10) (seconds 11).
Proof.
  apply (navigate_moves_at_the_commanded_speed (seconds 11) 1 two_metres
           0 0 0 2 0 0 eq_refl eq_refl eq_refl Rlt_0_1
           two_metres_has_length).
  - cbn. lia.
  - unfold Ideal.dist, Ideal.elapsed. cbn.
    replace ((2 - 0) * (2 - 0) + (0 - 0) * (0 - 0) + (0 - 0) * (0 - 0))
      with (Rsqr 2) by (unfold Rsqr; ring).
    rewrite sqrt_Rsqr by lra. lra.
Defined.

Lemma flying_in_map_fresh : state_fresh flying_in_map.
Proof. unfold state_fresh. cbn. split; [lia | reflexivity]. Defined.

Lemma set_position_at_work :
  exists w',
    setPosition (ros_spinOnce tick 30 1) (r_sleep tick) 30 hold_at_1m
      Response.default flying_in_map
    = (Val (true, {| Response.success := true; Response.message := "" |}),
       w') /\
    setpoint_type (sp (globals w')) = POSITION /\
    setpoint_yaw_type (sp (globals w')) = YAW_RATE /\
    setpoint_yaw_rate (sp (globals w')) = Ideal.XFin (1 / 2).
Proof.
  destruct (set_position_is_accepted (ros_spinOnce tick 30 1) (r_sleep tick)
              30 hold_at_1m flying_in_map)
    as (w' & H & Hty & Hyt & Hr & _).
  - reflexivity.
  - exact flying_in_map_fresh.
  - reflexivity.
  - reflexivity.
  - reflexivity.
  - lia.
  - cbn. lia.
  - reflexivity.
  - reflexivity.
  - intros ps. eexists. reflexivity.
  - apply andb_false_r.
  - reflexivity.
  - exists w'. repeat split; assumption.
Defined.

Lemma navigate_at_work :
  exists w',
    navigate (ros_spinOnce tick 30 1) (r_sleep tick) 30
      (go_east (Ideal.XFin 0) (Ideal.XFin 0) (Ideal.XFin 0))
      Response.default hovering
    = (Val (true, {| Response.success := true; Response.message := "" |}),
       w') /\
    setpoint_type (sp (globals w')) = NAVIGATE /\
    nav_speed (sp (globals w')) = Ideal.XFin (1 / 2) /\
    PoseStamped.pose (nav_start (sp (globals w')))
    = PoseStamped.pose (one_metre_up (seconds 100)).
Proof.
  destruct (navigate_is_accepted (ros_spinOnce tick 30 1) (r_sleep tick)
              30 (go_east (Ideal.XFin 0) (Ideal.XFin 0) (Ideal.XFin 0))
              hovering)
    as (w' & H & Hty & Hv & Hs & _).
  - reflexivity.
  - exact hovering_fresh.
  - exact hovering_position_fresh.
  - reflexivity.
  - reflexivity.
  - reflexivity.
  - lia.
  - cbn. lia.
  - reflexivity.
  - reflexivity.
  - intros ps. eexists. reflexivity.
  - cbn. apply Rltb_false. lra.
  - unfold neqb. cbn. rewrite Reqb_true by reflexivity. reflexivity.
  - reflexivity.
  - exists w'. split; [exact H|]. split; [exact Hty|]. split; [|exact Hs].
    rewrite Hv. cbn. rewrite Reqb_true by reflexivity.
    rewrite Reqb_false by lra. reflexivity.
Defined.

Lemma switch_and_arm_at_work :
  offboardAndArm obey (r_sleep tick) 30 willing
  = (Val tt, obey (obey willing)).
Proof.
  exact (offboardAndArm_switches_then_arms obey (r_sleep tick) 30 willing
           true (le_n_S _ _ (Nat.le_0_l 29))
           eq_refl eq_refl eq_refl eq_refl eq_refl eq_refl eq_refl eq_refl).
Defined.

Lemma offboard_timeout_at_work :
  offboardAndArm stall (r_sleep tick) 30 willing
  = (Throw "OFFBOARD timed out", stall willing).
Proof.
  exact (offboard_timeout_report stall (r_sleep tick) 30 willing true
           (le_n_S _ _ (Nat.le_0_l 29)) eq_refl eq_refl eq_refl eq_refl
           eq_refl).
Defined.

(** C1. Three commands.  [set_attitude] is waiting for a transform when
    a [set_position] and a [set_rates] are served by its
    [ros::spinOnce()].  The first is rejected as "Busy", and its
    rejection clears [busy]; the second, issued while the body of
    [set_attitude] is still executing, is not rejected: it succeeds,
    turns the setpoint from none into body rates, publishes them and
    starts the timer.  [set_attitude] then gives up on its transform. *)
Example busy_is_not_held_while_a_command_waits :
  let run := setAttitude (ros_spinOnce tick 40 1) (r_sleep tick) 40
               level_off Response.default interrupted_wait in
  setpoint_type (sp (globals interrupted_wait)) = NONE /\
  fst run = Val (true, {| Response.success := false;
                          Response.message :=
                            "Can't transform from body to body" |}) /\
  responses (sent (snd run))
    = [{| Response.success := false; Response.message := "Busy" |};
       {| Response.success := true; Response.message := "" |}] /\
  setpoint_type (sp (globals (snd run))) = RATES /\
  List.length (setpoints (sent (snd run))) = 1%nat /\
  setpoint_timer (globals (snd run)) = true.
Proof. lazy. repeat split. Qed.

Lemma projection_over_the_pole :
  let d := 6378137 * ((180 + - 80 + - 80) * (PI / 180)) in
  exists pose,
    @globalToLocal _ _ _ polar_route (Ideal.XFin 80) (Ideal.XFin 180)
      at_80_north
    = (Val pose, at_80_north) /\
    Pose.position (PoseStamped.pose pose)
    = Ideal.pt (0 + d * sin (180 * PI / 180)) (0 + d * cos (180 * PI / 180)) 0
    /\
    Pose.position (PoseStamped.pose pose)
    <> Ideal.pt (0 + d * sin (0 * PI / 180)) (0 + d * cos (0 * PI / 180)) 0.
Proof.
  intros d.
  destruct (@projection_takes_the_azimuth_at_the_target polar_route
              (Ideal.XFin 80) (Ideal.XFin 180) at_80_north _
              0 0 0 d 0 180 eq_refl eq_refl eq_refl)
    as (pose & H & Hp & Hn).
  exists pose. split; [exact H|]. split; [exact Hp|].
  apply Hn.
  - pose proof PI_RGT_0. unfold d. lra.
  - right.
    replace (0 * PI / 180) with 0 by lra.
    replace (180 * PI / 180) with PI by lra.
    rewrite cos_0, cos_PI. lra.
Defined.

Example own_fix_at_work :
  exists pose,
    globalToLocal (Ideal.XFin 80) (Ideal.XFin 0) at_80_north
    = (Val pose, at_80_north) /\
    Pose.position (PoseStamped.pose pose) = Ideal.pt 0 0 0.
Proof.
  destruct (own_fix_projects_to_no_offset at_80_north _ eq_refl)
    as (pose & H & _ & Hp & _).
  - exists 0, 0. exact (flat_inverse_coincident 80 0).
  - exists pose. split; [exact H | exact Hp].
Qed.

End AtWork.
